(** * Meal-count layout detector: a shallow embedding and its properties

    The development embeds the two meal-count parsers of the repository:
    the "debugger" parser (fuzzy labels, permissive marks, [build_all]) and
    the "monitoring" parser (exact labels, string-only marks,
    [build_report]), and the name splitter of the roster extractor.  A
    worksheet is a rectangular frame of untyped cells
    as pandas hands it over ([header=None]); text is a string of 8-bit
    characters (code points 0..255), numbers are integers. *)

From Stdlib Require Import Strings.String Strings.Ascii Lists.List Sorting.Sorted.
From Stdlib Require Import ZArith NArith Arith PeanoNat Bool Lia.
From Stdlib Require Import Numbers.DecimalString QArith Sorting.Permutation.
Import ListNotations.

Open Scope string_scope.
Open Scope nat_scope.
Open Scope list_scope.

(* ===================================================================== *)
(** ** Python text primitives *)
(* ===================================================================== *)

Module PyStr.

(** [str.isspace] on the first 256 code points. *)
Definition is_space (c : ascii) : bool :=
  let n := N_of_ascii c in
  ((9 <=? n) && (n <=? 13) || (28 <=? n) && (n <=? 32)
   || (n =? 133) || (n =? 160))%N.

(** [str.lower] on one character of the first 256 code points. *)
Definition lower_char (c : ascii) : ascii :=
  let n := N_of_ascii c in
  if ((65 <=? n) && (n <=? 90))%N then ascii_of_N (n + 32)
  else if ((192 <=? n) && (n <=? 222) && negb (n =? 215))%N
       then ascii_of_N (n + 32)
  else c.

Fixpoint lower (s : string) : string :=
  match s with
  | EmptyString => EmptyString
  | String c s' => String (lower_char c) (lower s')
  end.

Fixpoint lstrip (s : string) : string :=
  match s with
  | EmptyString => EmptyString
  | String c s' => if is_space c then lstrip s' else s
  end.

Fixpoint rstrip (s : string) : string :=
  match s with
  | EmptyString => EmptyString
  | String c s' =>
      match rstrip s' with
      | EmptyString => if is_space c then EmptyString else String c EmptyString
      | r => String c r
      end
  end.

(** [s.strip()] *)
Definition strip (s : string) : string := rstrip (lstrip s).

(** [s.rstrip(".")] *)
Fixpoint rstrip_dots (s : string) : string :=
  match s with
  | EmptyString => EmptyString
  | String c s' =>
      match rstrip_dots s' with
      | EmptyString => if Ascii.eqb c "."%char then EmptyString
                       else String c EmptyString
      | r => String c r
      end
  end.

(** [t.startswith(p)] *)
Fixpoint startswith (t p : string) : bool :=
  match p, t with
  | EmptyString, _ => true
  | String _ _, EmptyString => false
  | String a p', String b t' => Ascii.eqb a b && startswith t' p'
  end.

(** [t.endswith(p)] for a one-character [p]. *)
Fixpoint endswith_char (t : string) (p : ascii) : bool :=
  match t with
  | EmptyString => false
  | String c EmptyString => Ascii.eqb c p
  | String _ t' => endswith_char t' p
  end.

(** [p in t] on strings. *)
Fixpoint contains (t p : string) : bool :=
  startswith t p ||
  match t with
  | EmptyString => false
  | String _ t' => contains t' p
  end.

(** [t in [a; b; ...]] on a list of strings. *)
Definition in_list (t : string) (l : list string) : bool :=
  existsb (String.eqb t) l.

(** First field of [s.split()]: the leading run of non-blank characters
    once leading blanks are dropped. *)
Fixpoint take_word (s : string) : string :=
  match s with
  | EmptyString => EmptyString
  | String c s' => if is_space c then EmptyString else String c (take_word s')
  end.

Definition split_first (s : string) : string := take_word (lstrip s).

(** [s.split(sep)[0]]: the text before the first occurrence of [sep]. *)
Fixpoint before (sep s : string) : string :=
  if startswith s sep then EmptyString
  else match s with
       | EmptyString => EmptyString
       | String c s' => String c (before sep s')
       end.

(** Membership of a character in the class [[a-z0-9 ]]. *)
Definition is_lower_alnum_space (c : ascii) : bool :=
  let n := N_of_ascii c in
  ((97 <=? n) && (n <=? 122) || (48 <=? n) && (n <=? 57) || (n =? 32))%N.

(** [re.sub(r'[^a-z0-9 ]+', '', s)] *)
Fixpoint keep_lower_alnum_space (s : string) : string :=
  match s with
  | EmptyString => EmptyString
  | String c s' =>
      if is_lower_alnum_space c then String c (keep_lower_alnum_space s')
      else keep_lower_alnum_space s'
  end.

Definition nonempty (s : string) : bool :=
  match s with EmptyString => false | _ => true end.

End PyStr.

(* ===================================================================== *)
(** ** Cells and frames *)
(* ===================================================================== *)

(** A cell as pandas returns it: [CAbsent] is NaN/None. *)
Inductive cell : Type :=
| CAbsent
| CNum (z : Z)
| CBool (b : bool)
| CText (s : string).

Definition isna (x : cell) : bool :=
  match x with CAbsent => true | _ => false end.

Definition is_str (x : cell) : bool :=
  match x with CText _ => true | _ => false end.

(** [isinstance(x, (int, float)) and not pd.isna(x)], on the Python
    objects of a mixed column; [bool] is a subclass of [int]. *)
Definition is_number (x : cell) : bool :=
  match x with CNum _ | CBool _ => true | _ => false end.

(** [str(x)] *)
Definition py_str (x : cell) : string :=
  match x with
  | CAbsent => "nan"
  | CNum z => NilZero.string_of_int (Z.to_int z)
  | CBool true => "True"
  | CBool false => "False"
  | CText s => s
  end.

(** [x.strip()] is non-empty, for a text cell. *)
Definition text_nonblank (x : cell) : bool :=
  match x with
  | CText s => PyStr.nonempty (PyStr.strip s)
  | _ => false
  end.

(** A frame of [shape0] rows and [shape1] columns; a short row reads as
    padded with absent cells, as pandas pads ragged input. *)
Record DataFrame : Type := mkDF {
  df_rows : list (list cell);
  df_ncols : nat
}.

Definition shape0 (df : DataFrame) : nat := length (df_rows df).
Definition shape1 (df : DataFrame) : nat := df_ncols df.

(** [df.iat[r, c]] for a position inside the frame. *)
Definition iat (df : DataFrame) (r c : nat) : cell :=
  nth c (nth r (df_rows df) []) CAbsent.

(** [df.iloc[r].tolist()] *)
Definition iloc_row (df : DataFrame) (r : nat) : list cell :=
  map (iat df r) (seq 0 (shape1 df)).

(** [range(lo, hi)] *)
Definition range (lo hi : nat) : list nat := seq lo (hi - lo).

(** [sum] of a list of booleans. *)
Definition count_true (l : list bool) : nat := length (filter id l).

(** Number of cells of [l] satisfying [p]. *)
Definition count_if {A} (p : A -> bool) (l : list A) : nat :=
  length (filter p l).

(** [sorted(l)] under the order [le]: stable. *)
Fixpoint insert_sorted {A} (le : A -> A -> bool) (x : A) (l : list A) : list A :=
  match l with
  | [] => [x]
  | y :: l' => if le x y then x :: l else y :: insert_sorted le x l'
  end.

Definition py_sorted {A} (le : A -> A -> bool) (l : list A) : list A :=
  fold_right (insert_sorted le) [] l.

(** Tuple order on [(column, name)] pairs. *)
Definition pair_le (a b : nat * string) : bool :=
  (fst a <? fst b) || ((fst a =? fst b) && String.leb (snd a) (snd b)).

(** The four sub-column labels. *)
Inductive label : Type := At | B | L | P.

Definition label_eqb (a b : label) : bool :=
  match a, b with
  | At, At | B, B | L, L | P, P => true
  | _, _ => false
  end.

(** [lab in ["B","L","P"]] *)
Definition is_meal (lab : label) : bool :=
  match lab with At => false | _ => true end.

(** One output row [(Day, Meal, MarkedCount, AttendanceMarked)]. *)
Record DayMealCount : Type := mkCount {
  Day : string;
  Meal : label;
  MarkedCount : nat;
  AttendanceMarked : nat
}.

(** A [dict] keyed by day name, in insertion order: assigning to a key that
    is present replaces its value in place. *)
Fixpoint dict_set {V} (k : string) (v : V) (d : list (string * V))
  : list (string * V) :=
  match d with
  | [] => [(k, v)]
  | (k', v') :: d' =>
      if String.eqb k' k then (k, v) :: d' else (k', v') :: dict_set k v d'
  end.

Fixpoint dict_get {V} (k : string) (d : list (string * V)) : option V :=
  match d with
  | [] => None
  | (k', v') :: d' => if String.eqb k' k then Some v' else dict_get k d'
  end.

(** Column ranges of the day blocks: each day-start column runs to the
    next one, the last to the frame's width. *)
Fixpoint block_ranges (day_starts : list (nat * string)) (width : nat)
  : list (nat * nat * string) :=
  match day_starts with
  | [] => []
  | (c, day) :: rest =>
      (c, match rest with (c', _) :: _ => c' | [] => width end, day)
        :: block_ranges rest width
  end.

(** Number of absent cells among the first ten columns of row [r]:
    [df.iloc[r, 0:10].isna().sum()]. *)
Definition na_in_first_ten (df : DataFrame) (r : nat) : nat :=
  count_if isna (firstn 10 (iloc_row df r)).

(** End of the student rows, shared by both parsers up to [bound]. *)
Definition find_end_row (df : DataFrame) (start_row : nat) (bound : Z) : Z :=
  let end_row :=
    match find (fun r => 8 <=? na_in_first_ten df r)
               (range start_row (shape0 df)) with
    | Some r => (Z.of_nat r - 1)%Z
    | None => Z.of_nat start_row
    end in
  if (end_row <? Z.of_nat start_row)%Z
  then Z.min (Z.of_nat start_row + bound) (Z.of_nat (shape0 df) - 1)
  else end_row.

(** Row indices of [df.iloc[start_row:end_row+1, :]]. *)
Definition student_rows (df : DataFrame) (start_row : nat) (end_row : Z)
  : list nat :=
  range start_row (Nat.min (Z.to_nat (end_row + 1)) (shape0 df)).

(** [students.iloc[:, col]] *)
Definition column (df : DataFrame) (rows : list nat) (col : nat) : list cell :=
  map (fun r => iat df r col) rows.

(** Calendar dates, as [Timestamp.date()] yields them. *)
Record date : Type := mkDate {
  year : nat;
  month : nat;
  day_of_month : nat
}.

Definition date_leb (a b : date) : bool :=
  (year a <? year b)
  || ((year a =? year b)
      && ((month a <? month b)
          || ((month a =? month b) && (day_of_month a <=? day_of_month b)))).

Definition date_min (a b : date) : date := if date_leb a b then a else b.
Definition date_max (a b : date) : date := if date_leb a b then b else a.

(** [min(dates)] and [max(dates)]; [None] on the empty list. *)
Definition min_date (l : list date) : option date :=
  match l with
  | [] => None
  | d :: l' => Some (fold_left date_min l' d)
  end.

Definition max_date (l : list date) : option date :=
  match l with
  | [] => None
  | d :: l' => Some (fold_left date_max l' d)
  end.

Definition dec (n : nat) : string := NilZero.string_of_uint (Nat.to_uint n).

Definition pad2 (n : nat) : string :=
  if n <? 10 then String.append "0" (dec n) else dec n.

Definition pad4 (n : nat) : string :=
  if n <? 10 then String.append "000" (dec n)
  else if n <? 100 then String.append "00" (dec n)
  else if n <? 1000 then String.append "0" (dec n)
  else dec n.

(** [str(d)] for a date: ISO [YYYY-MM-DD]. *)
Definition date_str (d : date) : string :=
  (pad4 (year d) ++ "-" ++ pad2 (month d) ++ "-" ++ pad2 (day_of_month d))%string.

(* ===================================================================== *)
(** ** The debugger parser (fuzzy labels, permissive marks) *)
(* ===================================================================== *)

Module Debugger.

Import PyStr.

(** [norm] on a text. *)
Definition norm_text (s : string) : string :=
  keep_lower_alnum_space (lower (strip s)).

Definition norm (x : cell) : string := norm_text (py_str x).

Definition day_prefixes : list string :=
  ["mon"; "tue"; "wed"; "thu"; "fri";
   "monday"; "tuesday"; "wednesday"; "thursday"; "friday"].

Definition is_day_token (x : cell) : bool :=
  match x with
  | CText _ => existsb (startswith (norm x)) day_prefixes
  | _ => false
  end.

Definition meal_label_from_token (x : cell) : option label :=
  let t := norm x in
  if startswith t "at" || startswith t "att" || contains t "attend"
  then Some At
  else if in_list t ["b"; "br"; "bf"; "breakfast"; "am snack"; "amsnack"]
          || startswith t "break" || startswith t "brk"
  then Some B
  else if in_list t ["l"; "ln"; "lunch"] || startswith t "lun"
  then Some L
  else if in_list t ["p"; "pm"; "pmsnack"; "snack pm"; "snackpm"; "pm snack";
                     "pmmeal"; "snack"]
          || contains t "pm" && contains t "snack"
  then Some P
  else None.

Definition nonempty_mark (x : cell) : bool :=
  match x with
  | CAbsent => false
  | CText s => 0 <? String.length (strip s)
  | _ => true
  end.

(** Failure reasons of [parse_sheet]. *)
Inductive parse_error : Type :=
| NoDayRow | NoLabelRow | NoDayStarts | NoLabels | NoStudentRows.

Definition error_detail (e : parse_error) : string :=
  match e with
  | NoDayRow => "No day row found"
  | NoLabelRow => "No label row found after day row"
  | NoDayStarts => "Could not locate day start columns"
  | NoLabels => "Found day row but no meal/attendance labels underneath"
  | NoStudentRows => "No student rows detected"
  end.

(** Step 1: first row, among the first 80, with two day tokens or more. *)
Definition find_day_row (df : DataFrame) : option nat :=
  find (fun r => 2 <=? count_true (map is_day_token (iloc_row df r)))
       (range 0 (Nat.min 80 (shape0 df))).

(** Step 2: next row with a value, within five rows. *)
Definition label_probe (x : cell) : bool :=
  text_nonblank x || negb (isna x).

Definition find_label_row (df : DataFrame) (day_row : nat) : option nat :=
  find (fun r => existsb label_probe (iloc_row df r))
       (range (day_row + 1) (Nat.min (day_row + 6) (shape0 df))).

(** [v.strip().split()[0].rstrip('.')] *)
Definition short_name (x : cell) : string :=
  match x with
  | CText s => rstrip_dots (split_first (strip s))
  | _ => EmptyString
  end.

(** Step 3: day-start columns with their names, sorted. *)
Definition collect_day_starts (df : DataFrame) (day_row : nat)
  : list (nat * string) :=
  flat_map (fun c => let v := iat df day_row c in
                     if is_day_token v then [(c, short_name v)] else [])
           (range 0 (shape1 df)).

Definition day_starts (df : DataFrame) (day_row : nat) : list (nat * string) :=
  py_sorted pair_le (collect_day_starts df day_row).

(** Step 4: labels of the columns [c .. end), sorted by column. *)
Definition collect_labels (df : DataFrame) (label_row c e : nat)
  : list (nat * label) :=
  flat_map (fun cc => let val := iat df label_row cc in
                      if is_str val || negb (isna val)
                      then match meal_label_from_token val with
                           | Some ml => [(cc, ml)]
                           | None => []
                           end
                      else [])
           (range c e).

Definition col_le (a b : nat * label) : bool := fst a <=? fst b.

Definition block_labels (df : DataFrame) (label_row c e : nat)
  : list (nat * label) :=
  py_sorted col_le (collect_labels df label_row c e).

Definition add_block (df : DataFrame) (label_row : nat)
  (blocks : list (string * list (nat * label))) (rng : nat * nat * string)
  : list (string * list (nat * label)) :=
  let '(c, e, day) := rng in
  match collect_labels df label_row c e with
  | [] => blocks
  | _ => dict_set day (block_labels df label_row c e) blocks
  end.

Definition build_blocks (df : DataFrame) (day_row label_row : nat)
  : list (string * list (nat * label)) :=
  fold_left (add_block df label_row)
            (block_ranges (day_starts df day_row) (shape1 df)) [].

(** Step 5: first row below the labels whose column 1 holds a name. *)
Definition find_start_row (df : DataFrame) (label_row : nat) : option nat :=
  find (fun r => text_nonblank (if 1 <? shape1 df then iat df r 1 else CAbsent))
       (range (label_row + 1) (Nat.min (label_row + 200) (shape0 df))).

Section Counting.

(** The check box "treat day as present when ANY meal is marked". *)
Variable assume_attendance_if_any_meal : bool.

(** [pd.to_datetime(v, errors="coerce")] reduced to its date; [None] when
    the value does not parse. *)
Variable to_datetime : cell -> option date.

(** Marks of the leftmost attendance column of a block, 0 without one. *)
Definition att_cols (cols : list (nat * label)) : list nat :=
  map fst (filter (fun cl => label_eqb (snd cl) At) cols).

Definition meal_cols (cols : list (nat * label)) : list nat :=
  map fst (filter (fun cl => is_meal (snd cl)) cols).

Definition att_direct (df : DataFrame) (rows : list nat)
  (cols : list (nat * label)) : nat :=
  match att_cols cols with
  | c :: _ => count_if nonempty_mark (column df rows c)
  | [] => 0
  end.

(** Student rows on which some meal column of the block is marked. *)
Definition any_meal_rows (df : DataFrame) (rows : list nat)
  (mcols : list nat) : nat :=
  count_if (fun r => existsb (fun c => nonempty_mark (iat df r c)) mcols) rows.

Definition att_present (df : DataFrame) (rows : list nat)
  (cols : list (nat * label)) : nat :=
  let a := att_direct df rows cols in
  if (a =? 0) && assume_attendance_if_any_meal
  then match meal_cols cols with
       | [] => a
       | mcols => any_meal_rows df rows mcols
       end
  else a.

(** Step 7, one block: a record per meal column. *)
Definition count_block (df : DataFrame) (rows : list nat)
  (blk : string * list (nat * label)) : list DayMealCount :=
  let (day, cols) := blk in
  let a := att_present df rows cols in
  flat_map (fun cl : nat * label =>
              let (col_idx, lab) := cl in
              if is_meal lab
              then [mkCount day lab
                      (count_if nonempty_mark (column df rows col_idx)) a]
              else [])
           cols.

Definition aggregate (df : DataFrame) (rows : list nat)
  (blocks : list (string * list (nat * label))) : list DayMealCount :=
  flat_map (count_block df rows) blocks.

(** Earliest date found in the rows [day_row-5 .. day_row]. *)
Definition scrape_week_start (df : DataFrame) (day_row : nat) : option date :=
  min_date
    (flat_map (fun r =>
       flat_map (fun c => match to_datetime (iat df r c) with
                          | Some d => [d]
                          | None => []
                          end)
                (range 0 (shape1 df)))
       (range (day_row - 5) (day_row + 1))).

Record Info : Type := mkInfo {
  info_day_row : nat;
  info_label_row : nat;
  info_start_row : nat;
  info_end_row : Z;
  info_blocks : list (string * list (nat * label));
  info_week_start : option string
}.

Definition parse_sheet (df : DataFrame)
  : (list DayMealCount * Info) + parse_error :=
  match find_day_row df with
  | None => inr NoDayRow
  | Some day_row =>
  match find_label_row df day_row with
  | None => inr NoLabelRow
  | Some label_row =>
  match day_starts df day_row with
  | [] => inr NoDayStarts
  | _ :: _ =>
  match build_blocks df day_row label_row with
  | [] => inr NoLabels
  | blocks =>
  match find_start_row df label_row with
  | None => inr NoStudentRows
  | Some start_row =>
      let end_row := find_end_row df start_row 60 in
      let rows := student_rows df start_row end_row in
      inl (aggregate df rows blocks,
           mkInfo day_row label_row start_row end_row blocks
                  (option_map date_str (scrape_week_start df day_row)))
  end end end end end.

(** One line of the debug log. *)
Inductive DebugEntry : Type :=
| DebugError (sheet : string) (detail : string)
| DebugOk (sheet : string) (detail : Info).

(** A summary row: the sheet's name and one of its records. *)
Definition SheetRecord : Type := (string * DayMealCount)%type.

(** One turn of the loop of [build_all] over the sheets. *)
Definition build_step (acc : list SheetRecord * list DebugEntry)
  (sheet : string * DataFrame) : list SheetRecord * list DebugEntry :=
  let (all_records, debug) := acc in
  let (s, df) := sheet in
  match parse_sheet df with
  | inr err => (all_records, debug ++ [DebugError s (error_detail err)])
  | inl (counts, info) =>
      (all_records ++ map (fun row => (s, row)) counts,
       debug ++ [DebugOk s info])
  end.

Definition build_all (workbook : list (string * DataFrame))
  : list SheetRecord * list DebugEntry :=
  fold_left build_step workbook ([], []).

End Counting.

End Debugger.

(* ===================================================================== *)
(** ** Exceptions *)
(* ===================================================================== *)

Inductive exn : Type := IndexError.

(** A computation either returns or raises. *)
Inductive outcome (A : Type) : Type :=
| Returned (a : A)
| Raised (e : exn).

Arguments Returned {A} a.
Arguments Raised {A} e.

Definition bind {A B} (m : outcome A) (k : A -> outcome B) : outcome B :=
  match m with
  | Returned a => k a
  | Raised e => Raised e
  end.

Notation "x <- m ;; k" := (bind m (fun x => k))
  (at level 61, m at next level, right associativity).

Fixpoint mapM {A B} (f : A -> outcome B) (l : list A) : outcome (list B) :=
  match l with
  | [] => Returned []
  | a :: l' => b <- f a ;; bs <- mapM f l' ;; Returned (b :: bs)
  end.

Fixpoint foldM {S A} (f : S -> A -> outcome S) (l : list A) (s : S)
  : outcome S :=
  match l with
  | [] => Returned s
  | a :: l' => s' <- f s a ;; foldM f l' s'
  end.

(** A [for] loop left by [break] at the first element satisfying [p]. *)
Fixpoint findM {A} (p : A -> outcome bool) (l : list A) : outcome (option A) :=
  match l with
  | [] => Returned None
  | a :: l' => b <- p a ;; if b then Returned (Some a) else findM p l'
  end.

(** [df.iat[r, c]], raising outside the frame. *)
Definition iat_checked (df : DataFrame) (r c : nat) : outcome cell :=
  if (r <? shape0 df) && (c <? shape1 df)
  then Returned (iat df r c)
  else Raised IndexError.

(* ===================================================================== *)
(** ** The monitoring parser (exact labels, string-only marks) *)
(* ===================================================================== *)

Module Monitor.

Import PyStr.

Definition is_alnum (c : ascii) : bool :=
  let n := N_of_ascii c in
  ((65 <=? n) && (n <=? 90) || (97 <=? n) && (n <=? 122)
   || (48 <=? n) && (n <=? 57))%N.

Fixpoint take_alnum (s : string) : string :=
  match s with
  | EmptyString => EmptyString
  | String c s' => if is_alnum c then String c (take_alnum s') else EmptyString
  end.

(** Rest of [s] after a prefix equal to [p] up to letter case. *)
Fixpoint match_nocase (s p : string) : option string :=
  match p, s with
  | EmptyString, _ => Some s
  | String _ _, EmptyString => None
  | String a p', String b s' =>
      if Ascii.eqb a (lower_char b) then match_nocase s' p' else None
  end.

(** A match of [Class\s*([A-Za-z0-9]+)] (case-insensitive) starting at the
    head of [s]: its group 1. *)
Definition class_at (s : string) : option string :=
  match match_nocase s "class" with
  | Some rest =>
      let w := take_alnum (lstrip rest) in
      if nonempty w then Some w else None
  | None => None
  end.

(** [re.search] of that pattern: the leftmost match. *)
Fixpoint search_class (s : string) : option string :=
  match class_at s with
  | Some w => Some w
  | None => match s with
            | EmptyString => None
            | String _ s' => search_class s'
            end
  end.

(** [_safe_str] *)
Definition _safe_str (x : cell) : string :=
  if isna x then EmptyString else py_str x.

(** The mark test of this parser: a text that is not blank. *)
Definition str_mark (x : cell) : bool := text_nonblank x.

(** A day header: a text whose trimmed form ends with a period. *)
Definition is_day_cell (x : cell) : bool :=
  match x with
  | CText s => endswith_char (strip s) "."%char
  | _ => false
  end.

Definition day_name (x : cell) : string :=
  match x with
  | CText s => rstrip_dots (strip s)
  | _ => EmptyString
  end.

(** [val.strip() in ["At","B","L","P"]] for a text cell. *)
Definition exact_label (x : cell) : option label :=
  match x with
  | CText s =>
      let t := strip s in
      if String.eqb t "At" then Some At
      else if String.eqb t "B" then Some B
      else if String.eqb t "L" then Some L
      else if String.eqb t "P" then Some P
      else None
  | _ => None
  end.

(** Facility (cell (7,3)) and class name, from the 30 top rows. *)
Definition header_step (df : DataFrame)
  (st : option string * option string) (rc : nat * nat)
  : outcome (option string * option string) :=
  let (r, c) := rc in
  v <- iat_checked df r c ;;
  Returned
    match v with
    | CText s =>
        let facility := if (r =? 7) && (c =? 3) then Some (strip s)
                        else fst st in
        let class_name :=
          if contains s "Class"
          then match search_class s with
               | Some w => Some w
               | None => snd st
               end
          else snd st in
        (facility, class_name)
    | _ => st
    end.

Definition scan_header (df : DataFrame)
  : outcome (option string * option string) :=
  foldM (header_step df)
        (list_prod (range 0 30) (range 0 (Nat.min (shape1 df) 100)))
        (None, None).

(** Day row: first row from row 8 on, among the first 60, holding a day
    header; the label row is the next one. *)
Definition find_day_row (df : DataFrame) : option nat :=
  find (fun r => existsb is_day_cell (iloc_row df r))
       (range 8 (Nat.min 60 (shape0 df))).

Definition collect_day_starts (df : DataFrame) (day_row : nat)
  : outcome (list (nat * string)) :=
  foldM (fun acc c =>
           day <- iat_checked df day_row c ;;
           Returned (if is_day_cell day then acc ++ [(c, day_name day)]
                     else acc))
        (range 0 (shape1 df)) [].

Definition collect_labels (df : DataFrame) (label_row c e : nat)
  : outcome (list (nat * label)) :=
  foldM (fun acc cc =>
           val <- iat_checked df label_row cc ;;
           Returned match exact_label val with
                    | Some lab => acc ++ [(cc, lab)]
                    | None => acc
                    end)
        (range c e) [].

Definition col_le (a b : nat * label) : bool := fst a <=? fst b.

Definition add_block (df : DataFrame) (label_row : nat)
  (blocks : list (string * list (nat * label))) (rng : nat * nat * string)
  : outcome (list (string * list (nat * label))) :=
  let '(c, e, dayname) := rng in
  labels <- collect_labels df label_row c e ;;
  Returned match py_sorted col_le labels with
           | [] => blocks
           | sorted_labels => dict_set dayname sorted_labels blocks
           end.

Definition build_blocks (df : DataFrame) (label_row : nat)
  (day_starts : list (nat * string))
  : outcome (list (string * list (nat * label))) :=
  foldM (add_block df label_row)
        (block_ranges (py_sorted pair_le day_starts) (shape1 df)) [].

(** First row below the labels with a number in column 0 and a name in
    column 1. *)
Definition find_start_row (df : DataFrame) (label_row : nat)
  : outcome (option nat) :=
  findM (fun r =>
           v0 <- iat_checked df r 0 ;;
           v1 <- iat_checked df r 1 ;;
           Returned (is_number v0 && text_nonblank v1))
        (range (label_row + 1) (Nat.min (label_row + 200) (shape0 df))).

Definition att_cols (cols : list (nat * label)) : list nat :=
  map fst (filter (fun cl => label_eqb (snd cl) At) cols).

Definition att_marked (df : DataFrame) (rows : list nat)
  (cols : list (nat * label)) : nat :=
  match att_cols cols with
  | c :: _ => count_if str_mark (column df rows c)
  | [] => 0
  end.

Definition count_block (df : DataFrame) (rows : list nat)
  (blk : string * list (nat * label)) : list DayMealCount :=
  let (day, cols) := blk in
  let a := att_marked df rows cols in
  flat_map (fun cl : nat * label =>
              let (col_idx, lab) := cl in
              if is_meal lab
              then [mkCount day lab
                      (count_if str_mark (column df rows col_idx)) a]
              else [])
           cols.

Definition aggregate (df : DataFrame) (rows : list nat)
  (blocks : list (string * list (nat * label))) : list DayMealCount :=
  flat_map (count_block df rows) blocks.

Record Parsed : Type := mkParsed {
  Campus : string;
  Class : string;
  WeekStart : option date;
  WeekEnd : option date;
  Counts : list DayMealCount;
  StudentRows : nat * Z
}.

(** [x or default] on an optional text. *)
Definition or_default (x : option string) (default : string) : string :=
  match x with
  | Some s => if nonempty s then s else default
  | None => default
  end.

Section Dates.

(** [pd.to_datetime(v)] reduced to its date; [None] when the call raises
    or yields NaT. *)
Variable to_datetime : cell -> option date.

(** Dates under the "Date" labels of the row above the day row: for each
    such column the first of the two cells below that parses. *)
Definition week_dates_step (df : DataFrame) (date_label_row : nat)
  (acc : list date) (c : nat) : outcome (list date) :=
  lab <- iat_checked df date_label_row c ;;
  if String.eqb (strip (_safe_str lab)) "Date"
  then
    v1 <- iat_checked df (date_label_row + 1) c ;;
    match to_datetime v1 with
    | Some d => Returned (acc ++ [d])
    | None =>
        v2 <- iat_checked df (date_label_row + 2) c ;;
        match to_datetime v2 with
        | Some d => Returned (acc ++ [d])
        | None => Returned acc
        end
    end
  else Returned acc.

Definition week_dates (df : DataFrame) (day_row : nat) : outcome (list date) :=
  foldM (week_dates_step df (day_row - 1)) (range 0 (shape1 df)) [].

Definition parse_sheet (df : DataFrame) : outcome (option Parsed) :=
  hdr <- scan_header df ;;
  let (facility, class_name) := hdr in
  match find_day_row df with
  | None => Returned None
  | Some day_row =>
  let label_row := day_row + 1 in
  day_starts <- collect_day_starts df day_row ;;
  match day_starts with
  | [] => Returned None
  | _ :: _ =>
  blocks <- build_blocks df label_row day_starts ;;
  match blocks with
  | [] => Returned None
  | _ :: _ =>
  start <- find_start_row df label_row ;;
  match start with
  | None => Returned None
  | Some start_row =>
      let end_row := find_end_row df start_row 80 in
      let rows := student_rows df start_row end_row in
      let counts := aggregate df rows blocks in
      dates <- week_dates df day_row ;;
      Returned (Some (mkParsed (or_default facility "Unknown Campus")
                               (or_default class_name "Unknown Class")
                               (min_date dates) (max_date dates)
                               counts (start_row, end_row)))
  end end end end.

End Dates.

End Monitor.

(* ===================================================================== *)
(** ** The layout both parsers compute *)
(* ===================================================================== *)

(** Both parsers locate day-start columns on the day row, cut the columns
    into blocks and read the labels of each block; they differ in the
    tests they apply to a cell.  The layout is stated here once, over
    those tests, without the sorting steps (which find their input in
    order already). *)
Module Layout.

(** Cells of [l] that [h] accepts, each with its index. *)
Definition tagged {B} (h : nat -> option B) (l : list nat) : list (nat * B) :=
  flat_map (fun c => match h c with Some b => [(c, b)] | None => [] end) l.

Section Tests.

Variable is_day : cell -> bool.
Variable name : cell -> string.
Variable classify : cell -> option label.

Definition day_starts_of (df : DataFrame) (day_row : nat)
  : list (nat * string) :=
  tagged (fun c => let v := iat df day_row c in
                   if is_day v then Some (name v) else None)
         (range 0 (shape1 df)).

Definition labels_of (df : DataFrame) (label_row c e : nat)
  : list (nat * label) :=
  tagged (fun cc => classify (iat df label_row cc)) (range c e).

Definition store_block (df : DataFrame) (label_row : nat)
  (blocks : list (string * list (nat * label))) (rng : nat * nat * string)
  : list (string * list (nat * label)) :=
  let '(c, e, day) := rng in
  match labels_of df label_row c e with
  | [] => blocks
  | ls => dict_set day ls blocks
  end.

Definition ranges_of (df : DataFrame) (day_row : nat)
  : list (nat * nat * string) :=
  block_ranges (day_starts_of df day_row) (shape1 df).

Definition blocks_of (df : DataFrame) (day_row label_row : nat)
  : list (string * list (nat * label)) :=
  fold_left (store_block df label_row) (ranges_of df day_row) [].

End Tests.

(** The label test of the debugger parser, guard included. *)
Definition fuzzy_label (val : cell) : option label :=
  if is_str val || negb (isna val)
  then Debugger.meal_label_from_token val
  else None.

(** Column ranges that start at [lo], follow one another without gap or
    overlap, are each non-empty, and end at [hi]. *)
Fixpoint chain (lo : nat) (rs : list (nat * nat * string)) (hi : nat) : Prop :=
  match rs with
  | [] => lo = hi
  | (c, e, _) :: rs' => c = lo /\ c < e /\ chain e rs' hi
  end.

(** Column [col] lies in the range [rng]. *)
Definition in_block (col : nat) (rng : nat * nat * string) : Prop :=
  fst (fst rng) <= col < snd (fst rng).

(** Order of tagged cells by their column. *)
Definition by_column {B} (a b : nat * B) : Prop := fst a < fst b.

(** One turn of the loop over the ranges, for labels read by [lab]: a
    range without label is passed over, a labelled one is stored under
    its day name. *)
Definition store (lab : nat * nat * string -> list (nat * label))
  (d : list (string * list (nat * label))) (rng : nat * nat * string)
  : list (string * list (nat * label)) :=
  match lab rng with
  | [] => d
  | ls => dict_set (snd rng) ls d
  end.

End Layout.

(* ===================================================================== *)
(** ** The report assembler of the monitoring parser *)
(* ===================================================================== *)

(** The tables are pandas frames, modelled as lists of rows.  Three facts
    of pandas are built in: [groupby] drops the rows whose key holds a
    missing value ([dropna=True]); [astype(str)] prints a missing period as
    the text NaT, which is an ordinary, non-missing text afterwards; a mean
    of 0/1 flags is an exact rational here.  The rows of an intermediate
    table come in the order of first occurrence of their key; the written
    dashboards are sorted by [sort_values], on keys that are unique. *)
Module Report.

Import PyStr.

(** A row of the flat table. *)
Record SummaryRow : Type := mkRow {
  Campus : string;
  Class : string;
  Week : string;
  Day : string;
  Meal : label;
  MarkedCount : nat;
  AttendanceMarked : nat;
  Issue_MissingRecording : bool
}.

(** The flat table once [WeekStart] and [Month] are added. *)
Record FlatRow : Type := mkFlat {
  base : SummaryRow;
  WeekStart : option date;
  Month : string
}.

(** Rows of [Dashboard_Month] and [Dashboard_Month_Week]. *)
Record MonthRow : Type := mkMonthRow {
  m_Campus : string;
  m_Month : string;
  m_Missing : nat;
  m_Pct : Q
}.

Record MonthWeekRow : Type := mkMonthWeekRow {
  w_Campus : string;
  w_Month : string;
  w_Week : string;
  w_Missing : nat;
  w_Pct : Q
}.

(** One row of [daily_ok]: a campus, class, week and day with a known week
    start, and whether all three meals were recorded. *)
Record DailyRow : Type := mkDaily {
  d_key : list string * date;
  d_Campus : string;
  d_Month : string;
  d_Week : string;
  All3MealsRecorded : nat
}.

(** The three sheets of the written workbook. *)
Record Workbook : Type := mkWorkbook {
  Dashboard_Month : list MonthRow;
  Dashboard_Month_Week : list MonthWeekRow;
  Summary_All : list FlatRow
}.

Fixpoint list_eqb {A} (eqb : A -> A -> bool) (a b : list A) : bool :=
  match a, b with
  | [], [] => true
  | x :: a', y :: b' => eqb x y && list_eqb eqb a' b'
  | _, _ => false
  end.

Definition key_eqb : list string -> list string -> bool := list_eqb String.eqb.

Definition date_eqb (a b : date) : bool :=
  (year a =? year b) && (month a =? month b)
  && (day_of_month a =? day_of_month b).

Definition daily_key_eqb (a b : list string * date) : bool :=
  key_eqb (fst a) (fst b) && date_eqb (snd a) (snd b).

(** Order of [sort_values] on several text columns. *)
Fixpoint lex_leb (a b : list string) : bool :=
  match a, b with
  | [], _ => true
  | _ :: _, [] => false
  | x :: a', y :: b' => String.ltb x y || (String.eqb x y && lex_leb a' b')
  end.

(** Group keys, each once, in the order of their first occurrence. *)
Fixpoint distinct {K} (eqb : K -> K -> bool) (l : list K) : list K :=
  match l with
  | [] => []
  | k :: l' => k :: filter (fun k' => negb (eqb k' k)) (distinct eqb l')
  end.

(** [groupby(key).size()] *)
Definition group_size {R} (key : R -> list string) (rows : list R)
  : list (list string * nat) :=
  map (fun k => (k, count_if (fun r => key_eqb (key r) k) rows))
      (distinct key_eqb (map key rows)).

(** [Series.mean()] of a non-empty column of counts. *)
Definition mean (l : list nat) : Q :=
  Qred (Z.of_nat (list_sum l) # Pos.of_nat (length l)).

(** [groupby(key)[All3MealsRecorded].mean()] *)
Definition group_mean (key : DailyRow -> list string) (rows : list DailyRow)
  : list (list string * Q) :=
  map (fun k => (k, mean (map All3MealsRecorded
                            (filter (fun r => key_eqb (key r) k) rows))))
      (distinct key_eqb (map key rows)).

Fixpoint lookup {V} (k : list string) (t : list (list string * V))
  : option V :=
  match t with
  | [] => None
  | (k', v) :: t' => if key_eqb k' k then Some v else lookup k t'
  end.

(** Outer merge on the key with both value columns filled with 0. *)
Definition merge_outer (left : list (list string * nat))
  (right : list (list string * Q)) : list (list string * nat * Q) :=
  map (fun k => (k,
                 match lookup k left with Some n => n | None => 0 end,
                 match lookup k right with Some q => q | None => 0%Q end))
      (distinct key_eqb (map fst left ++ map fst right)).

(** [str] of the month period of a week start; a missing date prints as
    the text NaT. *)
Definition month_str (ws : option date) : string :=
  match ws with
  | Some d => String.append (pad4 (year d))
                (String.append "-" (pad2 (month d)))
  | None => "NaT"
  end.

Section Assemble.

Variable to_datetime : cell -> option date.

Definition parse_week_start (s : string) : option date :=
  if contains s "to"
  then to_datetime (CText (strip (before "to" s)))
  else None.

Definition add_columns (r : SummaryRow) : FlatRow :=
  let ws := parse_week_start (Week r) in
  mkFlat r ws (month_str ws).

Definition key_campus_month (f : FlatRow) : list string :=
  [Campus (base f); Month f].

Definition key_campus_month_week (f : FlatRow) : list string :=
  [Campus (base f); Month f; Week (base f)].

(** Key of [daily_ok] for a row with a week start; rows without one are
    dropped by [groupby]. *)
Definition daily_key (f : FlatRow) : option (list string * date) :=
  match WeekStart f with
  | Some d => Some ([Campus (base f); Class (base f); Week (base f);
                     Month f; Day (base f)], d)
  | None => None
  end.

Definition has_daily_key (k : list string * date) (f : FlatRow) : bool :=
  match daily_key f with
  | Some k' => daily_key_eqb k' k
  | None => false
  end.

Definition daily_keys (rows : list FlatRow) : list (list string * date) :=
  flat_map (fun f => match daily_key f with
                     | Some k => [k]
                     | None => []
                     end) rows.

Definition daily_row (rows : list FlatRow) (k : list string * date)
  : DailyRow :=
  let grp := filter (has_daily_key k) rows in
  mkDaily k (nth 0 (fst k) EmptyString) (nth 3 (fst k) EmptyString)
            (nth 2 (fst k) EmptyString)
            (if count_if (fun f => 0 <? MarkedCount (base f)) grp =? 3
             then 1 else 0).

Definition daily_ok (rows : list FlatRow) : list DailyRow :=
  let meals3 := filter (fun f => is_meal (Meal (base f))) rows in
  map (daily_row meals3) (distinct daily_key_eqb (daily_keys meals3)).

Definition month_le (a b : MonthRow) : bool :=
  lex_leb [m_Month a; m_Campus a] [m_Month b; m_Campus b].

Definition month_week_le (a b : MonthWeekRow) : bool :=
  lex_leb [w_Month a; w_Week a; w_Campus a] [w_Month b; w_Week b; w_Campus b].

Definition to_month_row (x : list string * nat * Q) : MonthRow :=
  let '(k, n, q) := x in
  mkMonthRow (nth 0 k EmptyString) (nth 1 k EmptyString) n q.

Definition to_month_week_row (x : list string * nat * Q) : MonthWeekRow :=
  let '(k, n, q) := x in
  mkMonthWeekRow (nth 0 k EmptyString) (nth 1 k EmptyString)
                 (nth 2 k EmptyString) n q.

Definition dash_month (rows : list FlatRow) : list MonthRow :=
  let miss := filter (fun f => Issue_MissingRecording (base f)) rows in
  let campus_month_missing := group_size key_campus_month miss in
  let campus_month_kpi :=
    group_mean (fun d => [d_Campus d; d_Month d]) (daily_ok rows) in
  py_sorted month_le
    (map to_month_row (merge_outer campus_month_missing campus_month_kpi)).

Definition dash_month_week (rows : list FlatRow) : list MonthWeekRow :=
  let miss := filter (fun f => Issue_MissingRecording (base f)) rows in
  let campus_week_missing := group_size key_campus_month_week miss in
  let campus_week_kpi :=
    group_mean (fun d => [d_Campus d; d_Month d; d_Week d]) (daily_ok rows) in
  py_sorted month_week_le
    (map to_month_week_row (merge_outer campus_week_missing campus_week_kpi)).

(** The workbook written from the collected records. *)
Definition assemble (all_records : list SummaryRow) : Workbook :=
  match all_records with
  | [] => mkWorkbook [] [] []
  | _ :: _ =>
      let summary := map add_columns all_records in
      mkWorkbook (dash_month summary) (dash_month_week summary) summary
  end.

(** Rows contributed by one parsed sheet. *)
Definition sheet_records (p : Monitor.Parsed) : list SummaryRow :=
  let wk :=
    match Monitor.WeekStart p with
    | Some ws =>
        String.append (date_str ws)
          (String.append " to "
             match Monitor.WeekEnd p with
             | Some we => date_str we
             | None => "None"
             end)
    | None => "Unknown Week"
    end in
  map (fun c : DayMealCount =>
         let '(mkCount day meal marked att) := c in
         mkRow (Monitor.Campus p) (Monitor.Class p) wk day meal marked att
               ((marked =? 0) && (0 <? att)))
      (Monitor.Counts p).

(** One turn of the loop of [build_report] over the sheets: a sheet that
    does not parse, or yields no count, is passed over. *)
Definition build_step (all_records : list SummaryRow)
  (sheet : string * DataFrame) : outcome (list SummaryRow) :=
  parsed <- Monitor.parse_sheet to_datetime (snd sheet) ;;
  Returned match parsed with
           | None => all_records
           | Some p =>
               match Monitor.Counts p with
               | [] => all_records
               | _ :: _ => all_records ++ sheet_records p
               end
           end.

Definition collect_records (workbook : list (string * DataFrame))
  : outcome (list SummaryRow) :=
  foldM build_step workbook [].

Definition build_report (workbook : list (string * DataFrame))
  : outcome Workbook :=
  all_records <- collect_records workbook ;;
  Returned (assemble all_records).

End Assemble.

End Report.

(* ===================================================================== *)
(** ** Sample inputs *)
(* ===================================================================== *)

Module Samples.

(** A date reader for the examples: ISO texts [YYYY-MM-DD] only. *)
Definition digit (c : ascii) : option nat :=
  let n := N_of_ascii c in
  if ((48 <=? n) && (n <=? 57))%N then Some (N.to_nat (n - 48)) else None.

Definition iso_to_datetime (x : cell) : option date :=
  match x with
  | CText (String y1 (String y2 (String y3 (String y4 (String "-"
            (String m1 (String m2 (String "-"
            (String d1 (String d2 EmptyString)))))))))) =>
      match digit y1, digit y2, digit y3, digit y4,
            digit m1, digit m2, digit d1, digit d2 with
      | Some a, Some b, Some c, Some d, Some e, Some f, Some g, Some h =>
          Some (mkDate (1000 * a + 100 * b + 10 * c + d) (10 * e + f)
                       (10 * g + h))
      | _, _, _, _, _, _, _, _ => None
      end
  | _ => None
  end.

Definition t (s : string) : cell := CText s.
Definition na : cell := CAbsent.
Definition n (z : Z) : cell := CNum z.

(** Scenario 1 of the specification, for the debugger parser. *)
Definition scenario1 : DataFrame :=
  mkDF (repeat [] 5 ++
        [ [t ""; t "Mon."; t ""; t ""; t "Tue."; t ""];
          [t ""; t "At"; t "B"; t "L"; t "P"; t "At"; t "B"];
          [na; t "Ann"; t "X"; t "X"];
          [na; t "Bob"];
          [na; t "Cy"] ]) 7.

(** A weekly form for the monitoring parser: ten columns, day row 8,
    one student, attendance marked and breakfast not; no date. *)
Definition undated_form : DataFrame :=
  mkDF (repeat [] 8 ++
        [ [na; na; t "Mon."];
          [na; na; t "At"; t "B"];
          [n 1; t "Ann"; t "X"] ] ++ repeat [] 19) 10.

(** The same form with a "Date" label above the day row and a date below
    it, and breakfast marked. *)
Definition dated_form : DataFrame :=
  mkDF (repeat [] 7 ++
        [ [na; na; na; na; t "Date"];
          [na; na; t "Mon."; na; t "2024-01-08"];
          [na; na; t "At"; t "B"];
          [n 1; t "Ann"; t "X"; t "X"] ] ++ repeat [] 19) 10.

(** A roster for the debugger parser whose day blocks sit in columns 10
    and 11: the first student row has 9 of its first 10 cells absent. *)
Definition sparse_roster : DataFrame :=
  mkDF [ repeat na 10 ++ [t "Mon"; t "Tue"];
         repeat na 10 ++ [t "B"; t "L"];
         [na; t "Ann"] ++ repeat na 8 ++ [t "X"; t "X"];
         [na; t "Bob"] ++ repeat na 8 ++ [t "X"];
         [] ] 12.

(** A roster for the debugger parser with the day name "Mon" on two
    day-start columns (2 and 4), each with a breakfast and a lunch column,
    and two students. *)
Definition repeated_day : DataFrame :=
  mkDF [ [na; na; t "Mon"; na; t "Mon"];
         [na; na; t "B"; t "L"; t "B"; t "L"];
         [na; t "Ann"; t "X"; t "X"];
         [na; t "Bob"; t "X"; na; t "X"];
         [] ] 10.

Definition repeated_day_counts : list DayMealCount :=
  [mkCount "Mon" B 1 1; mkCount "Mon" L 0 1].

Definition repeated_day_info : Debugger.Info :=
  Debugger.mkInfo 0 1 2 3 [("Mon", [(4, B); (5, L)])] None.

(** A weekly form for the monitoring parser with "Mon." on two day-start
    columns. *)
Definition repeated_day_form : DataFrame :=
  mkDF (repeat [] 8 ++
        [ [na; na; t "Mon."; na; t "Mon."];
          [na; na; t "At"; t "B"; t "At"; t "B"];
          [n 1; t "Ann"; t "X"; t "X"];
          [n 2; t "Bob"; t "X"; na; t "X"; t "X"] ] ++ repeat [] 18) 10.

Definition repeated_day_parsed : Monitor.Parsed :=
  Monitor.mkParsed "Unknown Campus" "Unknown Class" None None
                   [mkCount "Mon" B 1 1] (10, 11%Z).

(** A roster whose Monday block has a blank attendance column (2) and
    meals marked in columns 3 and 4. *)
Definition blank_attendance : DataFrame :=
  mkDF [ [na; na; t "Mon"; na; na; t "Tue"];
         [na; na; t "At"; t "B"; t "L"; t "At"; t "B"];
         [na; t "Ann"; na; t "X"; na; t "X"; t "X"];
         [na; t "Bob"; na; na; t "X"; t "X"; t "X"];
         [] ] 10.

(** A roster whose Monday block has two attendance columns (2 and 3). *)
Definition double_attendance : DataFrame :=
  mkDF [ [na; na; t "Mon"; na; na; t "Tue"];
         [na; na; t "At"; t "Att"; t "B"; t "At"; t "B"];
         [na; t "Ann"; t "X"; na; t "X"];
         [na; t "Bob"; na; t "X"; t "X"];
         [] ] 10.

(** The same for the monitoring parser. *)
Definition double_attendance_form : DataFrame :=
  mkDF (repeat [] 8 ++
        [ [na; na; t "Mon."];
          [na; na; t "At"; t "At"; t "B"];
          [n 1; t "Ann"; t "X"; na; t "X"];
          [n 2; t "Bob"; na; t "X"; t "X"] ] ++ repeat [] 18) 10.

(** A form with no day header. *)
Definition blank_form : DataFrame := mkDF (repeat [] 30) 10.

(** A form of fewer than 30 rows. *)
Definition short_form : DataFrame := mkDF (repeat [] 12) 10.

(** What the parsers return on these sheets. *)
Definition scenario1_counts : list DayMealCount :=
  [mkCount "Mon" B 1 1; mkCount "Mon" L 1 1;
   mkCount "Tue" P 0 0; mkCount "Tue" B 0 0].

Definition scenario1_info : Debugger.Info :=
  Debugger.mkInfo 5 6 7 7
    [("Mon", [(1, At); (2, B); (3, L)]); ("Tue", [(4, P); (5, At); (6, B)])]
    None.

Definition sparse_roster_counts : list DayMealCount :=
  [mkCount "Mon" B 2 2; mkCount "Tue" L 1 1].

Definition sparse_roster_info : Debugger.Info :=
  Debugger.mkInfo 0 1 2 4 [("Mon", [(10, B)]); ("Tue", [(11, L)])] None.

Definition undated_parsed : Monitor.Parsed :=
  Monitor.mkParsed "Unknown Campus" "Unknown Class" None None
                   [mkCount "Mon" B 0 1] (10, 10%Z).

Definition dated_parsed : Monitor.Parsed :=
  Monitor.mkParsed "Unknown Campus" "Unknown Class"
                   (Some (mkDate 2024 1 8)) (Some (mkDate 2024 1 8))
                   [mkCount "Mon" B 1 1] (10, 10%Z).


(** The records of [dated_form] and of [undated_form], and the report
    written for a workbook made of these two sheets. *)
Definition dated_row : Report.SummaryRow :=
  Report.mkRow "Unknown Campus" "Unknown Class" "2024-01-08 to 2024-01-08"
               "Mon" B 1 1 false.

Definition undated_row : Report.SummaryRow :=
  Report.mkRow "Unknown Campus" "Unknown Class" "Unknown Week"
               "Mon" B 0 1 true.

Definition mixed_report : Report.Workbook :=
  Report.mkWorkbook
    [Report.mkMonthRow "Unknown Campus" "2024-01" 0 0;
     Report.mkMonthRow "Unknown Campus" "NaT" 1 0]
    [Report.mkMonthWeekRow "Unknown Campus" "2024-01"
                           "2024-01-08 to 2024-01-08" 0 0;
     Report.mkMonthWeekRow "Unknown Campus" "NaT" "Unknown Week" 1 0]
    [Report.mkFlat dated_row (Some (mkDate 2024 1 8)) "2024-01";
     Report.mkFlat undated_row None "NaT"].

End Samples.

(* ===================================================================== *)
(** ** Properties in the words of the specification *)
(* ===================================================================== *)

Module Spec.

(** [p] is a prefix of [t]. *)
Definition has_prefix (p t : string) : Prop :=
  exists r, t = String.append p r.

(** [p] occurs in [t]. *)
Definition has_substring (p t : string) : Prop :=
  exists a b, t = String.append a (String.append p b).

Definition attendance_rule (t : string) : Prop :=
  has_prefix "at" t \/ has_prefix "att" t \/ has_substring "attend" t.

Definition breakfast_rule (t : string) : Prop :=
  In t ["b"; "br"; "bf"; "breakfast"; "am snack"; "amsnack"]
  \/ has_prefix "break" t \/ has_prefix "brk" t.

Definition lunch_rule (t : string) : Prop :=
  In t ["l"; "ln"; "lunch"] \/ has_prefix "lun" t.

Definition pm_snack_rule (t : string) : Prop :=
  In t ["p"; "pm"; "pmsnack"; "snack pm"; "snackpm"; "pm snack"; "pmmeal";
        "snack"]
  \/ (has_substring "pm" t /\ has_substring "snack" t).

(** The precedence table: the first rule that matches decides. *)
Inductive meal_class (t : string) : option label -> Prop :=
| class_attendance :
    attendance_rule t -> meal_class t (Some At)
| class_breakfast :
    ~ attendance_rule t -> breakfast_rule t -> meal_class t (Some B)
| class_lunch :
    ~ attendance_rule t -> ~ breakfast_rule t -> lunch_rule t ->
    meal_class t (Some L)
| class_pm_snack :
    ~ attendance_rule t -> ~ breakfast_rule t -> ~ lunch_rule t ->
    pm_snack_rule t -> meal_class t (Some P)
| class_none :
    ~ attendance_rule t -> ~ breakfast_rule t -> ~ lunch_rule t ->
    ~ pm_snack_rule t -> meal_class t None.

(** A text made of whitespace only (the empty text included). *)
Definition blank (s : string) : Prop :=
  forall c, In c (list_ascii_of_string s) -> PyStr.is_space c = true.

(** A text with a character that is not whitespace. *)
Definition has_nonspace (s : string) : Prop :=
  exists c, In c (list_ascii_of_string s) /\ PyStr.is_space c = false.

(** What [is_marked] answers on each kind of value. *)
Inductive marked : cell -> bool -> Prop :=
| marked_absent : marked CAbsent false
| marked_blank s : blank s -> marked (CText s) false
| marked_text s : has_nonspace s -> marked (CText s) true
| marked_number z : marked (CNum z) true
| marked_boolean b : marked (CBool b) true.

End Spec.

Module LayoutSpec.

(** [r] is the first row of [lo .. hi) that satisfies [P]. *)
Definition first_row_with (P : nat -> Prop) (lo hi r : nat) : Prop :=
  lo <= r < hi /\ P r /\ forall r', lo <= r' < r -> ~ P r'.

(** Number of cells of row [r] classified as day tokens (fuzzy). *)
Definition day_tokens (df : DataFrame) (r : nat) : nat :=
  count_true (map Debugger.is_day_token (iloc_row df r)).

(** Number of cells of row [r] that are day headers of the monitoring
    parser: texts ending with a period. *)
Definition day_cells (df : DataFrame) (r : nat) : nat :=
  count_if Monitor.is_day_cell (iloc_row df r).

(** Row [r] is mostly empty: 8 or more of its first 10 cells are absent. *)
Definition mostly_empty (df : DataFrame) (r : nat) : Prop :=
  8 <= na_in_first_ten df r.

(** [end_row] is the row before the first mostly empty row at or after
    [start]. *)
Definition end_before_first_empty (df : DataFrame) (start : nat)
  (end_row : Z) : Prop :=
  forall r, first_row_with (mostly_empty df) start (shape0 df) r ->
            end_row = (Z.of_nat r - 1)%Z.

(** The same, for a first mostly empty row strictly below [start]; when
    [start] itself is mostly empty [end_row] is the bounded fallback. *)
Definition end_row_rule (df : DataFrame) (start : nat) (bound : Z)
  (end_row : Z) : Prop :=
  (forall r, first_row_with (mostly_empty df) start (shape0 df) r ->
             start < r -> end_row = (Z.of_nat r - 1)%Z)
  /\ (mostly_empty df start ->
      end_row = Z.min (Z.of_nat start + bound) (Z.of_nat (shape0 df) - 1)).

End LayoutSpec.

Module BlockSpec.

(** The ranges [rs] cut the columns [lo .. hi) into non-empty, adjacent,
    ordered blocks: every range is non-empty, each ends where the next
    starts, an earlier one ends before a later one starts, a column lies in
    some range exactly when it lies in [lo .. hi), the first range starts
    at [lo] and the last one ends at [hi]. *)
Definition partition_of (rs : list (nat * nat * string)) (lo hi : nat) : Prop :=
  (forall rng, In rng rs -> fst (fst rng) < snd (fst rng))
  /\ (forall i ri rj, nth_error rs i = Some ri ->
        nth_error rs (S i) = Some rj -> snd (fst ri) = fst (fst rj))
  /\ (forall i j ri rj, i < j -> nth_error rs i = Some ri ->
        nth_error rs j = Some rj -> snd (fst ri) <= fst (fst rj))
  /\ (forall col, lo <= col < hi
                  <-> exists rng, In rng rs /\ Layout.in_block col rng)
  /\ (exists first, nth_error rs 0 = Some first /\ fst (fst first) = lo)
  /\ (exists last, nth_error rs (length rs - 1) = Some last
                   /\ snd (fst last) = hi).

(** Labels of the columns of a range, under the label test [classify]. *)
Definition range_labels (classify : cell -> option label) (df : DataFrame)
  (label_row : nat) (rng : nat * nat * string) : list (nat * label) :=
  Layout.labels_of classify df label_row (fst (fst rng)) (snd (fst rng)).

(** Labels of the columns of a range, as the debugger parser reads them. *)
Definition debugger_labels (df : DataFrame) (label_row : nat)
  (rng : nat * nat * string) : list (nat * label) :=
  Debugger.block_labels df label_row (fst (fst rng)) (snd (fst rng)).

(** Among the ranges [rs], in column order, [cols] are the labels of the
    last range named [day] that has any label. *)
Definition last_labelled (lab : nat * nat * string -> list (nat * label))
  (rs : list (nat * nat * string)) (day : string) (cols : list (nat * label))
  : Prop :=
  exists i rng,
    nth_error rs i = Some rng /\ snd rng = day
    /\ cols = lab rng /\ cols <> []
    /\ forall j rng', i < j -> nth_error rs j = Some rng' ->
                      snd rng' = day -> lab rng' = [].

(** The blocks kept by a parser: one per day name, holding the labels of
    the last labelled range of that name. *)
Definition keyed_by_day (lab : nat * nat * string -> list (nat * label))
  (rs : list (nat * nat * string))
  (blocks : list (string * list (nat * label))) : Prop :=
  NoDup (map fst blocks)
  /\ forall day cols, In (day, cols) blocks <-> last_labelled lab rs day cols.

(** One block for each range that has a label, duplicates of a day name
    included. *)
Definition block_per_day_start (lab : nat * nat * string -> list (nat * label))
  (rs : list (nat * nat * string))
  (blocks : list (string * list (nat * label))) : Prop :=
  blocks = flat_map (fun rng => match lab rng with
                                | [] => []
                                | ls => [(snd rng, ls)]
                                end) rs.

End BlockSpec.

Module AggregateSpec.

(** [c0] is the leftmost column of the block labelled Attendance. *)
Definition leftmost_attendance (cols : list (nat * label)) (c0 : nat) : Prop :=
  In (c0, At) cols /\ forall c, In (c, At) cols -> c0 <= c.

(** [df'] differs from [df], on the student rows, at most in the
    attendance columns of the block other than [c0]. *)
Definition same_but_other_attendance (df df' : DataFrame) (rows : list nat)
  (cols : list (nat * label)) (c0 : nat) : Prop :=
  forall r c, In r rows -> c = c0 \/ ~ In (c, At) cols ->
              iat df' r c = iat df r c.

(** Number of student rows with a mark in some meal column of the block. *)
Definition rows_with_a_meal (df : DataFrame) (rows : list nat)
  (cols : list (nat * label)) : nat :=
  count_if (fun r =>
              existsb (fun cl : nat * label =>
                         is_meal (snd cl)
                         && Debugger.nonempty_mark (iat df r (fst cl)))
                      cols)
           rows.

(** The attendance column of the block, if it has one, is blank on the
    student rows. *)
Definition attendance_blank (df : DataFrame) (rows : list nat)
  (cols : list (nat * label)) : Prop :=
  forall c, hd_error (Debugger.att_cols cols) = Some c ->
  forall r, In r rows -> Debugger.nonempty_mark (iat df r c) = false.

(** Some meal column of the block is marked on some student row. *)
Definition some_meal_marked (df : DataFrame) (rows : list nat)
  (cols : list (nat * label)) : Prop :=
  exists r c lab, In r rows /\ In (c, lab) cols /\ is_meal lab = true
                  /\ Debugger.nonempty_mark (iat df r c) = true.

End AggregateSpec.

Module BatchSpec.

(** The debug entry owed to a sheet by the debugger parser. *)
Definition debug_entry (flag : bool) (dt : cell -> option date)
  (sheet : string * DataFrame) : Debugger.DebugEntry :=
  match Debugger.parse_sheet flag dt (snd sheet) with
  | inr e => Debugger.DebugError (fst sheet) (Debugger.error_detail e)
  | inl (_, info) => Debugger.DebugOk (fst sheet) info
  end.

(** The summary rows owed to a sheet by the debugger parser. *)
Definition sheet_rows (flag : bool) (dt : cell -> option date)
  (sheet : string * DataFrame) : list Debugger.SheetRecord :=
  match Debugger.parse_sheet flag dt (snd sheet) with
  | inl (counts, _) => map (fun row => (fst sheet, row)) counts
  | inr _ => []
  end.

(** The summary rows owed to a sheet by the monitoring parser. *)
Definition monitor_rows (dt : cell -> option date)
  (sheet : string * DataFrame) : list Report.SummaryRow :=
  match Monitor.parse_sheet dt (snd sheet) with
  | Returned (Some p) => Report.sheet_records p
  | _ => []
  end.

(** No sheet of the workbook makes the monitoring parser raise. *)
Definition all_sheets_return (dt : cell -> option date)
  (workbook : list (string * DataFrame)) : Prop :=
  forall sheet, In sheet workbook ->
                exists res, Monitor.parse_sheet dt (snd sheet) = Returned res.

End BatchSpec.

Module ReportSpec.

(** The week of a record parses as "start to end". *)
Definition week_parses (dt : cell -> option date) (r : Report.SummaryRow)
  : bool :=
  match Report.parse_week_start dt (Report.Week r) with
  | Some _ => true
  | None => false
  end.

(** The records whose week parses. *)
Definition dated_records (dt : cell -> option date)
  (recs : list Report.SummaryRow) : list Report.SummaryRow :=
  filter (week_parses dt) recs.

(** The row has a week start. *)
Definition known (f : Report.FlatRow) : bool :=
  match Report.WeekStart f with Some _ => true | None => false end.

(** Number of rows of [rows] in the group [k]. *)
Definition group_count {R} (key : R -> list string) (rows : list R)
  (k : list string) : nat :=
  count_if (fun r => Report.key_eqb (key r) k) rows.

(** The KPI of the group [k], 0 when the group has no daily row. *)
Definition group_pct (dkey : Report.DailyRow -> list string)
  (D : list Report.DailyRow) (k : list string) : Q :=
  match Report.lookup k (Report.group_mean dkey D) with
  | Some q => q
  | None => 0%Q
  end.

(** The records whose week does not parse leave the monthly tables as
    they would be without them. *)
Definition excluded_from_rollups (dt : cell -> option date)
  (recs : list Report.SummaryRow) : Prop :=
  Report.Dashboard_Month (Report.assemble dt recs)
  = Report.Dashboard_Month (Report.assemble dt (dated_records dt recs))
  /\ Report.Dashboard_Month_Week (Report.assemble dt recs)
     = Report.Dashboard_Month_Week
         (Report.assemble dt (dated_records dt recs)).

End ReportSpec.

(* ===================================================================== *)
(** ** Further notions used to state properties of the parsers *)
(* ===================================================================== *)

Module TextSpec.

(** The text holds none of the letters a label can start with. *)
Definition first_letter_free (t : string) : Prop :=
  forall c, In c (list_ascii_of_string t) ->
            c <> "a"%char /\ c <> "b"%char /\ c <> "l"%char /\ c <> "p"%char
            /\ c <> "s"%char.

(** A decimal digit or the minus sign. *)
Definition is_digit_or_minus (c : ascii) : Prop :=
  let n := N_of_ascii c in (48 <= n <= 57)%N \/ c = "-"%char.

(** A word: a non-empty text without whitespace. *)
Definition word (w : string) : Prop :=
  w <> EmptyString
  /\ Forall (fun c => PyStr.is_space c = false) (list_ascii_of_string w).

End TextSpec.

Module ResultSpec.


End ResultSpec.

(* ===================================================================== *)
(** ** The roster extractor: splitting a child name *)
(* ===================================================================== *)

Module Roster.

Import PyStr.

(** The text is empty or begins with whitespace. *)
Definition at_gap (s : string) : bool :=
  match s with
  | EmptyString => true
  | String c _ => is_space c
  end.

(** Puts [c] in front of the first word of [ws]. *)
Definition cons_char (c : ascii) (ws : list string) : list string :=
  match ws with
  | w :: ws' => String c w :: ws'
  | [] => [String c EmptyString]
  end.

(** [s.split()]: the maximal runs of characters that are not whitespace. *)
Fixpoint split (s : string) : list string :=
  match s with
  | EmptyString => []
  | String c s' =>
      if is_space c then split s'
      else if at_gap s' then String c EmptyString :: split s'
      else cons_char c (split s')
  end.

(** [" ".join(l)] *)
Fixpoint join (l : list string) : string :=
  match l with
  | [] => EmptyString
  | [w] => w
  | w :: l' => String.append w (String " " (join l'))
  end.

(** [bool(x)]: the absent cell of a pandas column is NaN, a float that
    is not zero. *)
Definition truthy (x : cell) : bool :=
  match x with
  | CAbsent => true
  | CNum z => negb (z =? 0)%Z
  | CBool b => b
  | CText s => nonempty s
  end.

(** [l[i]] *)
Definition item (l : list string) (i : nat) : outcome string :=
  match nth_error l i with
  | Some w => Returned w
  | None => Raised IndexError
  end.

(** [l[-1]] *)
Definition item_last (l : list string) : outcome string :=
  match l with
  | [] => Raised IndexError
  | _ :: _ => Returned (last l EmptyString)
  end.

(** [_split_name] *)
Definition _split_name (full : cell) : outcome (string * string) :=
  if negb (truthy full) || negb (nonempty (strip (py_str full)))
  then Returned (EmptyString, EmptyString)
  else
    let parts := split (strip (py_str full)) in
    if length parts =? 1
    then p0 <- item parts 0 ;; Returned (p0, EmptyString)
    else pl <- item_last parts ;;
         Returned (join (removelast parts), pl).

End Roster.

(* ===================================================================== *)
(** ** More sample sheets *)
(* ===================================================================== *)

Module MoreSamples.

Import Samples.




End MoreSamples.

(* ===================================================================== *)
(** * Text primitives: reflection lemmas *)
(* ===================================================================== *)

Module PyStrFacts.

Import PyStr.

Lemma startswith_append (p r : string) : startswith (String.append p r) p = true.
Proof.
  induction p as [|a p IH]; simpl.
  - now destruct r.
  - now rewrite Ascii.eqb_refl, IH.
Qed.

Lemma startswith_prefix (t p : string) :
  startswith t p = true <-> Spec.has_prefix p t.
Proof.
  split.
  - revert t. induction p as [|a p IH]; intros t H.
    + now exists t.
    + destruct t as [|b t]; simpl in H; [discriminate|].
      apply andb_true_iff in H. destruct H as [Hab Ht].
      apply Ascii.eqb_eq in Hab. subst b.
      destruct (IH _ Ht) as [r Hr]. exists r. simpl. now rewrite <- Hr.
  - intros [r ->]. apply startswith_append.
Qed.

Lemma contains_substring (t p : string) :
  contains t p = true <-> Spec.has_substring p t.
Proof.
  split.
  - induction t as [|c t IH]; intros H.
    + cbn [contains] in H. rewrite orb_false_r in H.
      apply startswith_prefix in H.
      destruct H as [r Hr]. now exists EmptyString, r.
    + cbn [contains] in H. apply orb_true_iff in H. destruct H as [H|H].
      * apply startswith_prefix in H. destruct H as [r Hr].
        now exists EmptyString, r.
      * destruct (IH H) as (a & b & Hab).
        exists (String c a), b. simpl. now rewrite <- Hab.
  - intros (a & b & ->). induction a as [|c a IH].
    + change (String.append EmptyString (String.append p b))
        with (String.append p b).
      pose proof (startswith_append p b) as H.
      destruct (String.append p b); cbn [contains]; now rewrite H.
    + change (String.append (String c a) (String.append p b))
        with (String c (String.append a (String.append p b))).
      cbn [contains]. rewrite IH. apply orb_true_r.
Qed.

Lemma in_list_In (t : string) (l : list string) :
  in_list t l = true <-> In t l.
Proof.
  unfold in_list. rewrite existsb_exists. split.
  - intros (x & Hx & Heq). apply String.eqb_eq in Heq. now subst.
  - intros H. exists t. split; [assumption | apply String.eqb_refl].
Qed.

Lemma rstrip_empty (s : string) : rstrip s = EmptyString <-> Spec.blank s.
Proof.
  unfold Spec.blank. induction s as [|c s IH]; simpl.
  - split; [intros _ c [] | reflexivity].
  - destruct (rstrip s) eqn:E.
    + destruct (is_space c) eqn:Hc.
      * split; [|reflexivity]. intros _ c' [<-|Hin]; [assumption|].
        now apply IH.
      * split; [discriminate|]. intros H.
        rewrite (H c (or_introl eq_refl)) in Hc. discriminate.
    + split; [discriminate|]. intros H.
      assert (Hs : String a s0 = EmptyString)
        by (apply IH; intros c' Hc'; apply H; now right).
      discriminate.
Qed.

Lemma lstrip_blank (s : string) : Spec.blank (lstrip s) <-> Spec.blank s.
Proof.
  unfold Spec.blank. induction s as [|c s IH]; simpl.
  - tauto.
  - destruct (is_space c) eqn:Hc.
    + rewrite IH. split.
      * intros H c' [<-|Hin]; [assumption | now apply H].
      * intros H c' Hin. apply H. now right.
    + simpl. tauto.
Qed.

Lemma strip_empty (s : string) : strip s = EmptyString <-> Spec.blank s.
Proof. unfold strip. now rewrite rstrip_empty, lstrip_blank. Qed.

Lemma not_blank_nonspace (s : string) :
  ~ Spec.blank s <-> Spec.has_nonspace s.
Proof.
  unfold Spec.blank, Spec.has_nonspace.
  induction s as [|c s IH]; simpl.
  - split; [intros H; exfalso; apply H; intros c [] | intros (c & [] & _)].
  - split.
    + intros H. destruct (is_space c) eqn:Hc.
      * assert (Hs : ~ (forall c', In c' (list_ascii_of_string s) ->
                                   is_space c' = true)).
        { intros Hall. apply H. intros c' [<-|Hin]; auto. }
        apply IH in Hs. destruct Hs as (c' & Hin & Hc').
        exists c'. auto.
      * exists c. auto.
    + intros (c' & Hin & Hc') Hall.
      rewrite (Hall c' Hin) in Hc'. discriminate.
Qed.

Lemma length_pos_nonempty (s : string) :
  (0 <? String.length s) = true <-> s <> EmptyString.
Proof.
  destruct s; simpl; split; intros H; try congruence; try discriminate.
  reflexivity.
Qed.

End PyStrFacts.

(* ===================================================================== *)
(** * The classifiers of the debugger parser *)
(* ===================================================================== *)

Lemma bool_decide_iff (b : bool) (P : Prop) :
  (b = true <-> P) -> (b = false <-> ~ P).
Proof.
  intros H. destruct b; split; intros H'; try discriminate; try reflexivity.
  - exfalso. apply H'. now apply H.
  - intros HP. apply H in HP. discriminate.
Qed.

Module ClassifierFacts.

Import PyStr PyStrFacts Debugger.

Lemma attendance_test (t : string) :
  startswith t "at" || startswith t "att" || contains t "attend" = true
  <-> Spec.attendance_rule t.
Proof.
  unfold Spec.attendance_rule.
  rewrite !orb_true_iff, !startswith_prefix, contains_substring. tauto.
Qed.

Lemma breakfast_test (t : string) :
  in_list t ["b"; "br"; "bf"; "breakfast"; "am snack"; "amsnack"]
  || startswith t "break" || startswith t "brk" = true
  <-> Spec.breakfast_rule t.
Proof.
  unfold Spec.breakfast_rule.
  rewrite !orb_true_iff, !startswith_prefix, in_list_In. tauto.
Qed.

Lemma lunch_test (t : string) :
  in_list t ["l"; "ln"; "lunch"] || startswith t "lun" = true
  <-> Spec.lunch_rule t.
Proof.
  unfold Spec.lunch_rule.
  rewrite orb_true_iff, startswith_prefix, in_list_In. tauto.
Qed.

Lemma pm_snack_test (t : string) :
  in_list t ["p"; "pm"; "pmsnack"; "snack pm"; "snackpm"; "pm snack";
             "pmmeal"; "snack"]
  || contains t "pm" && contains t "snack" = true
  <-> Spec.pm_snack_rule t.
Proof.
  unfold Spec.pm_snack_rule.
  rewrite orb_true_iff, andb_true_iff, !contains_substring, in_list_In.
  tauto.
Qed.

(** The precedence table determines the class. *)
Lemma meal_class_functional (t : string) (a b : option label) :
  Spec.meal_class t a -> Spec.meal_class t b -> a = b.
Proof.
  intros Ha Hb. destruct Ha; destruct Hb; try reflexivity; contradiction.
Qed.

(** C6. On every text cell the fuzzy meal classifier follows the fixed
    precedence Attendance, Breakfast, Lunch, PM-Snack over the normalised
    text, each class with its matching rule (exact set, prefix or
    substring); the first class that matches wins and a text that matches
    none classifies to none. *)
Theorem meal_label_precedence (s : string) :
  Spec.meal_class (norm (CText s)) (meal_label_from_token (CText s)).
Proof.
  unfold meal_label_from_token.
  set (t := norm (CText s)).
  destruct (startswith t "at" || startswith t "att" || contains t "attend")
    eqn:Ha.
  { apply Spec.class_attendance. now apply attendance_test. }
  apply (bool_decide_iff _ _ (attendance_test t)) in Ha.
  destruct (in_list t ["b"; "br"; "bf"; "breakfast"; "am snack"; "amsnack"]
            || startswith t "break" || startswith t "brk") eqn:Hb.
  { apply Spec.class_breakfast; [assumption | now apply breakfast_test]. }
  apply (bool_decide_iff _ _ (breakfast_test t)) in Hb.
  destruct (in_list t ["l"; "ln"; "lunch"] || startswith t "lun") eqn:Hl.
  { apply Spec.class_lunch; [assumption | assumption | now apply lunch_test]. }
  apply (bool_decide_iff _ _ (lunch_test t)) in Hl.
  destruct (in_list t ["p"; "pm"; "pmsnack"; "snack pm"; "snackpm";
                       "pm snack"; "pmmeal"; "snack"]
            || contains t "pm" && contains t "snack") eqn:Hp.
  { apply Spec.class_pm_snack; try assumption. now apply pm_snack_test. }
  apply (bool_decide_iff _ _ (pm_snack_test t)) in Hp.
  now apply Spec.class_none.
Qed.

Lemma nonempty_mark_text (s : string) :
  nonempty_mark (CText s) = false <-> Spec.blank s.
Proof.
  unfold nonempty_mark. rewrite <- strip_empty.
  destruct (strip s); cbn; split; intros H; congruence.
Qed.

(** C8. The permissive mark detector answers false exactly on an absent
    value and on a text that is empty or whitespace only; it answers true
    on every number (zero included), every boolean and every text with a
    character that is not whitespace. *)
Theorem nonempty_mark_spec (x : cell) :
  Spec.marked x (nonempty_mark x)
  /\ (nonempty_mark x = false
      <-> x = CAbsent \/ exists s, x = CText s /\ Spec.blank s).
Proof.
  split.
  - destruct x as [|z|b|s]; try constructor.
    destruct (nonempty_mark (CText s)) eqn:E.
    + apply Spec.marked_text. apply not_blank_nonspace.
      intros Hb. apply nonempty_mark_text in Hb. congruence.
    + apply Spec.marked_blank. now apply nonempty_mark_text.
  - destruct x as [|z|b|s].
    + simpl. split; auto.
    + simpl. split; [discriminate|]. intros [H|(s & H & _)]; discriminate.
    + simpl. split; [discriminate|]. intros [H|(s & H & _)]; discriminate.
    + rewrite nonempty_mark_text. split.
      * intros H. right. now exists s.
      * intros [H|(s' & H & Hb)]; [discriminate|]. now inversion H; subst.
Qed.

End ClassifierFacts.

(* ===================================================================== *)
(** * Loops over ranges *)
(* ===================================================================== *)

Module RangeFacts.

Lemma in_range (lo hi r : nat) : In r (range lo hi) <-> lo <= r < hi.
Proof. unfold range. rewrite in_seq. lia. Qed.

Lemma find_seq_Some (p : nat -> bool) (n lo r : nat) :
  find p (seq lo n) = Some r
  <-> lo <= r < lo + n /\ p r = true
      /\ forall r', lo <= r' < r -> p r' = false.
Proof.
  revert lo. induction n as [|n IH]; intros lo; simpl.
  - split; [discriminate | lia].
  - destruct (p lo) eqn:Hlo.
    + split.
      * intros H. inversion H; subst r.
        repeat split; try lia; auto; intros r' Hr'; lia.
      * intros (Hr & Hp & Hmin). f_equal.
        destruct (Nat.eq_dec lo r) as [|Hne]; [assumption|].
        rewrite (Hmin lo) in Hlo; [discriminate | lia].
    + rewrite IH. split.
      * intros (Hr & Hp & Hmin). repeat split; try lia; auto.
        intros r' Hr'. destruct (Nat.eq_dec r' lo) as [->|Hne]; auto.
        apply Hmin. lia.
      * intros (Hr & Hp & Hmin).
        assert (r <> lo) by (intros ->; congruence).
        repeat split; try lia; auto. intros r' Hr'. apply Hmin. lia.
Qed.

Lemma find_seq_None (p : nat -> bool) (n lo : nat) :
  find p (seq lo n) = None <-> forall r, lo <= r < lo + n -> p r = false.
Proof.
  revert lo. induction n as [|n IH]; intros lo; simpl.
  - split; [intros _ r Hr; lia | reflexivity].
  - destruct (p lo) eqn:Hlo.
    + split; [discriminate|]. intros H. rewrite H in Hlo; [discriminate|lia].
    + rewrite IH. split.
      * intros H r Hr. destruct (Nat.eq_dec r lo) as [->|Hne]; auto.
        apply H. lia.
      * intros H r Hr. apply H. lia.
Qed.

Lemma find_range_Some (p : nat -> bool) (lo hi r : nat) :
  find p (range lo hi) = Some r
  <-> lo <= r < hi /\ p r = true /\ forall r', lo <= r' < r -> p r' = false.
Proof.
  unfold range. rewrite find_seq_Some.
  split; intros (Hr & Hp & Hmin); repeat split; auto; lia.
Qed.

Lemma find_range_None (p : nat -> bool) (lo hi : nat) :
  find p (range lo hi) = None <-> forall r, lo <= r < hi -> p r = false.
Proof.
  unfold range. rewrite find_seq_None.
  split; intros H r Hr; apply H; lia.
Qed.

(** A [find] over a range returns the first row with the property. *)
Lemma find_range_first (p : nat -> bool) (P : nat -> Prop) (lo hi r : nat) :
  (forall x, p x = true <-> P x) ->
  find p (range lo hi) = Some r <-> LayoutSpec.first_row_with P lo hi r.
Proof.
  intros HpP. rewrite find_range_Some. unfold LayoutSpec.first_row_with.
  split; intros (Hr & Hp & Hmin); repeat split; try lia.
  - now apply HpP.
  - intros r' Hr' HP. apply HpP in HP. rewrite (Hmin r' Hr') in HP.
    discriminate.
  - now apply HpP.
  - intros r' Hr'. destruct (p r') eqn:E; [|reflexivity].
    exfalso. apply (Hmin r' Hr'). now apply HpP.
Qed.

Lemma existsb_count_if {A} (p : A -> bool) (l : list A) :
  existsb p l = true <-> 1 <= count_if p l.
Proof.
  unfold count_if. induction l as [|a l IH]; simpl.
  - split; [discriminate | lia].
  - destruct (p a); simpl; [split; [lia | reflexivity] | exact IH].
Qed.

End RangeFacts.

(* ===================================================================== *)
(** * Anatomy of a successful parse *)
(* ===================================================================== *)

Module DebuggerFacts.

Import Debugger RangeFacts.

(** What [parse_sheet] went through when it returns a result. *)
Lemma parse_sheet_inl (flag : bool) (dt : cell -> option date)
  (df : DataFrame) (recs : list DayMealCount) (info : Info) :
  parse_sheet flag dt df = inl (recs, info) ->
  find_day_row df = Some (info_day_row info)
  /\ find_label_row df (info_day_row info) = Some (info_label_row info)
  /\ day_starts df (info_day_row info) <> []
  /\ info_blocks info
     = build_blocks df (info_day_row info) (info_label_row info)
  /\ info_blocks info <> []
  /\ find_start_row df (info_label_row info) = Some (info_start_row info)
  /\ info_end_row info = find_end_row df (info_start_row info) 60
  /\ recs = aggregate flag df
              (student_rows df (info_start_row info) (info_end_row info))
              (info_blocks info).
Proof.
  unfold parse_sheet.
  destruct (find_day_row df) as [day_row|] eqn:Hd; [|discriminate].
  destruct (find_label_row df day_row) as [label_row|] eqn:Hl; [|discriminate].
  destruct (day_starts df day_row) as [|d ds] eqn:Hds; [discriminate|].
  destruct (build_blocks df day_row label_row) as [|b bs] eqn:Hb;
    [discriminate|].
  destruct (find_start_row df label_row) as [start_row|] eqn:Hs;
    [|discriminate].
  intros H. inversion H; subst; clear H. simpl.
  rewrite Hds, Hb. repeat split; congruence.
Qed.

Lemma parse_sheet_no_day_row (flag : bool) (dt : cell -> option date)
  (df : DataFrame) :
  parse_sheet flag dt df = inr NoDayRow <-> find_day_row df = None.
Proof.
  unfold parse_sheet. split.
  - destruct (find_day_row df) as [day_row|]; [|reflexivity].
    destruct (find_label_row df day_row); [|discriminate].
    destruct (day_starts df day_row); [discriminate|].
    destruct (build_blocks df day_row n); [discriminate|].
    destruct (find_start_row df n); discriminate.
  - now intros ->.
Qed.

Lemma find_day_row_first (df : DataFrame) (r : nat) :
  find_day_row df = Some r
  <-> LayoutSpec.first_row_with (fun r => 2 <= LayoutSpec.day_tokens df r)
        0 (Nat.min 80 (shape0 df)) r.
Proof.
  unfold find_day_row. apply find_range_first.
  intros x. unfold LayoutSpec.day_tokens. apply Nat.leb_le.
Qed.

Lemma find_day_row_none (df : DataFrame) :
  find_day_row df = None
  <-> forall r, r < Nat.min 80 (shape0 df) -> LayoutSpec.day_tokens df r < 2.
Proof.
  unfold find_day_row. rewrite find_range_None. unfold LayoutSpec.day_tokens.
  split; intros H r Hr.
  - specialize (H r (conj (Nat.le_0_l r) Hr)). apply Nat.leb_gt in H. lia.
  - apply Nat.leb_gt. apply H. lia.
Qed.

End DebuggerFacts.

(* ===================================================================== *)
(** * Day-start columns and block ranges *)
(* ===================================================================== *)

Module LayoutFacts.

Import Layout RangeFacts.

Lemma py_sorted_id {A} (le : A -> A -> bool) (l : list A) :
  StronglySorted (fun x y => le x y = true) l -> py_sorted le l = l.
Proof.
  induction 1 as [|x l Hs IH Hx]; simpl.
  - reflexivity.
  - rewrite IH. destruct l as [|y l']; simpl.
    + reflexivity.
    + inversion Hx as [|? ? Hxy _]; subst. now rewrite Hxy.
Qed.

Lemma StronglySorted_weaken {A} (R S : A -> A -> Prop) (l : list A) :
  (forall x y, R x y -> S x y) -> StronglySorted R l -> StronglySorted S l.
Proof.
  intros HRS. induction 1 as [|x l Hs IH Hx]; constructor; auto.
  eapply Forall_impl; [|exact Hx]. auto.
Qed.

Lemma tagged_cons {B} (h : nat -> option B) (c : nat) (l : list nat) :
  tagged h (c :: l)
  = match h c with Some b => [(c, b)] | None => [] end ++ tagged h l.
Proof. reflexivity. Qed.

Lemma tagged_bounds {B} (h : nat -> option B) (n lo : nat) :
  Forall (fun a => lo <= fst a < lo + n) (tagged h (seq lo n)).
Proof.
  revert lo. induction n as [|n IH]; intros lo; simpl seq.
  - constructor.
  - rewrite tagged_cons. apply Forall_app. split.
    + destruct (h lo); constructor; [simpl; lia | constructor].
    + eapply Forall_impl; [|apply IH]. simpl. intros a Ha. lia.
Qed.

Lemma tagged_sorted {B} (h : nat -> option B) (n lo : nat) :
  StronglySorted by_column (tagged h (seq lo n)).
Proof.
  revert lo. induction n as [|n IH]; intros lo; simpl seq.
  - constructor.
  - rewrite tagged_cons. destruct (h lo); simpl.
    + constructor; [apply IH|].
      eapply Forall_impl; [|apply (tagged_bounds h n (S lo))].
      unfold by_column. simpl. intros a Ha. lia.
    + apply IH.
Qed.

Lemma tagged_In {B} (h : nat -> option B) (l : list nat) (c : nat) (b : B) :
  In (c, b) (tagged h l) <-> In c l /\ h c = Some b.
Proof.
  unfold tagged. rewrite in_flat_map. split.
  - intros (x & Hx & Hin). destruct (h x) eqn:E; simpl in Hin.
    + destruct Hin as [Heq|[]]. inversion Heq; subst. auto.
    + destruct Hin.
  - intros (Hc & Hh). exists c. rewrite Hh. simpl. auto.
Qed.

Lemma pair_le_by_column (a b : nat * string) :
  by_column a b -> pair_le a b = true.
Proof.
  unfold by_column, pair_le. intros H.
  apply Nat.ltb_lt in H. now rewrite H.
Qed.

Lemma col_le_by_column (a b : nat * label) :
  by_column a b -> Debugger.col_le a b = true.
Proof. unfold by_column, Debugger.col_le. intros H. apply Nat.leb_le. lia. Qed.

(** Sorting the day-start columns, or the labels of a block, changes
    nothing: the loops collect them from left to right. *)
Lemma sorted_pairs_id (h : nat -> option string) (lo hi : nat) :
  py_sorted pair_le (tagged h (range lo hi)) = tagged h (range lo hi).
Proof.
  apply py_sorted_id.
  eapply StronglySorted_weaken; [|apply tagged_sorted].
  apply pair_le_by_column.
Qed.

Lemma sorted_labels_id (h : nat -> option label) (lo hi : nat) :
  py_sorted Debugger.col_le (tagged h (range lo hi)) = tagged h (range lo hi).
Proof.
  apply py_sorted_id.
  eapply StronglySorted_weaken; [|apply tagged_sorted].
  apply col_le_by_column.
Qed.

(** *** Chains of ranges *)

Lemma chain_le (rs : list (nat * nat * string)) (lo hi : nat) :
  chain lo rs hi -> lo <= hi.
Proof.
  revert lo. induction rs as [|[[c e] d] rs IH]; simpl; intros lo H.
  - lia.
  - destruct H as (-> & Hlt & Hc). apply IH in Hc. lia.
Qed.

Lemma chain_covers (rs : list (nat * nat * string)) (lo hi col : nat) :
  chain lo rs hi ->
  lo <= col < hi <-> exists rng, In rng rs /\ in_block col rng.
Proof.
  revert lo. induction rs as [|[[c e] d] rs IH]; simpl; intros lo H.
  - subst. split; [lia | intros (rng & [] & _)].
  - destruct H as (-> & Hlt & Hc). pose proof (chain_le _ _ _ Hc) as Hle.
    specialize (IH _ Hc). split.
    + intros Hcol. destruct (Nat.lt_ge_cases col e) as [Hin|Hout].
      * exists (lo, e, d). split; [now left|]. unfold in_block. simpl. lia.
      * destruct (proj1 IH (conj Hout (proj2 Hcol))) as (rng & Hin & Hb).
        exists rng. auto.
    + intros (rng & [<-|Hin] & Hb).
      * unfold in_block in Hb. simpl in Hb. lia.
      * assert (e <= col < hi) by (apply IH; eauto). lia.
Qed.

Lemma chain_nonempty (rs : list (nat * nat * string)) (lo hi : nat) :
  chain lo rs hi -> forall rng, In rng rs -> fst (fst rng) < snd (fst rng).
Proof.
  revert lo. induction rs as [|[[c e] d] rs IH]; simpl; intros lo H rng Hin.
  - destruct Hin.
  - destruct H as (-> & Hlt & Hc). destruct Hin as [<-|Hin]; [assumption|].
    eapply IH; eauto.
Qed.

Lemma chain_starts_after (rs : list (nat * nat * string)) (lo hi : nat) :
  chain lo rs hi -> forall rng, In rng rs -> lo <= fst (fst rng).
Proof.
  revert lo. induction rs as [|[[c e] d] rs IH]; simpl; intros lo H rng Hin.
  - destruct Hin.
  - destruct H as (-> & Hlt & Hc). destruct Hin as [<-|Hin]; [simpl; lia|].
    specialize (IH _ Hc _ Hin). lia.
Qed.

Lemma chain_ends_before (rs : list (nat * nat * string)) (lo hi : nat) :
  chain lo rs hi -> forall rng, In rng rs -> snd (fst rng) <= hi.
Proof.
  revert lo. induction rs as [|[[c e] d] rs IH]; simpl; intros lo H rng Hin.
  - destruct Hin.
  - destruct H as (-> & Hlt & Hc). destruct Hin as [<-|Hin].
    + simpl. now apply chain_le in Hc.
    + eapply IH; eauto.
Qed.

Lemma chain_adjacent (rs : list (nat * nat * string)) (lo hi : nat) :
  chain lo rs hi ->
  forall i ri rj, nth_error rs i = Some ri -> nth_error rs (S i) = Some rj ->
                  snd (fst ri) = fst (fst rj).
Proof.
  revert lo. induction rs as [|[[c e] d] rs IH]; intros lo H i ri rj Hi Hj.
  - destruct i; discriminate.
  - destruct H as (-> & Hlt & Hc). destruct i as [|i]; simpl in Hi, Hj.
    + inversion Hi; subst. destruct rs as [|[[c' e'] d'] rs]; [discriminate|].
      inversion Hj; subst. simpl in Hc. simpl. symmetry. apply Hc.
    + eapply IH; eauto.
Qed.

Lemma chain_ordered (rs : list (nat * nat * string)) (lo hi : nat) :
  chain lo rs hi ->
  forall i j ri rj, i < j -> nth_error rs i = Some ri ->
                    nth_error rs j = Some rj -> snd (fst ri) <= fst (fst rj).
Proof.
  revert lo. induction rs as [|[[c e] d] rs IH]; intros lo H i j ri rj Hij Hi Hj.
  - destruct i; discriminate.
  - destruct H as (-> & Hlt & Hc). destruct j as [|j]; [lia|].
    simpl in Hj. destruct i as [|i]; simpl in Hi.
    + inversion Hi; subst. simpl.
      apply (chain_starts_after _ _ _ Hc). eapply nth_error_In; eauto.
    + apply (IH _ Hc i j ri rj); [lia | assumption | assumption].
Qed.

Lemma chain_last (rs : list (nat * nat * string)) (lo hi : nat) :
  chain lo rs hi -> rs <> [] ->
  exists last, nth_error rs (length rs - 1) = Some last /\ snd (fst last) = hi.
Proof.
  revert lo. induction rs as [|[[c e] d] rs IH]; intros lo H Hne.
  - contradiction.
  - destruct H as (-> & Hlt & Hc). destruct rs as [|r rs].
    + simpl in Hc. subst. exists (lo, hi, d). auto.
    + destruct (IH _ Hc) as (last & Hl & He); [discriminate|].
      exists last. split; [|assumption].
      simpl length in *. replace (S (S (length rs)) - 1) with
        (S (S (length rs) - 1)) by lia. exact Hl.
Qed.

Lemma chain_partition (rs : list (nat * nat * string)) (lo hi : nat) :
  chain lo rs hi -> rs <> [] -> BlockSpec.partition_of rs lo hi.
Proof.
  intros H Hne. unfold BlockSpec.partition_of.
  split; [|split; [|split; [|split; [|split]]]].
  - apply (chain_nonempty _ _ _ H).
  - apply (chain_adjacent _ _ _ H).
  - apply (chain_ordered _ _ _ H).
  - intros col. apply (chain_covers _ _ _ _ H).
  - destruct rs as [|[[c e] d] rs]; [contradiction|].
    destruct H as (-> & _). exists (lo, e, d). auto.
  - now apply (chain_last _ lo).
Qed.

(** The ranges built from day-start columns in increasing order, all
    inside the frame, form a chain from the first of them to the width. *)
Lemma block_ranges_chain (ds : list (nat * string)) (width c0 : nat)
  (d0 : string) (rest : list (nat * string)) :
  ds = (c0, d0) :: rest ->
  StronglySorted by_column ds ->
  Forall (fun a => fst a < width) ds ->
  chain c0 (block_ranges ds width) width.
Proof.
  revert c0 d0 rest. induction ds as [|[c d] ds IH]; intros c0 d0 rest Heq Hs Hb.
  - discriminate.
  - inversion Heq; subst; clear Heq.
    inversion Hs as [|? ? Hs' Hall]; subst.
    inversion Hb as [|? ? Hc0 Hb']; subst. simpl in Hc0.
    destruct rest as [|[c1 d1] rest'].
    + simpl. auto.
    + change (chain c0 ((c0, c1, d0) :: block_ranges ((c1, d1) :: rest') width)
                    width).
      simpl chain. split; [reflexivity|]. split.
      * inversion Hall; subst. assumption.
      * eapply IH; eauto.
Qed.

Lemma block_ranges_length (ds : list (nat * string)) (width : nat) :
  length (block_ranges ds width) = length ds.
Proof.
  induction ds as [|[c d] ds IH]; simpl; [reflexivity | now rewrite IH].
Qed.

Lemma block_ranges_starts (ds : list (nat * string)) (width : nat) :
  map (fun rng => (fst (fst rng), snd rng)) (block_ranges ds width) = ds.
Proof.
  induction ds as [|[c d] ds IH]; simpl; [reflexivity | now rewrite IH].
Qed.

Section Tests.

Variable is_day : cell -> bool.
Variable name : cell -> string.
Variable classify : cell -> option label.

Lemma ranges_inside (df : DataFrame) (day_row : nat)
  (rng : nat * nat * string) :
  In rng (ranges_of is_day name df day_row) -> snd (fst rng) <= shape1 df.
Proof.
  unfold ranges_of. intros Hin.
  destruct (day_starts_of is_day name df day_row) as [|[c0 d0] rest] eqn:E.
  - destruct Hin.
  - apply (chain_ends_before (block_ranges ((c0, d0) :: rest) (shape1 df))
                             c0 (shape1 df)); [|assumption].
    eapply block_ranges_chain; [reflexivity| |].
    + rewrite <- E. apply tagged_sorted.
    + rewrite <- E. eapply Forall_impl; [|apply tagged_bounds].
      simpl. intros a Ha. lia.
Qed.

Lemma day_starts_partition (df : DataFrame) (day_row c0 : nat) (d0 : string)
  (rest : list (nat * string)) :
  day_starts_of is_day name df day_row = (c0, d0) :: rest ->
  BlockSpec.partition_of (ranges_of is_day name df day_row) c0 (shape1 df).
Proof.
  intros Heq. apply chain_partition.
  - unfold ranges_of. eapply block_ranges_chain; [exact Heq| |].
    + apply tagged_sorted.
    + eapply Forall_impl; [|apply tagged_bounds]. simpl. intros a Ha. lia.
  - unfold ranges_of. rewrite Heq. discriminate.
Qed.

End Tests.

End LayoutFacts.

(* ===================================================================== *)
(** * The two parsers compute the common layout *)
(* ===================================================================== *)

Module DebuggerLayout.

Import Layout LayoutFacts RangeFacts Debugger.

Lemma collect_day_starts_tagged (df : DataFrame) (day_row : nat) :
  collect_day_starts df day_row = day_starts_of is_day_token short_name df day_row.
Proof.
  unfold collect_day_starts, day_starts_of, tagged.
  apply flat_map_ext. intros c. simpl.
  now destruct (is_day_token (iat df day_row c)).
Qed.

Lemma day_starts_layout (df : DataFrame) (day_row : nat) :
  day_starts df day_row = day_starts_of is_day_token short_name df day_row.
Proof.
  unfold day_starts. rewrite collect_day_starts_tagged.
  apply sorted_pairs_id.
Qed.

Lemma collect_labels_tagged (df : DataFrame) (label_row c e : nat) :
  collect_labels df label_row c e = labels_of fuzzy_label df label_row c e.
Proof.
  unfold collect_labels, labels_of, tagged, fuzzy_label.
  apply flat_map_ext. intros cc. simpl.
  now destruct (is_str (iat df label_row cc) || negb (isna (iat df label_row cc))).
Qed.

Lemma block_labels_layout (df : DataFrame) (label_row c e : nat) :
  block_labels df label_row c e = labels_of fuzzy_label df label_row c e.
Proof.
  unfold block_labels. rewrite collect_labels_tagged.
  apply sorted_labels_id.
Qed.

Lemma fold_left_ext {A B} (f g : A -> B -> A) (l : list B) (a : A) :
  (forall a b, f a b = g a b) -> fold_left f l a = fold_left g l a.
Proof.
  intros H. revert a. induction l as [|b l IH]; intros a; simpl.
  - reflexivity.
  - now rewrite H, IH.
Qed.

Lemma build_blocks_layout (df : DataFrame) (day_row label_row : nat) :
  build_blocks df day_row label_row
  = blocks_of is_day_token short_name fuzzy_label df day_row label_row.
Proof.
  unfold build_blocks, blocks_of, ranges_of.
  rewrite day_starts_layout. apply fold_left_ext.
  intros blocks [[c e] day]. unfold add_block, store_block.
  rewrite block_labels_layout, collect_labels_tagged.
  now destruct (labels_of fuzzy_label df label_row c e).
Qed.

End DebuggerLayout.

Module MonitorFacts.

Import Layout LayoutFacts RangeFacts Monitor.

Lemma iat_checked_Returned (df : DataFrame) (r c : nat) (v : cell) :
  iat_checked df r c = Returned v ->
  v = iat df r c /\ r < shape0 df /\ c < shape1 df.
Proof.
  unfold iat_checked.
  destruct (r <? shape0 df) eqn:Hr; destruct (c <? shape1 df) eqn:Hc;
    simpl; intros H; inversion H; subst.
  apply Nat.ltb_lt in Hr, Hc. auto.
Qed.

Lemma iat_checked_inside (df : DataFrame) (r c : nat) :
  r < shape0 df -> c < shape1 df -> iat_checked df r c = Returned (iat df r c).
Proof.
  intros Hr Hc. unfold iat_checked.
  apply Nat.ltb_lt in Hr, Hc. now rewrite Hr, Hc.
Qed.

Lemma bind_Returned {A B} (m : outcome A) (k : A -> outcome B) (b : B) :
  bind m k = Returned b -> exists a, m = Returned a /\ k a = Returned b.
Proof. destruct m as [a|e]; simpl; [eauto | discriminate]. Qed.

Lemma collect_day_starts_from (df : DataFrame) (day_row : nat)
  (l : list nat) (acc ds : list (nat * string)) :
  foldM (fun acc c =>
           day <- iat_checked df day_row c ;;
           Returned (if is_day_cell day then acc ++ [(c, day_name day)]
                     else acc)) l acc = Returned ds ->
  ds = acc ++ tagged (fun c => let v := iat df day_row c in
                               if is_day_cell v then Some (day_name v)
                               else None) l.
Proof.
  revert acc. induction l as [|c l IH]; intros acc; simpl foldM.
  - intros H. inversion H. simpl. now rewrite app_nil_r.
  - intros H. apply bind_Returned in H. destruct H as (acc' & Hstep & Hrest).
    apply bind_Returned in Hstep. destruct Hstep as (v & Hv & Hacc).
    apply iat_checked_Returned in Hv. destruct Hv as (-> & _).
    inversion Hacc; subst acc'; clear Hacc.
    apply IH in Hrest. rewrite Hrest, tagged_cons. simpl.
    destruct (is_day_cell (iat df day_row c)).
    + now rewrite <- app_assoc.
    + reflexivity.
Qed.

Lemma monitor_day_starts_layout (df : DataFrame) (day_row : nat)
  (ds : list (nat * string)) :
  collect_day_starts df day_row = Returned ds ->
  ds = day_starts_of is_day_cell day_name df day_row.
Proof. intros H. apply collect_day_starts_from in H. exact H. Qed.

Lemma collect_labels_from (df : DataFrame) (label_row : nat)
  (l : list nat) (acc ls : list (nat * label)) :
  foldM (fun acc cc =>
           val <- iat_checked df label_row cc ;;
           Returned match exact_label val with
                    | Some lab => acc ++ [(cc, lab)]
                    | None => acc
                    end) l acc = Returned ls ->
  ls = acc ++ tagged (fun cc => exact_label (iat df label_row cc)) l.
Proof.
  revert acc. induction l as [|c l IH]; intros acc; simpl foldM.
  - intros H. inversion H. simpl. now rewrite app_nil_r.
  - intros H. apply bind_Returned in H. destruct H as (acc' & Hstep & Hrest).
    apply bind_Returned in Hstep. destruct Hstep as (v & Hv & Hacc).
    apply iat_checked_Returned in Hv. destruct Hv as (-> & _).
    inversion Hacc; subst acc'; clear Hacc.
    apply IH in Hrest. rewrite Hrest, tagged_cons.
    destruct (exact_label (iat df label_row c)).
    + now rewrite <- app_assoc.
    + reflexivity.
Qed.

Lemma monitor_labels_layout (df : DataFrame) (label_row c e : nat)
  (ls : list (nat * label)) :
  collect_labels df label_row c e = Returned ls ->
  ls = labels_of exact_label df label_row c e.
Proof. intros H. apply collect_labels_from in H. exact H. Qed.

Lemma collect_labels_returns_from (df : DataFrame) (label_row : nat)
  (l : list nat) (acc : list (nat * label)) :
  label_row < shape0 df ->
  Forall (fun cc => cc < shape1 df) l ->
  foldM (fun acc cc =>
           val <- iat_checked df label_row cc ;;
           Returned match exact_label val with
                    | Some lab => acc ++ [(cc, lab)]
                    | None => acc
                    end) l acc
  = Returned (acc ++ tagged (fun cc => exact_label (iat df label_row cc)) l).
Proof.
  intros Hr Hl. revert acc. induction Hl as [|c l Hc Hl IH]; intros acc.
  - simpl. now rewrite app_nil_r.
  - simpl foldM. rewrite (iat_checked_inside df label_row c Hr Hc). simpl bind.
    rewrite IH, tagged_cons.
    destruct (exact_label (iat df label_row c)).
    + now rewrite <- app_assoc.
    + reflexivity.
Qed.

(** Inside the frame the labels of a range are read without failure. *)
Lemma collect_labels_returns (df : DataFrame) (label_row c e : nat) :
  label_row < shape0 df -> e <= shape1 df ->
  collect_labels df label_row c e
  = Returned (labels_of exact_label df label_row c e).
Proof.
  intros Hr He. unfold collect_labels, labels_of.
  rewrite collect_labels_returns_from; [reflexivity | assumption |].
  apply Forall_forall. intros cc Hcc. apply in_range in Hcc. lia.
Qed.

Lemma col_le_same (a b : nat * label) :
  Monitor.col_le a b = Debugger.col_le a b.
Proof. reflexivity. Qed.

Lemma add_block_layout (df : DataFrame) (label_row : nat)
  (blocks blocks' : list (string * list (nat * label)))
  (rng : nat * nat * string) :
  add_block df label_row blocks rng = Returned blocks' ->
  blocks' = store_block exact_label df label_row blocks rng.
Proof.
  destruct rng as [[c e] day]. unfold add_block, store_block.
  intros H. apply bind_Returned in H. destruct H as (ls & Hls & Hret).
  apply monitor_labels_layout in Hls. subst ls.
  inversion Hret; subst; clear Hret.
  unfold labels_of.
  change (py_sorted col_le) with (py_sorted Debugger.col_le).
  now rewrite sorted_labels_id.
Qed.

Lemma foldM_fold_left {S A} (f : S -> A -> outcome S) (g : S -> A -> S)
  (l : list A) (s s' : S) :
  (forall s a s', f s a = Returned s' -> s' = g s a) ->
  foldM f l s = Returned s' -> s' = fold_left g l s.
Proof.
  intros Hfg. revert s. induction l as [|a l IH]; intros s; simpl.
  - intros H. now inversion H.
  - intros H. apply bind_Returned in H. destruct H as (s1 & Hs1 & Hrest).
    apply Hfg in Hs1. subst s1. now apply IH.
Qed.

Lemma monitor_blocks_layout (df : DataFrame) (day_row label_row : nat)
  (blocks : list (string * list (nat * label))) :
  build_blocks df label_row (day_starts_of is_day_cell day_name df day_row)
  = Returned blocks ->
  blocks = blocks_of is_day_cell day_name exact_label df day_row label_row.
Proof.
  unfold build_blocks, blocks_of, ranges_of. intros H.
  unfold day_starts_of in H at 1. rewrite sorted_pairs_id in H.
  eapply foldM_fold_left; [|exact H].
  intros s a s'. apply add_block_layout.
Qed.

(** What [parse_sheet] went through when it returns a result. *)
Lemma parse_sheet_Some (dt : cell -> option date) (df : DataFrame)
  (p : Parsed) :
  parse_sheet dt df = Returned (Some p) ->
  exists day_row start_row dates,
    find_day_row df = Some day_row
    /\ day_starts_of is_day_cell day_name df day_row <> []
    /\ collect_day_starts df day_row
       = Returned (day_starts_of is_day_cell day_name df day_row)
    /\ build_blocks df (day_row + 1)
         (day_starts_of is_day_cell day_name df day_row)
       = Returned (blocks_of is_day_cell day_name exact_label df day_row
                     (day_row + 1))
    /\ blocks_of is_day_cell day_name exact_label df day_row (day_row + 1)
       <> []
    /\ find_start_row df (day_row + 1) = Returned (Some start_row)
    /\ week_dates dt df day_row = Returned dates
    /\ StudentRows p = (start_row, find_end_row df start_row 80)
    /\ Counts p
       = aggregate df
           (student_rows df start_row (find_end_row df start_row 80))
           (blocks_of is_day_cell day_name exact_label df day_row
              (day_row + 1))
    /\ WeekStart p = min_date dates /\ WeekEnd p = max_date dates.
Proof.
  unfold parse_sheet. intros H.
  apply bind_Returned in H. destruct H as ([facility class_name] & _ & H).
  destruct (find_day_row df) as [day_row|] eqn:Hd; [|discriminate].
  apply bind_Returned in H. destruct H as (ds & Hds & H).
  pose proof (monitor_day_starts_layout _ _ _ Hds) as Eds.
  destruct ds as [|d0 ds']; [discriminate|].
  apply bind_Returned in H. destruct H as (blocks & Hb & H).
  rewrite Eds in Hb, Hds.
  pose proof (monitor_blocks_layout _ _ _ _ Hb) as Eb.
  destruct blocks as [|b0 bs]; [discriminate|].
  apply bind_Returned in H. destruct H as (start & Hs & H).
  destruct start as [start_row|]; [|discriminate].
  apply bind_Returned in H. destruct H as (dates & Hw & H).
  inversion H; subst p; clear H. simpl.
  exists day_row, start_row, dates. rewrite <- Eb.
  split; [reflexivity|]. split; [rewrite <- Eds; discriminate|].
  split; [assumption|]. split; [assumption|]. split; [discriminate|].
  split; [assumption|]. split; [assumption|]. auto.
Qed.

End MonitorFacts.

(* ===================================================================== *)
(** * Day row, student rows and block ranges *)
(* ===================================================================== *)

Module ScanFacts.

Import Layout LayoutFacts RangeFacts LayoutSpec.

Lemma mostly_empty_test (df : DataFrame) (r : nat) :
  (8 <=? na_in_first_ten df r) = true <-> mostly_empty df r.
Proof. unfold mostly_empty. apply Nat.leb_le. Qed.

(** The end row for a start row inside the frame. *)
Lemma find_end_row_rule (df : DataFrame) (start : nat) (bound : Z) :
  start < shape0 df ->
  end_row_rule df start bound (find_end_row df start bound).
Proof.
  intros Hstart. unfold end_row_rule, find_end_row. split.
  - intros r Hfirst Hlt.
    apply (find_range_first _ _ _ _ _ (mostly_empty_test df)) in Hfirst.
    rewrite Hfirst.
    destruct (Z.of_nat r - 1 <? Z.of_nat start)%Z eqn:E; [|reflexivity].
    apply Z.ltb_lt in E. lia.
  - intros Hempty.
    assert (Hfirst : first_row_with (mostly_empty df) start (shape0 df) start).
    { unfold first_row_with. split; [lia|]. split; [assumption|].
      intros r' Hr'. lia. }
    apply (find_range_first _ _ _ _ _ (mostly_empty_test df)) in Hfirst.
    rewrite Hfirst.
    destruct (Z.of_nat start - 1 <? Z.of_nat start)%Z eqn:E; [reflexivity|].
    apply Z.ltb_ge in E. lia.
Qed.

(** Without any mostly empty row from the start row on, the end row is
    the start row itself. *)
Lemma find_end_row_no_empty_row (df : DataFrame) (start : nat) (bound : Z) :
  (forall r, start <= r < shape0 df -> ~ mostly_empty df r) ->
  find_end_row df start bound = Z.of_nat start.
Proof.
  intros Hnone. unfold find_end_row.
  assert (E : find (fun r => 8 <=? na_in_first_ten df r)
                   (range start (shape0 df)) = None).
  { apply find_range_None. intros r Hr.
    destruct (8 <=? na_in_first_ten df r) eqn:E; [|reflexivity].
    exfalso. apply (Hnone r Hr). now apply mostly_empty_test. }
  rewrite E. now rewrite Z.ltb_irrefl.
Qed.

Lemma find_start_row_inside (df : DataFrame) (label_row start : nat) :
  Debugger.find_start_row df label_row = Some start ->
  label_row < start < shape0 df.
Proof.
  unfold Debugger.find_start_row. intros H.
  apply find_range_Some in H. lia.
Qed.

Lemma findM_Some_In {A} (p : A -> outcome bool) (l : list A) (a : A) :
  findM p l = Returned (Some a) -> In a l.
Proof.
  induction l as [|x l IH]; simpl.
  - discriminate.
  - destruct (p x) as [[|]|e]; simpl.
    + intros H. inversion H. now left.
    + intros H. right. auto.
    + discriminate.
Qed.

Lemma monitor_start_row_inside (df : DataFrame) (label_row start : nat) :
  Monitor.find_start_row df label_row = Returned (Some start) ->
  label_row < start < shape0 df.
Proof.
  unfold Monitor.find_start_row. intros H.
  apply findM_Some_In, in_range in H. lia.
Qed.

Lemma monitor_day_row_first (df : DataFrame) (r : nat) :
  Monitor.find_day_row df = Some r
  <-> first_row_with (fun r => 1 <= day_cells df r) 8
        (Nat.min 60 (shape0 df)) r.
Proof.
  unfold Monitor.find_day_row. apply find_range_first.
  intros x. unfold day_cells. apply existsb_count_if.
Qed.

(** C3 (amended). On every sheet that parses, with start row [start_row]:
    when the first row at or after [start_row] with 8 or more of its first
    10 cells absent lies strictly below [start_row], [end_row] is the row
    just before it; when [start_row] itself is such a row, [end_row] is
    [min(start_row + bound, height - 1)], with bound 60 in the debugger
    parser and 80 in the monitoring parser. *)
Theorem end_row_by_first_empty_row (flag : bool) (dt : cell -> option date)
  (df : DataFrame) :
  (forall recs info,
      Debugger.parse_sheet flag dt df = inl (recs, info) ->
      end_row_rule df (Debugger.info_start_row info) 60
                   (Debugger.info_end_row info))
  /\ (forall p,
         Monitor.parse_sheet dt df = Returned (Some p) ->
         end_row_rule df (fst (Monitor.StudentRows p)) 80
                      (snd (Monitor.StudentRows p))).
Proof.
  split.
  - intros recs info H.
    apply DebuggerFacts.parse_sheet_inl in H.
    destruct H as (_ & _ & _ & _ & _ & Hs & He & _).
    rewrite He. apply find_end_row_rule.
    apply find_start_row_inside in Hs. lia.
  - intros p H.
    apply MonitorFacts.parse_sheet_Some in H.
    destruct H as (day_row & start_row & dates & H).
    destruct H as (_ & _ & _ & _ & _ & Hs & _ & Hrows & _).
    rewrite Hrows. simpl. apply find_end_row_rule.
    apply monitor_start_row_inside in Hs. lia.
Qed.

(** C4 (amended). In the debugger parser the day row is the first row,
    among the first 80 of the sheet, with two or more day tokens, and the
    parse fails with "No day row found" exactly when no such row exists.
    In the monitoring parser the day row is the first row, from row 8 on
    and among the first 60, with one or more text cells ending with a
    period; a parse that returns a result found one, and none returns a
    result when there is none. *)
Theorem day_row_is_first_match (flag : bool) (dt : cell -> option date)
  (df : DataFrame) :
  (Debugger.parse_sheet flag dt df = inr Debugger.NoDayRow
   <-> forall r, r < Nat.min 80 (shape0 df) -> day_tokens df r < 2)
  /\ (forall recs info,
         Debugger.parse_sheet flag dt df = inl (recs, info) ->
         first_row_with (fun r => 2 <= day_tokens df r) 0
                        (Nat.min 80 (shape0 df))
                        (Debugger.info_day_row info))
  /\ (forall r,
         Monitor.find_day_row df = Some r
         <-> first_row_with (fun r => 1 <= day_cells df r) 8
                            (Nat.min 60 (shape0 df)) r)
  /\ (forall p,
         Monitor.parse_sheet dt df = Returned (Some p) ->
         exists r, Monitor.find_day_row df = Some r
                   /\ r + 1 < fst (Monitor.StudentRows p))
  /\ ((forall r, 8 <= r < Nat.min 60 (shape0 df) -> day_cells df r = 0) ->
      forall p, Monitor.parse_sheet dt df <> Returned (Some p)).
Proof.
  split; [|split; [|split; [|split]]].
  - rewrite DebuggerFacts.parse_sheet_no_day_row.
    apply DebuggerFacts.find_day_row_none.
  - intros recs info H. apply DebuggerFacts.parse_sheet_inl in H.
    destruct H as (Hd & _). now apply DebuggerFacts.find_day_row_first.
  - apply monitor_day_row_first.
  - intros p H. apply MonitorFacts.parse_sheet_Some in H.
    destruct H as (day_row & start_row & dates & H).
    destruct H as (Hd & _ & _ & _ & _ & Hs & _ & Hrows & _).
    exists day_row. split; [assumption|]. rewrite Hrows. simpl.
    apply monitor_start_row_inside in Hs. lia.
  - intros Hnone p H. apply MonitorFacts.parse_sheet_Some in H.
    destruct H as (day_row & start_row & dates & H).
    destruct H as (Hd & _). apply monitor_day_row_first in Hd.
    destruct Hd as (Hr & Hcells & _). rewrite (Hnone _ Hr) in Hcells. lia.
Qed.

(** C5. On every sheet that parses, the column ranges derived from the
    sorted day-start columns are non-empty half-open ranges, adjacent and
    in order (so pairwise disjoint); a column lies in one of them exactly
    when it lies between the first day-start column and the width of the
    sheet, and the last range ends at the width. *)
Theorem day_blocks_partition (flag : bool) (dt : cell -> option date)
  (df : DataFrame) :
  (forall recs info,
      Debugger.parse_sheet flag dt df = inl (recs, info) ->
      exists c0 d0 rest,
        Debugger.day_starts df (Debugger.info_day_row info) = (c0, d0) :: rest
        /\ BlockSpec.partition_of
             (block_ranges (Debugger.day_starts df (Debugger.info_day_row info))
                           (shape1 df))
             c0 (shape1 df))
  /\ (forall p,
         Monitor.parse_sheet dt df = Returned (Some p) ->
         exists day_row ds c0 d0 rest,
           Monitor.find_day_row df = Some day_row
           /\ Monitor.collect_day_starts df day_row = Returned ds
           /\ py_sorted pair_le ds = (c0, d0) :: rest
           /\ BlockSpec.partition_of
                (block_ranges (py_sorted pair_le ds) (shape1 df))
                c0 (shape1 df)).
Proof.
  split.
  - intros recs info H. apply DebuggerFacts.parse_sheet_inl in H.
    destruct H as (_ & _ & Hds & _).
    rewrite DebuggerLayout.day_starts_layout in *.
    destruct (day_starts_of Debugger.is_day_token Debugger.short_name df
                (Debugger.info_day_row info)) as [|[c0 d0] rest] eqn:E;
      [contradiction|].
    exists c0, d0, rest. split; [reflexivity|].
    rewrite <- E. now apply (day_starts_partition _ _ _ _ _ d0 rest).
  - intros p H. apply MonitorFacts.parse_sheet_Some in H.
    destruct H as (day_row & start_row & dates & H).
    destruct H as (Hd & Hne & Hds & _).
    destruct (day_starts_of Monitor.is_day_cell Monitor.day_name df day_row)
      as [|[c0 d0] rest] eqn:E; [contradiction|].
    exists day_row, ((c0, d0) :: rest), c0, d0, rest.
    assert (Hsort : py_sorted pair_le ((c0, d0) :: rest) = (c0, d0) :: rest).
    { rewrite <- E. apply sorted_pairs_id. }
    rewrite Hsort.
    split; [assumption|]. split; [assumption|]. split; [reflexivity|].
    pose proof (day_starts_partition _ _ df day_row c0 d0 rest E) as Hp.
    unfold ranges_of in Hp. now rewrite E in Hp.
Qed.

(** *** The theorems at work on sample sheets *)

Lemma scenario1_parse :
  Debugger.parse_sheet true Samples.iso_to_datetime Samples.scenario1
  = inl (Samples.scenario1_counts, Samples.scenario1_info).
Proof. vm_compute. reflexivity. Qed.

Lemma sparse_roster_parse :
  Debugger.parse_sheet true Samples.iso_to_datetime Samples.sparse_roster
  = inl (Samples.sparse_roster_counts, Samples.sparse_roster_info).
Proof. vm_compute. reflexivity. Qed.

Lemma undated_form_parse :
  Monitor.parse_sheet Samples.iso_to_datetime Samples.undated_form
  = Returned (Some Samples.undated_parsed).
Proof. vm_compute. reflexivity. Qed.

Lemma dated_form_parse :
  Monitor.parse_sheet Samples.iso_to_datetime Samples.dated_form
  = Returned (Some Samples.dated_parsed).
Proof. vm_compute. reflexivity. Qed.

Lemma blank_form_parse :
  Monitor.parse_sheet Samples.iso_to_datetime Samples.blank_form
  = Returned None.
Proof. vm_compute. reflexivity. Qed.


Lemma rows_below (f : nat -> bool) (n : nat) :
  forallb f (seq 0 n) = true -> forall r, r < n -> f r = true.
Proof.
  intros H r Hr. rewrite forallb_forall in H. apply H. apply in_seq. lia.
Qed.

Lemma end_row_by_first_empty_row_witness :
  end_row_rule Samples.sparse_roster 2 60 4
  /\ end_row_rule Samples.dated_form 10 80 10.
Proof.
  split.
  - exact (proj1 (end_row_by_first_empty_row true Samples.iso_to_datetime
                    Samples.sparse_roster) _ _ sparse_roster_parse).
  - exact (proj2 (end_row_by_first_empty_row true Samples.iso_to_datetime
                    Samples.dated_form) _ dated_form_parse).
Defined.

(** C3 as stated fails where the start row itself is mostly empty: the
    first student row of [sparse_roster] (row 2) has 9 of its first 10
    cells absent, so the row before the first mostly empty row is row 1,
    while [end_row] is 4. *)
Lemma end_row_start_row_empty_counterexample :
  Debugger.parse_sheet true Samples.iso_to_datetime Samples.sparse_roster
  = inl (Samples.sparse_roster_counts, Samples.sparse_roster_info)
  /\ Debugger.info_start_row Samples.sparse_roster_info = 2
  /\ Debugger.info_end_row Samples.sparse_roster_info = 4%Z
  /\ first_row_with (mostly_empty Samples.sparse_roster) 2
                    (shape0 Samples.sparse_roster) 2
  /\ ~ end_before_first_empty Samples.sparse_roster
         (Debugger.info_start_row Samples.sparse_roster_info)
         (Debugger.info_end_row Samples.sparse_roster_info).
Proof.
  assert (Hfirst : first_row_with (mostly_empty Samples.sparse_roster) 2
                                  (shape0 Samples.sparse_roster) 2).
  { split; [vm_compute; lia|]. split.
    - unfold mostly_empty. vm_compute. lia.
    - intros r' Hr'. lia. }
  split; [exact sparse_roster_parse|].
  split; [reflexivity|]. split; [reflexivity|]. split; [exact Hfirst|].
  intros H. specialize (H 2 Hfirst). vm_compute in H. discriminate.
Qed.

(** Where no row from the start row on is mostly empty, the end row is the
    start row: on [scenario1] (7 columns, so no row can have 8 absent
    cells) the sheet has 10 rows, the first student row is row 7 and
    [end_row] is 7. *)
Example end_row_without_empty_row :
  Debugger.parse_sheet true Samples.iso_to_datetime Samples.scenario1
  = inl (Samples.scenario1_counts, Samples.scenario1_info)
  /\ Debugger.info_start_row Samples.scenario1_info = 7
  /\ Debugger.info_end_row Samples.scenario1_info = 7%Z
  /\ shape0 Samples.scenario1 = 10
  /\ (forall r, 7 <= r < 10 -> ~ mostly_empty Samples.scenario1 r).
Proof.
  split; [exact scenario1_parse|]. repeat split.
  intros r Hr He. unfold mostly_empty in He.
  assert (Hb : (na_in_first_ten Samples.scenario1 r <? 8) = true).
  { apply (rows_below (fun r => na_in_first_ten Samples.scenario1 r <? 8) 10);
      [vm_compute; reflexivity | lia]. }
  apply Nat.ltb_lt in Hb. lia.
Qed.

Lemma day_row_is_first_match_witness :
  first_row_with (fun r => 2 <= day_tokens Samples.scenario1 r) 0
                 (Nat.min 80 (shape0 Samples.scenario1)) 5
  /\ exists r, Monitor.find_day_row Samples.undated_form = Some r
               /\ r + 1 < 10.
Proof.
  split.
  - exact (proj1 (proj2 (day_row_is_first_match true Samples.iso_to_datetime
                           Samples.scenario1)) _ _ scenario1_parse).
  - exact (proj1 (proj2 (proj2 (proj2
             (day_row_is_first_match true Samples.iso_to_datetime
                Samples.undated_form)))) _ undated_form_parse).
Defined.

(** C4 as stated fails in the monitoring parser: no row of [undated_form]
    holds two day tokens, under either classifier, and yet the parse
    returns a result, with row 8 (one cell ending with a period) as day
    row. *)
Lemma day_row_monitor_counterexample :
  (forall r, r < shape0 Samples.undated_form ->
             day_tokens Samples.undated_form r < 2
             /\ day_cells Samples.undated_form r < 2)
  /\ Monitor.find_day_row Samples.undated_form = Some 8
  /\ Monitor.parse_sheet Samples.iso_to_datetime Samples.undated_form
     = Returned (Some Samples.undated_parsed).
Proof.
  split; [|split].
  - intros r Hr.
    assert (Hb : (day_tokens Samples.undated_form r <? 2)
                 && (day_cells Samples.undated_form r <? 2) = true).
    { apply (rows_below
               (fun r => (day_tokens Samples.undated_form r <? 2)
                         && (day_cells Samples.undated_form r <? 2)) 30);
        [vm_compute; reflexivity | exact Hr]. }
    apply andb_true_iff in Hb. destruct Hb as [H1 H2].
    apply Nat.ltb_lt in H1, H2. auto.
  - vm_compute. reflexivity.
  - exact undated_form_parse.
Qed.

Lemma day_blocks_partition_witness :
  (exists c0,
      BlockSpec.partition_of
        (block_ranges (Debugger.day_starts Samples.scenario1 5) 7) c0 7)
  /\ (exists ds c0,
         Monitor.collect_day_starts Samples.dated_form 8 = Returned ds
         /\ BlockSpec.partition_of (block_ranges (py_sorted pair_le ds) 10)
              c0 10).
Proof.
  split.
  - destruct (proj1 (day_blocks_partition true Samples.iso_to_datetime
                       Samples.scenario1) _ _ scenario1_parse)
      as (c0 & d0 & rest & _ & Hp).
    exists c0. exact Hp.
  - destruct (proj2 (day_blocks_partition true Samples.iso_to_datetime
                       Samples.dated_form) _ dated_form_parse)
      as (day_row & ds & c0 & d0 & rest & Hd & Hds & _ & Hp).
    assert (E : day_row = 8) by (vm_compute in Hd; congruence).
    subst day_row. exists ds, c0. split; [exact Hds | exact Hp].
Defined.

End ScanFacts.

(* ===================================================================== *)
(** * Blocks are keyed by the day name *)
(* ===================================================================== *)

Module BlockFacts.

Import Layout LayoutFacts BlockSpec.

Section Dict.

Context {V : Type}.

Lemma dict_set_keys (k : string) (v : V) (d : list (string * V)) (k' : string) :
  In k' (map fst (dict_set k v d)) <-> k' = k \/ In k' (map fst d).
Proof.
  induction d as [|[k0 v0] d IH]; simpl.
  - intuition.
  - destruct (String.eqb_spec k0 k) as [->|Hne]; simpl.
    + intuition.
    + rewrite IH. intuition.
Qed.

Lemma dict_set_NoDup (k : string) (v : V) (d : list (string * V)) :
  NoDup (map fst d) -> NoDup (map fst (dict_set k v d)).
Proof.
  induction d as [|[k0 v0] d IH]; simpl; intros H.
  - constructor; [intros [] | constructor].
  - inversion H as [|? ? Hnotin Hnd]; subst.
    destruct (String.eqb_spec k0 k) as [->|Hne]; simpl.
    + now constructor.
    + constructor; [|now apply IH].
      rewrite dict_set_keys. intros [->|Hin]; [now apply Hne | contradiction].
Qed.

Lemma dict_set_In (k : string) (v : V) (d : list (string * V))
  (k' : string) (v' : V) :
  NoDup (map fst d) ->
  In (k', v') (dict_set k v d)
  <-> (k' = k /\ v' = v) \/ (k' <> k /\ In (k', v') d).
Proof.
  induction d as [|[k0 v0] d IH]; simpl; intros H.
  - split.
    + intros [Heq|[]]. inversion Heq. auto.
    + intros [[-> ->]|[_ []]]. auto.
  - inversion H as [|? ? Hnotin Hnd]; subst.
    destruct (String.eqb_spec k0 k) as [->|Hne]; simpl.
    + split.
      * intros [Heq|Hin].
        -- inversion Heq. auto.
        -- right. split; [|auto]. intros ->. apply Hnotin.
           apply (in_map fst) in Hin. exact Hin.
      * intros [[-> ->]|[Hne [Heq|Hin]]]; auto.
        inversion Heq; subst. contradiction.
    + rewrite (IH Hnd). split.
      * intros [Heq|[H1|H1]]; auto.
        -- inversion Heq; subst. right. auto.
        -- right. intuition.
      * intros [[-> ->]|[Hne' [Heq|Hin]]]; auto.
Qed.

End Dict.

Section Fold.

(** Labels of a range, however they are read. *)
Variable lab : nat * nat * string -> list (nat * label).

Lemma nth_error_snoc_last {A} (l : list A) (x : A) :
  nth_error (l ++ [x]) (length l) = Some x.
Proof.
  rewrite nth_error_app2 by lia. now rewrite Nat.sub_diag.
Qed.

Lemma nth_error_snoc_inv {A} (l : list A) (x y : A) (j : nat) :
  nth_error (l ++ [x]) j = Some y ->
  (j < length l /\ nth_error l j = Some y) \/ (j = length l /\ y = x).
Proof.
  intros H. destruct (Nat.lt_ge_cases j (length l)) as [Hlt|Hge].
  - left. split; [assumption|]. now rewrite nth_error_app1 in H.
  - right. rewrite nth_error_app2 in H by assumption.
    destruct (j - length l) as [|m] eqn:E; simpl in H.
    + inversion H. split; [lia | reflexivity].
    + destruct m; discriminate.
Qed.

(** A range without label leaves the last labelled range of each name
    where it was. *)
Lemma last_labelled_skip (rs : list (nat * nat * string))
  (x : nat * nat * string) (day : string) (cols : list (nat * label)) :
  lab x = [] ->
  last_labelled lab (rs ++ [x]) day cols <-> last_labelled lab rs day cols.
Proof.
  intros Hx. unfold last_labelled. split.
  - intros (i & rng & Hi & Hday & Hcols & Hne & Hlater).
    apply nth_error_snoc_inv in Hi. destruct Hi as [[Hlt Hi]|[-> ->]].
    + exists i, rng. repeat split; auto.
      intros j rng' Hij Hj. apply (Hlater j rng' Hij).
      rewrite nth_error_app1; [assumption|].
      apply nth_error_Some. congruence.
    + congruence.
  - intros (i & rng & Hi & Hday & Hcols & Hne & Hlater).
    assert (Hlt : i < length rs) by (apply nth_error_Some; congruence).
    exists i, rng. repeat split; auto.
    + now rewrite nth_error_app1.
    + intros j rng' Hij Hj Hd. apply nth_error_snoc_inv in Hj.
      destruct Hj as [[_ Hj]|[_ ->]]; [eauto | assumption].
Qed.

(** A labelled range takes over its day name. *)
Lemma last_labelled_take (rs : list (nat * nat * string))
  (x : nat * nat * string) (day : string) (cols : list (nat * label)) :
  lab x <> [] ->
  last_labelled lab (rs ++ [x]) day cols
  <-> (day = snd x /\ cols = lab x)
      \/ (day <> snd x /\ last_labelled lab rs day cols).
Proof.
  intros Hx. unfold last_labelled. split.
  - intros (i & rng & Hi & Hday & Hcols & Hne & Hlater).
    apply nth_error_snoc_inv in Hi. destruct Hi as [[Hlt Hi]|[-> ->]].
    + right. split.
      * intros Heq. apply Hx.
        apply (Hlater (length rs) x Hlt (nth_error_snoc_last rs x)).
        congruence.
      * exists i, rng. repeat split; auto.
        intros j rng' Hij Hj. apply (Hlater j rng' Hij).
        rewrite nth_error_app1; [assumption|].
        apply nth_error_Some. congruence.
    + left. auto.
  - intros [[-> ->]|[Hd (i & rng & Hi & Hday & Hcols & Hne & Hlater)]].
    + exists (length rs), x. repeat split; auto.
      * apply nth_error_snoc_last.
      * intros j rng' Hij Hj. apply nth_error_snoc_inv in Hj.
        destruct Hj as [[Hlt _]|[-> _]]; lia.
    + assert (Hlt : i < length rs) by (apply nth_error_Some; congruence).
      exists i, rng. repeat split; auto.
      * now rewrite nth_error_app1.
      * intros j rng' Hij Hj Hd'. apply nth_error_snoc_inv in Hj.
        destruct Hj as [[_ Hj]|[_ ->]]; [eauto | congruence].
Qed.

Lemma store_keyed (rs : list (nat * nat * string))
  (d : list (string * list (nat * label))) (x : nat * nat * string) :
  keyed_by_day lab rs d -> keyed_by_day lab (rs ++ [x]) (store lab d x).
Proof.
  intros [Hnd Hin]. unfold store.
  destruct (lab x) as [|l0 ls] eqn:Hx.
  - split; [assumption|]. intros day cols.
    rewrite (last_labelled_skip rs x day cols Hx). apply Hin.
  - split; [now apply dict_set_NoDup|]. intros day cols.
    rewrite (dict_set_In _ _ _ _ _ Hnd), last_labelled_take by congruence.
    rewrite Hx, Hin. tauto.
Qed.

Lemma fold_store_keyed (rs : list (nat * nat * string)) :
  keyed_by_day lab rs (fold_left (store lab) rs []).
Proof.
  induction rs as [|x rs IH] using rev_ind.
  - split; [constructor|]. intros day cols. simpl. split; [intros []|].
    intros (i & rng & Hi & _). destruct i; discriminate.
  - rewrite fold_left_app. simpl. now apply store_keyed.
Qed.

End Fold.

Lemma store_block_store (classify : cell -> option label) (df : DataFrame)
  (label_row : nat) (d : list (string * list (nat * label)))
  (rng : nat * nat * string) :
  store_block classify df label_row d rng
  = store (range_labels classify df label_row) d rng.
Proof. destruct rng as [[c e] day]. reflexivity. Qed.

(** The blocks of the common layout are keyed by the day name. *)
Lemma blocks_of_keyed (is_day : cell -> bool) (name : cell -> string)
  (classify : cell -> option label) (df : DataFrame) (day_row label_row : nat) :
  keyed_by_day (range_labels classify df label_row)
               (ranges_of is_day name df day_row)
               (blocks_of is_day name classify df day_row label_row).
Proof.
  unfold blocks_of.
  rewrite (DebuggerLayout.fold_left_ext _
             (store (range_labels classify df label_row))).
  - apply fold_store_keyed.
  - intros a b. apply store_block_store.
Qed.

Lemma debugger_blocks_keyed (df : DataFrame) (day_row label_row : nat) :
  keyed_by_day (debugger_labels df label_row)
               (block_ranges (Debugger.day_starts df day_row) (shape1 df))
               (Debugger.build_blocks df day_row label_row).
Proof.
  unfold Debugger.build_blocks.
  rewrite (DebuggerLayout.fold_left_ext _ (store (debugger_labels df label_row))).
  - apply fold_store_keyed.
  - intros d [[c e] day]. unfold Debugger.add_block, store, debugger_labels.
    simpl fst. simpl snd.
    rewrite DebuggerLayout.collect_labels_tagged.
    rewrite <- DebuggerLayout.block_labels_layout.
    now destruct (Debugger.block_labels df label_row c e).
Qed.

(** C1 (amended). Both parsers keep their blocks in a dictionary keyed by
    the day name: on every sheet that parses, the kept blocks have
    pairwise distinct names, the block kept under a name holds the labels
    of the last (rightmost) day-start column of that name that has a
    label - so a repeated day name replaces the earlier block - and the
    records are those of the kept blocks, in order. *)
Theorem duplicate_day_replaces_block (flag : bool) (dt : cell -> option date)
  (df : DataFrame) :
  (forall recs info,
      Debugger.parse_sheet flag dt df = inl (recs, info) ->
      keyed_by_day
        (debugger_labels df (Debugger.info_label_row info))
        (block_ranges (Debugger.day_starts df (Debugger.info_day_row info))
                      (shape1 df))
        (Debugger.info_blocks info)
      /\ recs = flat_map
                  (Debugger.count_block flag df
                     (student_rows df (Debugger.info_start_row info)
                                   (Debugger.info_end_row info)))
                  (Debugger.info_blocks info))
  /\ (forall p,
         Monitor.parse_sheet dt df = Returned (Some p) ->
         exists day_row ds blocks,
           Monitor.find_day_row df = Some day_row
           /\ Monitor.collect_day_starts df day_row = Returned ds
           /\ Monitor.build_blocks df (day_row + 1) ds = Returned blocks
           /\ (forall rng,
                  In rng (block_ranges (py_sorted pair_le ds) (shape1 df)) ->
                  Monitor.collect_labels df (day_row + 1)
                    (fst (fst rng)) (snd (fst rng))
                  = Returned (range_labels Monitor.exact_label df
                                (day_row + 1) rng))
           /\ keyed_by_day
                (range_labels Monitor.exact_label df (day_row + 1))
                (block_ranges (py_sorted pair_le ds) (shape1 df))
                blocks
           /\ Monitor.Counts p
              = flat_map
                  (Monitor.count_block df
                     (student_rows df (fst (Monitor.StudentRows p))
                                   (snd (Monitor.StudentRows p))))
                  blocks).
Proof.
  split.
  - intros recs info H. apply DebuggerFacts.parse_sheet_inl in H.
    destruct H as (_ & _ & _ & Hb & _ & _ & _ & Hrecs).
    split; [|exact Hrecs].
    rewrite Hb. apply debugger_blocks_keyed.
  - intros p H. apply MonitorFacts.parse_sheet_Some in H.
    destruct H as (day_row & start_row & dates & H).
    destruct H as (Hd & _ & Hds & Hb & _ & Hs & _ & Hrows & Hcounts & _).
    exists day_row, (day_starts_of Monitor.is_day_cell Monitor.day_name df day_row),
      (blocks_of Monitor.is_day_cell Monitor.day_name Monitor.exact_label df
                 day_row (day_row + 1)).
    split; [assumption|]. split; [assumption|]. split; [assumption|].
    assert (Hsorted :
      block_ranges
        (py_sorted pair_le
           (day_starts_of Monitor.is_day_cell Monitor.day_name df day_row))
        (shape1 df)
      = ranges_of Monitor.is_day_cell Monitor.day_name df day_row).
    { unfold ranges_of, day_starts_of. now rewrite sorted_pairs_id. }
    rewrite Hsorted. split; [|split].
    + intros rng Hin. apply MonitorFacts.collect_labels_returns.
      * apply ScanFacts.monitor_start_row_inside in Hs. lia.
      * eapply ranges_inside; eauto.
    + apply blocks_of_keyed.
    + rewrite Hrows. exact Hcounts.
Qed.

Lemma repeated_day_parse :
  Debugger.parse_sheet true Samples.iso_to_datetime Samples.repeated_day
  = inl (Samples.repeated_day_counts, Samples.repeated_day_info).
Proof. vm_compute. reflexivity. Qed.

Lemma repeated_day_form_parse :
  Monitor.parse_sheet Samples.iso_to_datetime Samples.repeated_day_form
  = Returned (Some Samples.repeated_day_parsed).
Proof. vm_compute. reflexivity. Qed.

Lemma duplicate_day_replaces_block_witness :
  keyed_by_day (debugger_labels Samples.repeated_day 1)
    (block_ranges (Debugger.day_starts Samples.repeated_day 0) 10)
    [("Mon", [(4, B); (5, L)])]
  /\ exists blocks,
       Monitor.build_blocks Samples.repeated_day_form 9
         [(2, "Mon"); (4, "Mon")] = Returned blocks
       /\ NoDup (map fst blocks).
Proof.
  split.
  - exact (proj1 (proj1 (duplicate_day_replaces_block true
                           Samples.iso_to_datetime Samples.repeated_day)
                    _ _ repeated_day_parse)).
  - destruct (proj2 (duplicate_day_replaces_block true
                       Samples.iso_to_datetime Samples.repeated_day_form)
                _ repeated_day_form_parse)
      as (day_row & ds & blocks & Hd & Hds & Hb & _ & [Hnd _] & _).
    assert (E : day_row = 8) by (vm_compute in Hd; congruence).
    subst day_row.
    assert (E : ds = [(2, "Mon"); (4, "Mon")])
      by (vm_compute in Hds; congruence).
    subst ds. exists blocks. split; [exact Hb | exact Hnd].
Defined.

(** C1 as stated fails: on [repeated_day] the day row names "Mon" at
    columns 2 and 4, and both ranges have labels ((2,B),(3,L) and
    (4,B),(5,L)); a block per day-start column would give two blocks and
    four records.  The parser keeps one block, that of column 4, and emits
    its two records only: the marks of columns 2 and 3 are not counted. *)
Lemma duplicate_day_counterexample :
  Debugger.parse_sheet true Samples.iso_to_datetime Samples.repeated_day
  = inl (Samples.repeated_day_counts, Samples.repeated_day_info)
  /\ Debugger.day_starts Samples.repeated_day 0 = [(2, "Mon"); (4, "Mon")]
  /\ debugger_labels Samples.repeated_day 1 (2, 4, "Mon") = [(2, B); (3, L)]
  /\ debugger_labels Samples.repeated_day 1 (4, 10, "Mon") = [(4, B); (5, L)]
  /\ Debugger.info_blocks Samples.repeated_day_info
     = [("Mon", [(4, B); (5, L)])]
  /\ length Samples.repeated_day_counts = 2
  /\ ~ block_per_day_start
         (debugger_labels Samples.repeated_day 1)
         (block_ranges (Debugger.day_starts Samples.repeated_day 0) 10)
         (Debugger.info_blocks Samples.repeated_day_info).
Proof.
  split; [exact repeated_day_parse|].
  split; [vm_compute; reflexivity|]. split; [vm_compute; reflexivity|].
  split; [vm_compute; reflexivity|]. split; [reflexivity|].
  split; [reflexivity|].
  unfold block_per_day_start. vm_compute. discriminate.
Qed.

End BlockFacts.

(* ===================================================================== *)
(** * Counting marks in a block *)
(* ===================================================================== *)

Module AggregateFacts.

Import Layout LayoutFacts AggregateSpec.

Lemma count_if_ext_in {A} (p q : A -> bool) (l : list A) :
  (forall a, In a l -> p a = q a) -> count_if p l = count_if q l.
Proof.
  unfold count_if. intros H. induction l as [|a l IH]; simpl.
  - reflexivity.
  - rewrite (H a (or_introl eq_refl)).
    destruct (q a); simpl; rewrite IH; auto; intros b Hb; apply H; now right.
Qed.

Lemma count_if_none {A} (p : A -> bool) (l : list A) :
  (forall a, In a l -> p a = false) -> count_if p l = 0.
Proof.
  unfold count_if. intros H. induction l as [|a l IH]; simpl.
  - reflexivity.
  - rewrite (H a (or_introl eq_refl)). apply IH. intros b Hb. apply H. now right.
Qed.

Lemma count_if_some {A} (p : A -> bool) (l : list A) (a : A) :
  In a l -> p a = true -> 1 <= count_if p l.
Proof.
  unfold count_if. intros Hin Hp.
  assert (H : In a (filter p l)) by (apply filter_In; auto).
  destruct (filter p l); [destruct H | simpl; lia].
Qed.

Lemma existsb_ext_in {A} (p q : A -> bool) (l : list A) :
  (forall a, In a l -> p a = q a) -> existsb p l = existsb q l.
Proof.
  intros H. induction l as [|a l IH]; simpl.
  - reflexivity.
  - rewrite (H a (or_introl eq_refl)), IH; auto. intros b Hb. apply H. now right.
Qed.

Lemma flat_map_ext_in {A B} (f g : A -> list B) (l : list A) :
  (forall a, In a l -> f a = g a) -> flat_map f l = flat_map g l.
Proof.
  intros H. induction l as [|a l IH]; simpl.
  - reflexivity.
  - rewrite (H a (or_introl eq_refl)), IH; auto. intros b Hb. apply H. now right.
Qed.

Lemma meal_cols_In (cols : list (nat * label)) (c : nat) :
  In c (Debugger.meal_cols cols)
  <-> exists lab, In (c, lab) cols /\ is_meal lab = true.
Proof.
  unfold Debugger.meal_cols. rewrite in_map_iff. split.
  - intros ([c' lab] & Heq & Hin). simpl in Heq. subst c'.
    apply filter_In in Hin. destruct Hin as [Hin Hm]. eauto.
  - intros (lab & Hin & Hm). exists (c, lab). split; [reflexivity|].
    apply filter_In. auto.
Qed.

(** The rows counted by the inference are the rows with a marked meal. *)
Lemma any_meal_rows_spec (df : DataFrame) (rows : list nat)
  (cols : list (nat * label)) :
  Debugger.any_meal_rows df rows (Debugger.meal_cols cols)
  = rows_with_a_meal df rows cols.
Proof.
  unfold Debugger.any_meal_rows, rows_with_a_meal.
  apply count_if_ext_in. intros r _.
  unfold Debugger.meal_cols.
  induction cols as [|[c lab] cols IH]; simpl.
  - reflexivity.
  - destruct (is_meal lab); simpl; now rewrite IH.
Qed.

Lemma count_block_attendance (flag : bool) (df : DataFrame) (rows : list nat)
  (day : string) (cols : list (nat * label)) (rec : DayMealCount) :
  In rec (Debugger.count_block flag df rows (day, cols)) ->
  AttendanceMarked rec = Debugger.att_present flag df rows cols.
Proof.
  unfold Debugger.count_block. rewrite in_flat_map.
  intros ([c lab] & _ & Hin). destruct (is_meal lab); simpl in Hin.
  - destruct Hin as [<-|[]]. reflexivity.
  - destruct Hin.
Qed.

Lemma count_block_emits (flag : bool) (df : DataFrame) (rows : list nat)
  (day : string) (cols : list (nat * label)) (c : nat) (lab : label) :
  In (c, lab) cols -> is_meal lab = true ->
  In (mkCount day lab (count_if Debugger.nonempty_mark (column df rows c))
              (Debugger.att_present flag df rows cols))
     (Debugger.count_block flag df rows (day, cols)).
Proof.
  intros Hin Hm. unfold Debugger.count_block. apply in_flat_map.
  exists (c, lab). split; [assumption|]. rewrite Hm. now left.
Qed.

Lemma att_direct_blank (df : DataFrame) (rows : list nat)
  (cols : list (nat * label)) :
  attendance_blank df rows cols -> Debugger.att_direct df rows cols = 0.
Proof.
  unfold attendance_blank, Debugger.att_direct. intros H.
  destruct (Debugger.att_cols cols) as [|c rest]; [reflexivity|].
  apply count_if_none. intros x Hx. unfold column in Hx. apply in_map_iff in Hx.
  destruct Hx as (r & <- & Hr). now apply (H c eq_refl).
Qed.

(** C7. For a block whose attendance column is blank over the student
    rows while some meal column is marked on some student row: with the
    inference enabled every record of the block carries an
    AttendanceMarked equal to the number of student rows with a marked
    meal column, which is at least 1, and the block has a record; with the
    inference disabled AttendanceMarked is 0. *)
Theorem attendance_inferred_from_meals (df : DataFrame) (rows : list nat)
  (day : string) (cols : list (nat * label)) :
  attendance_blank df rows cols ->
  some_meal_marked df rows cols ->
  Debugger.count_block true df rows (day, cols) <> []
  /\ (forall rec, In rec (Debugger.count_block true df rows (day, cols)) ->
                  AttendanceMarked rec = rows_with_a_meal df rows cols
                  /\ 1 <= AttendanceMarked rec)
  /\ (forall rec, In rec (Debugger.count_block false df rows (day, cols)) ->
                  AttendanceMarked rec = 0).
Proof.
  intros Hblank (r & c & lab & Hr & Hc & Hm & Hmark).
  pose proof (att_direct_blank df rows cols Hblank) as Hzero.
  assert (Hmeal : In c (Debugger.meal_cols cols))
    by (apply meal_cols_In; eauto).
  assert (Hinfer : Debugger.att_present true df rows cols
                   = rows_with_a_meal df rows cols).
  { unfold Debugger.att_present. rewrite Hzero. simpl.
    rewrite <- any_meal_rows_spec.
    destruct (Debugger.meal_cols cols); [destruct Hmeal | reflexivity]. }
  assert (Hpos : 1 <= rows_with_a_meal df rows cols).
  { rewrite <- any_meal_rows_spec. unfold Debugger.any_meal_rows.
    apply (count_if_some _ _ r Hr). apply existsb_exists. eauto. }
  split; [|split].
  - intros Hnil. pose proof (count_block_emits true df rows day cols c lab Hc Hm)
      as Hin. rewrite Hnil in Hin. destruct Hin.
  - intros rec Hrec. apply count_block_attendance in Hrec.
    rewrite Hrec, Hinfer. auto.
  - intros rec Hrec. apply count_block_attendance in Hrec.
    rewrite Hrec. unfold Debugger.att_present. rewrite Hzero.
    now rewrite andb_false_r.
Qed.

Lemma attendance_inferred_from_meals_witness :
  Debugger.count_block true Samples.blank_attendance [2; 3]
    ("Mon", [(2, At); (3, B); (4, L)])
  = [mkCount "Mon" B 1 2; mkCount "Mon" L 1 2]
  /\ (forall rec,
         In rec (Debugger.count_block true Samples.blank_attendance [2; 3]
                   ("Mon", [(2, At); (3, B); (4, L)])) ->
         AttendanceMarked rec
         = rows_with_a_meal Samples.blank_attendance [2; 3]
             [(2, At); (3, B); (4, L)]
         /\ 1 <= AttendanceMarked rec)
  /\ (forall rec,
         In rec (Debugger.count_block false Samples.blank_attendance [2; 3]
                   ("Mon", [(2, At); (3, B); (4, L)])) ->
         AttendanceMarked rec = 0).
Proof.
  split; [reflexivity|].
  apply (attendance_inferred_from_meals Samples.blank_attendance [2; 3] "Mon"
           [(2, At); (3, B); (4, L)]).
  - intros c Hc r Hr. simpl in Hc. inversion Hc; subst c.
    destruct Hr as [<-|[<-|[]]]; reflexivity.
  - exists 2, 3, B. repeat split; simpl; auto.
Defined.

(** *** Attendance columns of a block *)

Lemma sorted_cols_functional (cols : list (nat * label)) (c : nat)
  (l1 l2 : label) :
  StronglySorted by_column cols ->
  In (c, l1) cols -> In (c, l2) cols -> l1 = l2.
Proof.
  induction 1 as [|[c' l'] cols Hs IH Hall]; intros H1 H2.
  - destruct H1.
  - rewrite Forall_forall in Hall. unfold by_column in Hall. simpl in Hall.
    destruct H1 as [E1|H1], H2 as [E2|H2].
    + congruence.
    + inversion E1; subst. specialize (Hall _ H2). simpl in Hall. lia.
    + inversion E2; subst. specialize (Hall _ H1). simpl in Hall. lia.
    + auto.
Qed.

Lemma att_cols_leftmost (cols : list (nat * label)) (c0 : nat) :
  StronglySorted by_column cols ->
  leftmost_attendance cols c0 ->
  exists rest, Debugger.att_cols cols = c0 :: rest.
Proof.
  unfold leftmost_attendance.
  induction 1 as [|[c lab] cols Hs IH Hall]; intros [Hin Hmin].
  - destruct Hin.
  - rewrite Forall_forall in Hall. unfold by_column in Hall. simpl in Hall.
    unfold Debugger.att_cols. simpl.
    destruct lab; simpl.
    + assert (c = c0).
      { pose proof (Hmin c (or_introl eq_refl)) as Hle.
        destruct Hin as [E|Hin]; [congruence|].
        specialize (Hall _ Hin). simpl in Hall. lia. }
      subst c. eauto.
    + apply IH. split.
      * destruct Hin as [E|Hin]; [discriminate | assumption].
      * intros c' Hc'. apply Hmin. now right.
    + apply IH. split.
      * destruct Hin as [E|Hin]; [discriminate | assumption].
      * intros c' Hc'. apply Hmin. now right.
    + apply IH. split.
      * destruct Hin as [E|Hin]; [discriminate | assumption].
      * intros c' Hc'. apply Hmin. now right.
Qed.

Lemma meal_column_not_attendance (cols : list (nat * label)) (c : nat)
  (lab : label) :
  StronglySorted by_column cols ->
  In (c, lab) cols -> is_meal lab = true -> ~ In (c, At) cols.
Proof.
  intros Hs Hin Hm Hat.
  rewrite (sorted_cols_functional cols c lab At Hs Hin Hat) in Hm.
  discriminate.
Qed.

Lemma column_same (df df' : DataFrame) (rows : list nat)
  (cols : list (nat * label)) (c0 c : nat) :
  same_but_other_attendance df df' rows cols c0 ->
  c = c0 \/ ~ In (c, At) cols ->
  column df' rows c = column df rows c.
Proof.
  intros Hsame Hc. unfold column. apply map_ext_in. intros r Hr.
  now apply Hsame.
Qed.

Section LeftmostAttendance.

Variables (df : DataFrame) (rows : list nat) (day : string).
Variables (cols : list (nat * label)) (c0 : nat).
Hypothesis Hsorted : StronglySorted by_column cols.
Hypothesis Hleft : leftmost_attendance cols c0.

Lemma att_direct_leftmost :
  Debugger.att_direct df rows cols
  = count_if Debugger.nonempty_mark (column df rows c0).
Proof.
  unfold Debugger.att_direct.
  destruct (att_cols_leftmost cols c0 Hsorted Hleft) as [rest ->].
  reflexivity.
Qed.

Lemma att_marked_leftmost :
  Monitor.att_marked df rows cols
  = count_if Monitor.str_mark (column df rows c0).
Proof.
  unfold Monitor.att_marked.
  change (Monitor.att_cols cols) with (Debugger.att_cols cols).
  destruct (att_cols_leftmost cols c0 Hsorted Hleft) as [rest ->].
  reflexivity.
Qed.

Lemma att_present_leftmost (flag : bool) :
  0 < count_if Debugger.nonempty_mark (column df rows c0) \/ flag = false ->
  Debugger.att_present flag df rows cols
  = count_if Debugger.nonempty_mark (column df rows c0).
Proof.
  unfold Debugger.att_present. rewrite att_direct_leftmost.
  intros [Hpos| ->].
  - destruct (count_if Debugger.nonempty_mark (column df rows c0));
      [lia | reflexivity].
  - now rewrite andb_false_r.
Qed.

Variable df' : DataFrame.
Hypothesis Hsame : same_but_other_attendance df df' rows cols c0.

Lemma att_present_same (flag : bool) :
  Debugger.att_present flag df' rows cols
  = Debugger.att_present flag df rows cols.
Proof.
  unfold Debugger.att_present, Debugger.att_direct.
  destruct (att_cols_leftmost cols c0 Hsorted Hleft) as [rest ->].
  rewrite (column_same df df' rows cols c0 c0 Hsame (or_introl eq_refl)).
  assert (Hmeals : Debugger.any_meal_rows df' rows (Debugger.meal_cols cols)
                   = Debugger.any_meal_rows df rows (Debugger.meal_cols cols)).
  { unfold Debugger.any_meal_rows. apply count_if_ext_in. intros r Hr.
    apply existsb_ext_in. intros c Hc. f_equal. apply Hsame; [assumption|].
    right. apply meal_cols_In in Hc. destruct Hc as (lab & Hin & Hm).
    now apply (meal_column_not_attendance cols c lab). }
  destruct ((count_if Debugger.nonempty_mark (column df rows c0) =? 0) && flag);
    [|reflexivity].
  destruct (Debugger.meal_cols cols); [reflexivity | exact Hmeals].
Qed.

Lemma debugger_count_block_same (flag : bool) :
  Debugger.count_block flag df' rows (day, cols)
  = Debugger.count_block flag df rows (day, cols).
Proof.
  unfold Debugger.count_block. rewrite att_present_same.
  apply flat_map_ext_in. intros [c lab] Hin.
  destruct (is_meal lab) eqn:Hm; [|reflexivity].
  rewrite (column_same df df' rows cols c0 c Hsame); [reflexivity|].
  right. now apply (meal_column_not_attendance cols c lab).
Qed.

Lemma monitor_count_block_same :
  Monitor.count_block df' rows (day, cols)
  = Monitor.count_block df rows (day, cols).
Proof.
  unfold Monitor.count_block, Monitor.att_marked.
  change (Monitor.att_cols cols) with (Debugger.att_cols cols).
  destruct (att_cols_leftmost cols c0 Hsorted Hleft) as [rest ->].
  rewrite (column_same df df' rows cols c0 c0 Hsame (or_introl eq_refl)).
  apply flat_map_ext_in. intros [c lab] Hin.
  destruct (is_meal lab) eqn:Hm; [|reflexivity].
  rewrite (column_same df df' rows cols c0 c Hsame); [reflexivity|].
  right. now apply (meal_column_not_attendance cols c lab).
Qed.

End LeftmostAttendance.

Lemma monitor_count_block_attendance (df : DataFrame) (rows : list nat)
  (day : string) (cols : list (nat * label)) (rec : DayMealCount) :
  In rec (Monitor.count_block df rows (day, cols)) ->
  AttendanceMarked rec = Monitor.att_marked df rows cols.
Proof.
  unfold Monitor.count_block. rewrite in_flat_map.
  intros ([c lab] & _ & Hin). destruct (is_meal lab); simpl in Hin.
  - destruct Hin as [<-|[]]. reflexivity.
  - destruct Hin.
Qed.

(** The labels of a block kept by a parser are in column order. *)
Lemma debugger_block_sorted (df : DataFrame) (day_row label_row : nat)
  (day : string) (cols : list (nat * label)) :
  In (day, cols) (Debugger.build_blocks df day_row label_row) ->
  StronglySorted by_column cols.
Proof.
  intros Hin.
  apply (BlockFacts.debugger_blocks_keyed df day_row label_row) in Hin.
  destruct Hin as (i & rng & _ & _ & -> & _).
  unfold BlockSpec.debugger_labels.
  rewrite DebuggerLayout.block_labels_layout. apply tagged_sorted.
Qed.

Lemma monitor_block_sorted (df : DataFrame) (day_row label_row : nat)
  (ds : list (nat * string)) (blocks : list (string * list (nat * label)))
  (day : string) (cols : list (nat * label)) :
  Monitor.collect_day_starts df day_row = Returned ds ->
  Monitor.build_blocks df label_row ds = Returned blocks ->
  In (day, cols) blocks ->
  StronglySorted by_column cols.
Proof.
  intros Hds Hb Hin.
  apply MonitorFacts.monitor_day_starts_layout in Hds. subst ds.
  apply MonitorFacts.monitor_blocks_layout in Hb. subst blocks.
  apply (BlockFacts.blocks_of_keyed Monitor.is_day_cell Monitor.day_name
           Monitor.exact_label df day_row label_row) in Hin.
  destruct Hin as (i & rng & _ & _ & -> & _).
  apply tagged_sorted.
Qed.

(** C10. In a block kept by either parser, with [c0] the leftmost column
    labelled Attendance: every record of the block carries the same
    AttendanceMarked; the attendance count is taken from column [c0] - in
    the monitoring parser AttendanceMarked is that count, in the debugger
    parser it is that count unless the count is 0 and the inference from
    meals is enabled - and the other attendance columns are ignored:
    changing their cells on the student rows changes no record. *)
Theorem leftmost_attendance_counted (flag : bool) (df : DataFrame)
  (rows : list nat) (day : string) (cols : list (nat * label)) (c0 : nat) :
  leftmost_attendance cols c0 ->
  ((exists day_row label_row,
       In (day, cols) (Debugger.build_blocks df day_row label_row)) ->
   (forall rec, In rec (Debugger.count_block flag df rows (day, cols)) ->
                AttendanceMarked rec = Debugger.att_present flag df rows cols)
   /\ Debugger.att_direct df rows cols
      = count_if Debugger.nonempty_mark (column df rows c0)
   /\ (0 < count_if Debugger.nonempty_mark (column df rows c0)
       \/ flag = false ->
       Debugger.att_present flag df rows cols
       = count_if Debugger.nonempty_mark (column df rows c0))
   /\ (forall df', same_but_other_attendance df df' rows cols c0 ->
                   Debugger.count_block flag df' rows (day, cols)
                   = Debugger.count_block flag df rows (day, cols)))
  /\ ((exists day_row label_row ds blocks,
          Monitor.collect_day_starts df day_row = Returned ds
          /\ Monitor.build_blocks df label_row ds = Returned blocks
          /\ In (day, cols) blocks) ->
      (forall rec, In rec (Monitor.count_block df rows (day, cols)) ->
                   AttendanceMarked rec
                   = count_if Monitor.str_mark (column df rows c0))
      /\ (forall df', same_but_other_attendance df df' rows cols c0 ->
                      Monitor.count_block df' rows (day, cols)
                      = Monitor.count_block df rows (day, cols))).
Proof.
  intros Hleft. split.
  - intros (day_row & label_row & Hin).
    pose proof (debugger_block_sorted _ _ _ _ _ Hin) as Hs.
    split; [|split; [|split]].
    + intros rec. apply count_block_attendance.
    + now apply att_direct_leftmost.
    + now apply att_present_leftmost.
    + intros df' Hsame. now apply (debugger_count_block_same df rows day cols c0).
  - intros (day_row & label_row & ds & blocks & Hds & Hb & Hin).
    pose proof (monitor_block_sorted _ _ _ _ _ _ _ Hds Hb Hin) as Hs.
    split.
    + intros rec Hrec. apply monitor_count_block_attendance in Hrec.
      rewrite Hrec. now apply att_marked_leftmost.
    + intros df' Hsame. now apply (monitor_count_block_same df rows day cols c0).
Qed.

Lemma leftmost_attendance_counted_witness :
  (forall rec,
      In rec (Debugger.count_block true Samples.double_attendance [2; 3]
                ("Mon", [(2, At); (3, At); (4, B)])) ->
      AttendanceMarked rec = 1)
  /\ (forall rec,
         In rec (Monitor.count_block Samples.double_attendance_form [10; 11]
                   ("Mon", [(2, At); (3, At); (4, B)])) ->
         AttendanceMarked rec = 1).
Proof.
  assert (Hleft : leftmost_attendance [(2, At); (3, At); (4, B)] 2).
  { split; [now left|]. intros c [E|[E|[E|[]]]]; inversion E; lia. }
  pose proof (leftmost_attendance_counted true Samples.double_attendance
                [2; 3] "Mon" [(2, At); (3, At); (4, B)] 2 Hleft) as [Hd _].
  pose proof (leftmost_attendance_counted true Samples.double_attendance_form
                [10; 11] "Mon" [(2, At); (3, At); (4, B)] 2 Hleft) as [_ Hm].
  split.
  - destruct Hd as (Hrec & _ & Hatt & _).
    { exists 0, 1. vm_compute. now left. }
    intros rec Hin. rewrite (Hrec rec Hin). rewrite Hatt; [reflexivity|].
    left. vm_compute. lia.
  - destruct Hm as (Hrec & _).
    { exists 8, 9, [(2, "Mon")], [("Mon", [(2, At); (3, At); (4, B)])].
      repeat split; try (vm_compute; reflexivity). now left. }
    intros rec Hin. rewrite (Hrec rec Hin). reflexivity.
Defined.

End AggregateFacts.

(* ===================================================================== *)
(** * Batches of sheets *)
(* ===================================================================== *)

Module BatchFacts.

Import BatchSpec.

Lemma build_step_spec (flag : bool) (dt : cell -> option date)
  (acc : list Debugger.SheetRecord * list Debugger.DebugEntry)
  (sheet : string * DataFrame) :
  Debugger.build_step flag dt acc sheet
  = (fst acc ++ sheet_rows flag dt sheet,
     snd acc ++ [debug_entry flag dt sheet]).
Proof.
  destruct acc as [recs dbg], sheet as [s df].
  unfold Debugger.build_step, sheet_rows, debug_entry. simpl.
  destruct (Debugger.parse_sheet flag dt df) as [[counts info]|e].
  - reflexivity.
  - now rewrite app_nil_r.
Qed.

Lemma build_all_from (flag : bool) (dt : cell -> option date)
  (wb : list (string * DataFrame))
  (acc : list Debugger.SheetRecord * list Debugger.DebugEntry) :
  fold_left (Debugger.build_step flag dt) wb acc
  = (fst acc ++ flat_map (sheet_rows flag dt) wb,
     snd acc ++ map (debug_entry flag dt) wb).
Proof.
  revert acc. induction wb as [|sheet wb IH]; intros acc; simpl.
  - rewrite !app_nil_r. now destruct acc.
  - rewrite IH, build_step_spec. simpl. now rewrite <- !app_assoc.
Qed.

Lemma build_all_spec (flag : bool) (dt : cell -> option date)
  (wb : list (string * DataFrame)) :
  Debugger.build_all flag dt wb
  = (flat_map (sheet_rows flag dt) wb, map (debug_entry flag dt) wb).
Proof. unfold Debugger.build_all. now rewrite build_all_from. Qed.

Lemma sheet_records_nil (p : Monitor.Parsed) :
  Monitor.Counts p = [] -> Report.sheet_records p = [].
Proof. unfold Report.sheet_records. now intros ->. Qed.

Lemma monitor_step_spec (dt : cell -> option date)
  (acc : list Report.SummaryRow) (sheet : string * DataFrame)
  (res : option Monitor.Parsed) :
  Monitor.parse_sheet dt (snd sheet) = Returned res ->
  Report.build_step dt acc sheet = Returned (acc ++ monitor_rows dt sheet).
Proof.
  intros H. unfold Report.build_step, monitor_rows. rewrite H. simpl.
  destruct res as [p|]; [|now rewrite app_nil_r].
  destruct (Monitor.Counts p) eqn:E; [|reflexivity].
  now rewrite (sheet_records_nil p E), app_nil_r.
Qed.

Lemma collect_records_from (dt : cell -> option date)
  (wb : list (string * DataFrame)) (acc : list Report.SummaryRow) :
  all_sheets_return dt wb ->
  foldM (Report.build_step dt) wb acc
  = Returned (acc ++ flat_map (monitor_rows dt) wb).
Proof.
  revert acc. induction wb as [|sheet wb IH]; intros acc Hall; simpl.
  - now rewrite app_nil_r.
  - destruct (Hall sheet (or_introl eq_refl)) as [res Hres].
    rewrite (monitor_step_spec dt acc sheet res Hres). simpl.
    rewrite IH; [now rewrite <- app_assoc|].
    intros sh Hsh. apply Hall. now right.
Qed.

(** C9 (amended). [build_all] gives every sheet one entry of the debug
    log, in sheet order: a sheet that fails to parse gets an ERROR entry
    with the reason of the failure, and the records of every sheet that
    parses appear in the summary, whatever happens to the other sheets.
    [build_report] keeps no diagnostic: when no sheet makes the parser
    raise, a sheet without result is passed over and the report is
    assembled from the records of the sheets that parse. *)
Theorem batch_continues_past_failures (flag : bool) (dt : cell -> option date)
  (wb : list (string * DataFrame)) :
  Debugger.build_all flag dt wb
  = (flat_map (sheet_rows flag dt) wb, map (debug_entry flag dt) wb)
  /\ (forall name df e,
         In (name, df) wb -> Debugger.parse_sheet flag dt df = inr e ->
         In (Debugger.DebugError name (Debugger.error_detail e))
            (snd (Debugger.build_all flag dt wb)))
  /\ (forall name df counts info c,
         In (name, df) wb ->
         Debugger.parse_sheet flag dt df = inl (counts, info) ->
         In c counts -> In (name, c) (fst (Debugger.build_all flag dt wb)))
  /\ (all_sheets_return dt wb ->
      Report.build_report dt wb
      = Returned (Report.assemble dt (flat_map (monitor_rows dt) wb)))
  /\ (all_sheets_return dt wb ->
      forall name df p row,
        In (name, df) wb -> Monitor.parse_sheet dt df = Returned (Some p) ->
        In row (Report.sheet_records p) ->
        exists out, Report.build_report dt wb = Returned out
                    /\ In (Report.add_columns dt row) (Report.Summary_All out)).
Proof.
  split; [apply build_all_spec|]. split; [|split; [|split]].
  - intros name df e Hin He. rewrite build_all_spec. simpl.
    apply in_map_iff. exists (name, df). split; [|assumption].
    unfold debug_entry. simpl. now rewrite He.
  - intros name df counts info c Hin Hp Hc. rewrite build_all_spec. simpl.
    apply in_flat_map. exists (name, df). split; [assumption|].
    unfold sheet_rows. simpl. rewrite Hp.
    apply in_map_iff. eauto.
  - intros Hall. unfold Report.build_report, Report.collect_records.
    now rewrite (collect_records_from dt wb [] Hall).
  - intros Hall name df p row Hin Hp Hrow.
    exists (Report.assemble dt (flat_map (monitor_rows dt) wb)). split.
    + unfold Report.build_report, Report.collect_records.
      now rewrite (collect_records_from dt wb [] Hall).
    + assert (Hin' : In row (flat_map (monitor_rows dt) wb)).
      { apply in_flat_map. exists (name, df). split; [assumption|].
        unfold monitor_rows. simpl. now rewrite Hp. }
      unfold Report.assemble.
      destruct (flat_map (monitor_rows dt) wb) as [|r0 rs] eqn:E;
        [destruct Hin'|].
      change (In (Report.add_columns dt row)
                 (map (Report.add_columns dt) (r0 :: rs))).
      now apply in_map.
Qed.

Lemma blank_roster_parse :
  Debugger.parse_sheet true Samples.iso_to_datetime Samples.blank_form
  = inr Debugger.NoDayRow.
Proof. vm_compute. reflexivity. Qed.

Lemma batch_continues_past_failures_witness :
  (In (Debugger.DebugError "a" "No day row found")
      (snd (Debugger.build_all true Samples.iso_to_datetime
              [("a", Samples.blank_form); ("b", Samples.scenario1)]))
   /\ In ("b", mkCount "Mon" B 1 1)
         (fst (Debugger.build_all true Samples.iso_to_datetime
                 [("a", Samples.blank_form); ("b", Samples.scenario1)])))
  /\ Report.build_report Samples.iso_to_datetime
       [("a", Samples.blank_form); ("b", Samples.dated_form)]
     = Returned (Report.assemble Samples.iso_to_datetime
                   (flat_map (monitor_rows Samples.iso_to_datetime)
                      [("a", Samples.blank_form); ("b", Samples.dated_form)])).
Proof.
  pose proof (batch_continues_past_failures true Samples.iso_to_datetime
                [("a", Samples.blank_form); ("b", Samples.scenario1)])
    as (_ & Herr & Hrec & _).
  pose proof (batch_continues_past_failures true Samples.iso_to_datetime
                [("a", Samples.blank_form); ("b", Samples.dated_form)])
    as (_ & _ & _ & Hrep & _).
  split; [split|].
  - apply (Herr "a" Samples.blank_form Debugger.NoDayRow);
      [now left | exact blank_roster_parse].
  - apply (Hrec "b" Samples.scenario1 Samples.scenario1_counts
             Samples.scenario1_info);
      [right; now left | exact ScanFacts.scenario1_parse | now left].
  - apply Hrep. intros sheet [<-|[<-|[]]].
    + exists None. exact ScanFacts.blank_form_parse.
    + exists (Some Samples.dated_parsed). exact ScanFacts.dated_form_parse.
Defined.

(** C9 as stated fails for [build_report]: the sheet [blank_form] does not
    parse, and the report is the same as if the sheet were not there, so
    nothing records its failure; and the sheet [short_form], of fewer than
    30 rows, makes the whole batch raise, so the records of the sheet that
    follows it never reach the output. *)
Lemma batch_report_counterexample :
  Monitor.parse_sheet Samples.iso_to_datetime Samples.blank_form
  = Returned None
  /\ Report.build_report Samples.iso_to_datetime
       [("a", Samples.blank_form); ("b", Samples.dated_form)]
     = Report.build_report Samples.iso_to_datetime
         [("b", Samples.dated_form)]
  /\ Monitor.parse_sheet Samples.iso_to_datetime Samples.dated_form
     = Returned (Some Samples.dated_parsed)
  /\ Report.build_report Samples.iso_to_datetime
       [("a", Samples.short_form); ("b", Samples.dated_form)]
     = Raised IndexError.
Proof.
  split; [exact ScanFacts.blank_form_parse|].
  split; [vm_compute; reflexivity|].
  split; [exact ScanFacts.dated_form_parse|].
  vm_compute. reflexivity.
Qed.

End BatchFacts.

(* ===================================================================== *)
(** * Monthly rollups *)
(* ===================================================================== *)

Module ReportFacts.

Import Report ReportSpec.

(** *** Keys, groups and sorting *)

Lemma key_eqb_eq (a b : list string) : key_eqb a b = true <-> a = b.
Proof.
  unfold key_eqb. revert b. induction a as [|x a IH]; intros [|y b]; simpl;
    try (split; [discriminate | congruence]).
  - tauto.
  - rewrite andb_true_iff, String.eqb_eq, IH. split.
    + intros [-> ->]. reflexivity.
    + intros H. inversion H. auto.
Qed.

Lemma key_eqb_refl (a : list string) : key_eqb a a = true.
Proof. now apply key_eqb_eq. Qed.

Lemma key_eqb_neq (a b : list string) : a <> b -> key_eqb a b = false.
Proof.
  intros H. destruct (key_eqb a b) eqn:E; [|reflexivity].
  apply key_eqb_eq in E. contradiction.
Qed.

Lemma distinct_incl {K} (eqb : K -> K -> bool) (l : list K) (k : K) :
  In k (distinct eqb l) -> In k l.
Proof.
  induction l as [|k0 l IH]; simpl; [tauto|].
  intros [->|H]; [now left|]. apply filter_In in H. right. tauto.
Qed.

Lemma distinct_In (l : list (list string)) (k : list string) :
  In k (distinct key_eqb l) <-> In k l.
Proof.
  split; [apply distinct_incl|].
  induction l as [|k0 l IH]; simpl; [tauto|].
  intros [->|H]; [now left|].
  destruct (key_eqb k k0) eqn:E.
  - left. apply key_eqb_eq in E. auto.
  - right. apply filter_In. split; [auto | now rewrite E].
Qed.

Lemma insert_sorted_In {A} (le : A -> A -> bool) (x y : A) (l : list A) :
  In y (insert_sorted le x l) <-> y = x \/ In y l.
Proof.
  induction l as [|z l IH]; simpl.
  - intuition.
  - destruct (le x z); simpl; [intuition|]. rewrite IH. intuition.
Qed.

Lemma py_sorted_In {A} (le : A -> A -> bool) (y : A) (l : list A) :
  In y (py_sorted le l) <-> In y l.
Proof.
  induction l as [|x l IH]; simpl; [tauto|].
  rewrite insert_sorted_In, IH. intuition.
Qed.

Lemma filter_comm {A} (p q : A -> bool) (l : list A) :
  filter p (filter q l) = filter q (filter p l).
Proof.
  induction l as [|a l IH]; simpl; [reflexivity|].
  destruct (p a) eqn:Hp, (q a) eqn:Hq; simpl; rewrite ?Hp, ?Hq, IH; reflexivity.
Qed.

Lemma filter_filter_implied {A} (p q : A -> bool) (l : list A) :
  (forall a, In a l -> p a = true -> q a = true) ->
  filter p (filter q l) = filter p l.
Proof.
  intros H. induction l as [|a l IH]; simpl; [reflexivity|].
  assert (IH' : filter p (filter q l) = filter p l)
    by (apply IH; intros b Hb; apply H; now right).
  destruct (q a) eqn:Hq; simpl.
  - now rewrite IH'.
  - destruct (p a) eqn:Hp; [|assumption].
    rewrite (H a (or_introl eq_refl) Hp) in Hq. discriminate.
Qed.

Lemma lookup_map {V} (g : list string -> V) (l : list (list string))
  (k : list string) :
  lookup k (map (fun k' => (k', g k')) l)
  = if existsb (fun k' => key_eqb k' k) l then Some (g k) else None.
Proof.
  induction l as [|k0 l IH]; simpl; [reflexivity|].
  destruct (key_eqb k0 k) eqn:E; simpl.
  - apply key_eqb_eq in E. now subst.
  - exact IH.
Qed.

Lemma lookup_group_size {R} (key : R -> list string) (rows : list R)
  (k : list string) :
  match lookup k (group_size key rows) with Some n => n | None => 0 end
  = group_count key rows k.
Proof.
  unfold group_size, group_count.
  rewrite (lookup_map (fun k => count_if (fun r => key_eqb (key r) k) rows)).
  destruct (existsb (fun k' => key_eqb k' k) (distinct key_eqb (map key rows)))
    eqn:E; [reflexivity|].
  symmetry. apply AggregateFacts.count_if_none. intros r Hr.
  destruct (key_eqb (key r) k) eqn:Hk; [|reflexivity].
  assert (Hex : existsb (fun k' => key_eqb k' k)
                        (distinct key_eqb (map key rows)) = true).
  { apply existsb_exists. exists (key r). split; [|assumption].
    apply distinct_In. now apply in_map. }
  congruence.
Qed.

Lemma group_size_keys {R} (key : R -> list string) (rows : list R) :
  map fst (group_size key rows) = distinct key_eqb (map key rows).
Proof. unfold group_size. rewrite map_map. simpl. apply map_id. Qed.

Lemma group_mean_keys (dkey : DailyRow -> list string) (D : list DailyRow) :
  map fst (group_mean dkey D) = distinct key_eqb (map dkey D).
Proof. unfold group_mean. rewrite map_map. simpl. apply map_id. Qed.

(** Rows of the outer merge: one per key of either side. *)
Lemma merged_rows {R} (key : R -> list string) (rows : list R)
  (dkey : DailyRow -> list string) (D : list DailyRow)
  (x : list string * nat * Q) :
  In x (merge_outer (group_size key rows) (group_mean dkey D))
  <-> exists k, x = (k, group_count key rows k, group_pct dkey D k)
                /\ (In k (map key rows) \/ In k (map dkey D)).
Proof.
  unfold merge_outer. rewrite in_map_iff. split.
  - intros (k & <- & Hk). exists k.
    rewrite lookup_group_size. split; [reflexivity|].
    apply (proj1 (distinct_In _ _)) in Hk. apply in_app_or in Hk.
    rewrite group_size_keys, group_mean_keys in Hk.
    destruct Hk as [Hk|Hk]; apply (proj1 (distinct_In _ _)) in Hk; auto.
  - intros (k & -> & Hk). exists k.
    rewrite lookup_group_size. split; [reflexivity|].
    apply distinct_In. apply in_or_app.
    rewrite group_size_keys, group_mean_keys.
    destruct Hk as [Hk|Hk]; [left|right]; now apply distinct_In.
Qed.

Lemma group_count_filter {R} (key : R -> list string) (q : R -> bool)
  (rows : list R) (k : list string) :
  (forall r, In r rows -> key r = k -> q r = true) ->
  group_count key (filter q rows) k = group_count key rows k.
Proof.
  intros H. unfold group_count, count_if. f_equal.
  apply filter_filter_implied. intros r Hr Hk.
  apply key_eqb_eq in Hk. now apply H.
Qed.

(** Restricting the left side of the merge to the rows that [q] accepts
    keeps exactly the merged rows whose key satisfies [P], when [q] tells
    on every row whether its key satisfies [P] and all the keys of the
    right side do. *)
Lemma merged_rows_filter {R} (key : R -> list string) (q : R -> bool)
  (P : list string -> Prop) (rows : list R)
  (dkey : DailyRow -> list string) (D : list DailyRow)
  (x : list string * nat * Q) :
  (forall r, In r rows -> q r = true <-> P (key r)) ->
  (forall d, In d D -> P (dkey d)) ->
  In x (merge_outer (group_size key (filter q rows)) (group_mean dkey D))
  <-> In x (merge_outer (group_size key rows) (group_mean dkey D))
      /\ P (fst (fst x)).
Proof.
  intros Hq HD. rewrite !merged_rows. split.
  - intros (k & -> & Hk).
    assert (HP : P k).
    { destruct Hk as [Hk|Hk]; apply in_map_iff in Hk;
        destruct Hk as (r & <- & Hr).
      - apply filter_In in Hr. destruct Hr as [Hr Hqr]. now apply Hq.
      - now apply HD. }
    split; [|exact HP]. exists k. split.
    + rewrite group_count_filter; [reflexivity|].
      intros r Hr <-. now apply Hq.
    + destruct Hk as [Hk|Hk]; [left|now right].
      apply in_map_iff in Hk. destruct Hk as (r & <- & Hr).
      apply filter_In in Hr. apply in_map. tauto.
  - intros ((k & -> & Hk) & HP). simpl in HP. exists k. split.
    + rewrite group_count_filter; [reflexivity|].
      intros r Hr <-. now apply Hq.
    + destruct Hk as [Hk|Hk]; [left|now right].
      apply in_map_iff in Hk. destruct Hk as (r & <- & Hr).
      apply in_map. apply filter_In. split; [assumption|]. now apply Hq.
Qed.

(** *** Week starts and months *)

Lemma dec_head (n : nat) :
  exists c s, dec n = String c s /\ c <> "N"%char.
Proof.
  unfold dec. destruct (Nat.to_uint n); simpl;
    eexists; eexists; (split; [reflexivity | discriminate]).
Qed.

Lemma pad4_head (n : nat) :
  exists c s, pad4 n = String c s /\ c <> "N"%char.
Proof.
  unfold pad4.
  destruct (n <? 10); [simpl; eexists; eexists; split;
                       [reflexivity | discriminate]|].
  destruct (n <? 100); [simpl; eexists; eexists; split;
                        [reflexivity | discriminate]|].
  destruct (n <? 1000); [simpl; eexists; eexists; split;
                         [reflexivity | discriminate]|].
  apply dec_head.
Qed.

(** The month of a known week start never prints as NaT. *)
Lemma month_str_known (d : date) : month_str (Some d) <> "NaT".
Proof.
  unfold month_str. destruct (pad4_head (year d)) as (c & s & -> & Hc).
  simpl. intros H. inversion H. contradiction.
Qed.

Section Columns.

Variable dt : cell -> option date.

Lemma add_columns_known (r : SummaryRow) :
  known (add_columns dt r) = week_parses dt r.
Proof. reflexivity. Qed.

Lemma add_columns_month (f : FlatRow) (recs : list SummaryRow) :
  In f (map (add_columns dt) recs) -> Month f = month_str (WeekStart f).
Proof. rewrite in_map_iff. intros (r & <- & _). reflexivity. Qed.

Lemma map_add_columns_dated (recs : list SummaryRow) :
  map (add_columns dt) (dated_records dt recs)
  = filter known (map (add_columns dt) recs).
Proof.
  unfold dated_records. induction recs as [|r recs IH]; simpl.
  - reflexivity.
  - rewrite add_columns_known. destruct (week_parses dt r); simpl;
      now rewrite IH.
Qed.

End Columns.

Lemma known_month (f : FlatRow) :
  Month f = month_str (WeekStart f) ->
  known f = true <-> Month f <> "NaT".
Proof.
  intros ->. unfold known. destruct (WeekStart f) as [d|].
  - split; [intros _; apply month_str_known | reflexivity].
  - simpl. split; [discriminate | congruence].
Qed.

(** *** The daily table drops the rows without week start *)

Lemma has_daily_key_known (k : list string * date) (f : FlatRow) :
  has_daily_key k f = true -> known f = true.
Proof.
  unfold has_daily_key, daily_key, known.
  destruct (WeekStart f); [reflexivity | discriminate].
Qed.

Lemma daily_keys_known (rows : list FlatRow) :
  daily_keys (filter known rows) = daily_keys rows.
Proof.
  unfold daily_keys. induction rows as [|f rows IH]; simpl.
  - reflexivity.
  - unfold known at 1, daily_key at 2.
    destruct (WeekStart f) eqn:E; simpl.
    + unfold daily_key at 1. rewrite E. simpl. now rewrite IH.
    + exact IH.
Qed.

Lemma daily_ok_known (rows : list FlatRow) :
  daily_ok (filter known rows) = daily_ok rows.
Proof.
  unfold daily_ok. rewrite filter_comm, daily_keys_known.
  apply map_ext. intros k. unfold daily_row.
  rewrite (filter_filter_implied (has_daily_key k) known);
    [reflexivity|].
  intros f _. apply has_daily_key_known.
Qed.

Lemma daily_ok_row (rows : list FlatRow) (d : DailyRow) :
  In d (daily_ok rows) ->
  exists f day, In f rows /\ WeekStart f = Some day
                /\ d_Campus d = Campus (base f) /\ d_Month d = Month f
                /\ d_Week d = Week (base f).
Proof.
  unfold daily_ok. rewrite in_map_iff. intros (k & <- & Hk).
  apply distinct_incl in Hk. unfold daily_keys in Hk.
  apply in_flat_map in Hk. destruct Hk as (f & Hf & Hk).
  apply filter_In in Hf. destruct Hf as [Hf _].
  unfold daily_key in Hk. destruct (WeekStart f) as [day|] eqn:E;
    [|destruct Hk].
  destruct Hk as [<-|[]]. exists f, day. simpl. auto.
Qed.

(** *** The two dashboards *)

Lemma dash_month_In (rows : list FlatRow) (row : MonthRow) :
  In row (dash_month rows)
  <-> exists x,
        In x (merge_outer
                (group_size key_campus_month
                   (filter (fun f => Issue_MissingRecording (base f)) rows))
                (group_mean (fun d => [d_Campus d; d_Month d])
                            (daily_ok rows)))
        /\ row = to_month_row x.
Proof.
  unfold dash_month. rewrite py_sorted_In, in_map_iff.
  split; intros (x & H1 & H2); exists x; auto.
Qed.

Lemma dash_month_week_In (rows : list FlatRow) (row : MonthWeekRow) :
  In row (dash_month_week rows)
  <-> exists x,
        In x (merge_outer
                (group_size key_campus_month_week
                   (filter (fun f => Issue_MissingRecording (base f)) rows))
                (group_mean (fun d => [d_Campus d; d_Month d; d_Week d])
                            (daily_ok rows)))
        /\ row = to_month_week_row x.
Proof.
  unfold dash_month_week. rewrite py_sorted_In, in_map_iff.
  split; intros (x & H1 & H2); exists x; auto.
Qed.

Section Rollups.

Variable rows : list FlatRow.
Hypothesis Hmonth : forall f, In f rows -> Month f = month_str (WeekStart f).

Let miss := filter (fun f => Issue_MissingRecording (base f)) rows.

Lemma miss_known_month (key : FlatRow -> list string) (f : FlatRow) :
  nth 1 (key f) EmptyString = Month f ->
  In f miss ->
  known f = true <-> nth 1 (key f) EmptyString <> "NaT".
Proof.
  intros Hk Hf. rewrite Hk. apply known_month. apply Hmonth.
  unfold miss in Hf. apply filter_In in Hf. tauto.
Qed.

Lemma daily_month_known (d : DailyRow) :
  In d (daily_ok rows) -> d_Month d <> "NaT".
Proof.
  intros Hd. apply daily_ok_row in Hd.
  destruct Hd as (f & day & Hf & Hws & _ & -> & _).
  rewrite (Hmonth f Hf), Hws. apply month_str_known.
Qed.

Lemma dash_month_known (row : MonthRow) :
  In row (dash_month (filter known rows))
  <-> In row (dash_month rows) /\ m_Month row <> "NaT".
Proof.
  rewrite !dash_month_In, daily_ok_known, filter_comm. fold miss.
  assert (Hfilter : forall x,
    In x (merge_outer (group_size key_campus_month (filter known miss))
            (group_mean (fun d => [d_Campus d; d_Month d]) (daily_ok rows)))
    <-> In x (merge_outer (group_size key_campus_month miss)
                (group_mean (fun d => [d_Campus d; d_Month d]) (daily_ok rows)))
        /\ nth 1 (fst (fst x)) EmptyString <> "NaT").
  { intros x.
    apply (merged_rows_filter key_campus_month known
             (fun k => nth 1 k EmptyString <> "NaT")).
    - intros f Hf. now apply miss_known_month.
    - intros d Hd. simpl. now apply daily_month_known. }
  split.
  - intros (x & Hx & ->). apply Hfilter in Hx. destruct Hx as [Hx HP].
    destruct x as [[k n] q]. split; [exists (k, n, q); auto | exact HP].
  - intros [(x & Hx & ->) HP]. exists x. split; [|reflexivity].
    apply Hfilter. split; [assumption|]. now destruct x as [[k n] q].
Qed.

Lemma dash_month_week_known (row : MonthWeekRow) :
  In row (dash_month_week (filter known rows))
  <-> In row (dash_month_week rows) /\ w_Month row <> "NaT".
Proof.
  rewrite !dash_month_week_In, daily_ok_known, filter_comm. fold miss.
  assert (Hfilter : forall x,
    In x (merge_outer (group_size key_campus_month_week (filter known miss))
            (group_mean (fun d => [d_Campus d; d_Month d; d_Week d])
                        (daily_ok rows)))
    <-> In x (merge_outer (group_size key_campus_month_week miss)
                (group_mean (fun d => [d_Campus d; d_Month d; d_Week d])
                            (daily_ok rows)))
        /\ nth 1 (fst (fst x)) EmptyString <> "NaT").
  { intros x.
    apply (merged_rows_filter key_campus_month_week known
             (fun k => nth 1 k EmptyString <> "NaT")).
    - intros f Hf. now apply miss_known_month.
    - intros d Hd. simpl. now apply daily_month_known. }
  split.
  - intros (x & Hx & ->). apply Hfilter in Hx. destruct Hx as [Hx HP].
    destruct x as [[k n] q]. split; [exists (k, n, q); auto | exact HP].
  - intros [(x & Hx & ->) HP]. exists x. split; [|reflexivity].
    apply Hfilter. split; [assumption|]. now destruct x as [[k n] q].
Qed.

(** A flagged row without week start is counted under the month NaT. *)
Lemma flagged_unknown_counted (f : FlatRow) :
  In f rows -> WeekStart f = None ->
  Issue_MissingRecording (base f) = true ->
  exists row, In row (dash_month rows)
              /\ m_Campus row = Campus (base f) /\ m_Month row = "NaT"
              /\ 1 <= m_Missing row.
Proof.
  intros Hf Hws Hissue.
  assert (Hmiss : In f miss) by (apply filter_In; auto).
  assert (HNaT : Month f = "NaT") by (rewrite (Hmonth f Hf), Hws; reflexivity).
  set (k := key_campus_month f).
  exists (to_month_row
            (k, group_count key_campus_month miss k,
             group_pct (fun d => [d_Campus d; d_Month d]) (daily_ok rows) k)).
  split; [|split; [|split]].
  - apply dash_month_In. eexists. split; [|reflexivity].
    apply merged_rows. exists k. split; [reflexivity|].
    left. now apply in_map.
  - reflexivity.
  - simpl. exact HNaT.
  - simpl. unfold group_count.
    apply (AggregateFacts.count_if_some _ _ f Hmiss). apply key_eqb_refl.
Qed.

End Rollups.

Lemma assemble_month (dt : cell -> option date) (recs : list SummaryRow) :
  Dashboard_Month (assemble dt recs) = dash_month (map (add_columns dt) recs).
Proof. destruct recs; reflexivity. Qed.

Lemma assemble_month_week (dt : cell -> option date) (recs : list SummaryRow) :
  Dashboard_Month_Week (assemble dt recs)
  = dash_month_week (map (add_columns dt) recs).
Proof. destruct recs; reflexivity. Qed.

Lemma assemble_summary (dt : cell -> option date) (recs : list SummaryRow) :
  Summary_All (assemble dt recs) = map (add_columns dt) recs.
Proof. destruct recs; reflexivity. Qed.

(** C2 (amended). A record whose Week text does not parse as "start to
    end" appears in the flat table, with no week start and the month text
    NaT; it is left out of the daily table behind the percentage KPI; and
    the rows of Dashboard_Month and of Dashboard_Month_Week whose month is
    not NaT are exactly the rows obtained from the records whose week
    parses.  Such a record is grouped under the month NaT, where it counts
    as a missing recording when it is flagged. *)
Theorem unparsed_week_goes_to_NaT (dt : cell -> option date)
  (recs : list SummaryRow) :
  (forall r, In r recs -> parse_week_start dt (Week r) = None ->
             In (mkFlat r None "NaT") (Summary_All (assemble dt recs)))
  /\ daily_ok (map (add_columns dt) recs)
     = daily_ok (map (add_columns dt) (dated_records dt recs))
  /\ (forall row,
         In row (Dashboard_Month (assemble dt (dated_records dt recs)))
         <-> In row (Dashboard_Month (assemble dt recs))
             /\ m_Month row <> "NaT")
  /\ (forall row,
         In row (Dashboard_Month_Week (assemble dt (dated_records dt recs)))
         <-> In row (Dashboard_Month_Week (assemble dt recs))
             /\ w_Month row <> "NaT")
  /\ (forall r, In r recs -> parse_week_start dt (Week r) = None ->
                Issue_MissingRecording r = true ->
                exists row, In row (Dashboard_Month (assemble dt recs))
                            /\ m_Campus row = Campus r
                            /\ m_Month row = "NaT" /\ 1 <= m_Missing row).
Proof.
  assert (Hmonth : forall f, In f (map (add_columns dt) recs) ->
                             Month f = month_str (WeekStart f))
    by (intros f Hf; now apply (add_columns_month dt f recs)).
  split; [|split; [|split; [|split]]].
  - intros r Hr Hweek. rewrite assemble_summary.
    apply in_map_iff. exists r. split; [|assumption].
    unfold add_columns. now rewrite Hweek.
  - rewrite map_add_columns_dated. symmetry. apply daily_ok_known.
  - intros row. rewrite !assemble_month, map_add_columns_dated.
    now apply dash_month_known.
  - intros row. rewrite !assemble_month_week, map_add_columns_dated.
    now apply dash_month_week_known.
  - intros r Hr Hweek Hissue. rewrite assemble_month.
    destruct (flagged_unknown_counted (map (add_columns dt) recs) Hmonth
                (add_columns dt r)) as (row & Hrow & Hc & Hm & Hn).
    + now apply in_map.
    + unfold add_columns. simpl. exact Hweek.
    + exact Hissue.
    + exists row. auto.
Qed.

Lemma mixed_records :
  collect_records Samples.iso_to_datetime
    [("a", Samples.dated_form); ("b", Samples.undated_form)]
  = Returned [Samples.dated_row; Samples.undated_row].
Proof. vm_compute. reflexivity. Qed.

Lemma mixed_assembled :
  assemble Samples.iso_to_datetime [Samples.dated_row; Samples.undated_row]
  = Samples.mixed_report.
Proof. vm_compute. reflexivity. Qed.

Lemma unparsed_week_goes_to_NaT_witness :
  In (mkFlat Samples.undated_row None "NaT")
     (Summary_All (assemble Samples.iso_to_datetime
                     [Samples.dated_row; Samples.undated_row]))
  /\ exists row,
       In row (Dashboard_Month (assemble Samples.iso_to_datetime
                                  [Samples.dated_row; Samples.undated_row]))
       /\ m_Campus row = "Unknown Campus" /\ m_Month row = "NaT"
       /\ 1 <= m_Missing row.
Proof.
  pose proof (unparsed_week_goes_to_NaT Samples.iso_to_datetime
                [Samples.dated_row; Samples.undated_row])
    as (Hflat & _ & _ & _ & Hcount).
  split.
  - apply Hflat; [right; now left | reflexivity].
  - apply (Hcount Samples.undated_row);
      [right; now left | reflexivity | reflexivity].
Defined.

(** C2 as stated fails: in a workbook made of [dated_form] and
    [undated_form] the record of the second sheet carries the week text
    "Unknown Week", which does not parse, and is flagged; both dashboards
    gain a row of month NaT counting it, so the monthly tables are not
    what they are without that record. *)
Lemma unparsed_week_counted_counterexample :
  build_report Samples.iso_to_datetime
    [("a", Samples.dated_form); ("b", Samples.undated_form)]
  = Returned Samples.mixed_report
  /\ parse_week_start Samples.iso_to_datetime (Week Samples.undated_row) = None
  /\ In (mkFlat Samples.undated_row None "NaT")
        (Summary_All Samples.mixed_report)
  /\ In (mkMonthRow "Unknown Campus" "NaT" 1 0)
        (Dashboard_Month Samples.mixed_report)
  /\ In (mkMonthWeekRow "Unknown Campus" "NaT" "Unknown Week" 1 0)
        (Dashboard_Month_Week Samples.mixed_report)
  /\ ~ excluded_from_rollups Samples.iso_to_datetime
         [Samples.dated_row; Samples.undated_row].
Proof.
  split; [|split; [|split; [|split; [|split]]]].
  - unfold build_report. rewrite mixed_records.
    change (Returned (assemble Samples.iso_to_datetime
                        [Samples.dated_row; Samples.undated_row])
            = Returned Samples.mixed_report).
    now rewrite mixed_assembled.
  - reflexivity.
  - simpl. auto.
  - simpl. auto.
  - simpl. auto.
  - intros [H _]. rewrite mixed_assembled in H. vm_compute in H.
    discriminate.
Qed.

End ReportFacts.

(* ===================================================================== *)
(** * Further properties of the debugger parser *)
(* ===================================================================== *)

Module DebuggerParse.

Import Layout LayoutFacts RangeFacts LayoutSpec Debugger.

Lemma range_from_zero (n : nat) : range 0 n = seq 0 n.
Proof. unfold range. now rewrite Nat.sub_0_r. Qed.

(** The day tokens of a row are the day-start columns collected on it. *)
Lemma day_tokens_collected (df : DataFrame) (r : nat) :
  day_tokens df r = length (collect_day_starts df r).
Proof.
  unfold day_tokens, collect_day_starts, iloc_row, count_true.
  rewrite range_from_zero.
  induction (seq 0 (shape1 df)) as [|c l IH]; simpl.
  - reflexivity.
  - unfold id at 1. destruct (is_day_token (iat df r c)); simpl.
    + f_equal. exact IH.
    + exact IH.
Qed.

Lemma day_starts_length (df : DataFrame) (r : nat) :
  length (day_starts df r) = day_tokens df r.
Proof.
  rewrite DebuggerLayout.day_starts_layout,
    <- DebuggerLayout.collect_day_starts_tagged.
  symmetry. apply day_tokens_collected.
Qed.

Lemma find_day_row_tokens (df : DataFrame) (r : nat) :
  find_day_row df = Some r -> 2 <= length (day_starts df r).
Proof.
  intros H. apply DebuggerFacts.find_day_row_first in H.
  destruct H as (_ & H & _). now rewrite day_starts_length.
Qed.

(** X1. The failure "Could not locate day start columns" is never
    returned: a row is taken as day row only when it holds two day tokens
    or more, and each of them is a day-start column; a sheet that parses
    has two day-start columns or more. *)
Theorem day_starts_always_found (flag : bool) (dt : cell -> option date)
  (df : DataFrame) :
  parse_sheet flag dt df <> inr NoDayStarts
  /\ (forall recs info,
         parse_sheet flag dt df = inl (recs, info) ->
         2 <= length (day_starts df (info_day_row info))).
Proof.
  split.
  - unfold parse_sheet.
    destruct (find_day_row df) as [day_row|] eqn:Hd; [|discriminate].
    destruct (find_label_row df day_row) as [label_row|]; [|discriminate].
    pose proof (find_day_row_tokens df day_row Hd) as Hlen.
    destruct (day_starts df day_row) as [|d ds]; [simpl in Hlen; lia|].
    destruct (build_blocks df day_row label_row); [discriminate|].
    destruct (find_start_row df label_row); discriminate.
  - intros recs info H. apply DebuggerFacts.parse_sheet_inl in H.
    destruct H as (Hd & _). now apply find_day_row_tokens.
Qed.

Lemma day_starts_always_found_witness :
  2 <= length (day_starts Samples.scenario1 5).
Proof.
  exact (proj2 (day_starts_always_found true Samples.iso_to_datetime
                  Samples.scenario1) _ _ ScanFacts.scenario1_parse).
Defined.

(** The end row lies between the start row and the last row. *)
Lemma find_end_row_bounds (df : DataFrame) (start : nat) (bound : Z) :
  start < shape0 df -> (0 <= bound)%Z ->
  (Z.of_nat start <= find_end_row df start bound
   <= Z.of_nat (shape0 df) - 1)%Z.
Proof.
  intros Hs Hb. unfold find_end_row.
  destruct (find (fun r => 8 <=? na_in_first_ten df r)
                 (range start (shape0 df))) as [r|] eqn:E.
  - apply find_range_Some in E. destruct E as (Hr & _).
    destruct (Z.of_nat r - 1 <? Z.of_nat start)%Z eqn:Hlt.
    + apply Z.ltb_lt in Hlt. lia.
    + apply Z.ltb_ge in Hlt. lia.
  - rewrite Z.ltb_irrefl. lia.
Qed.

Lemma student_rows_seq (df : DataFrame) (start : nat) (end_row : Z) :
  (Z.of_nat start <= end_row <= Z.of_nat (shape0 df) - 1)%Z ->
  student_rows df start end_row
  = seq start (Z.to_nat (end_row - Z.of_nat start + 1)).
Proof.
  intros H. unfold student_rows, range. f_equal. lia.
Qed.

(** X2. On a sheet that parses, the label row lies one to five rows below
    the day row, the first student row below the label row and less than
    200 rows from it, the last student row between the first one and the
    last row of the sheet; the student rows are the rows from start to
    end, at least one, and the sheet has two columns or more. *)
Theorem parse_sheet_geometry (flag : bool) (dt : cell -> option date)
  (df : DataFrame) (recs : list DayMealCount) (info : Info) :
  parse_sheet flag dt df = inl (recs, info) ->
  info_day_row info < info_label_row info <= info_day_row info + 5
  /\ info_label_row info < info_start_row info < info_label_row info + 200
  /\ (Z.of_nat (info_start_row info) <= info_end_row info
      <= Z.of_nat (shape0 df) - 1)%Z
  /\ student_rows df (info_start_row info) (info_end_row info)
     = seq (info_start_row info)
           (Z.to_nat (info_end_row info - Z.of_nat (info_start_row info) + 1))
  /\ 1 <= length (student_rows df (info_start_row info) (info_end_row info))
  /\ 2 <= shape1 df.
Proof.
  intros H. apply DebuggerFacts.parse_sheet_inl in H.
  destruct H as (_ & Hl & _ & _ & _ & Hs & He & _).
  unfold find_label_row in Hl. apply find_range_Some in Hl.
  destruct Hl as (Hl & _).
  unfold find_start_row in Hs. apply find_range_Some in Hs.
  destruct Hs as (Hs & Hname & _).
  assert (Hb : (Z.of_nat (info_start_row info) <= info_end_row info
                <= Z.of_nat (shape0 df) - 1)%Z).
  { rewrite He. apply find_end_row_bounds; lia. }
  split; [lia|]. split; [lia|]. split; [exact Hb|].
  split; [now apply student_rows_seq|]. split.
  - rewrite student_rows_seq by exact Hb. rewrite length_seq. lia.
  - destruct (1 <? shape1 df) eqn:E; [apply Nat.ltb_lt in E; lia|].
    simpl in Hname. discriminate.
Qed.

Lemma parse_sheet_geometry_witness :
  Debugger.info_day_row Samples.sparse_roster_info
  < Debugger.info_label_row Samples.sparse_roster_info
  /\ 2 <= shape1 Samples.sparse_roster.
Proof.
  pose proof (parse_sheet_geometry true Samples.iso_to_datetime
                Samples.sparse_roster _ _ ScanFacts.sparse_roster_parse)
    as (H1 & _ & _ & _ & _ & H6).
  split; [apply H1 | exact H6].
Defined.

(** *** When each failure is reported *)

Lemma label_probe_value (x : cell) : label_probe x = true <-> x <> CAbsent.
Proof.
  unfold label_probe. destruct x; simpl; split; intros H; try congruence;
    try discriminate; try (exfalso; now apply H); try reflexivity.
  apply orb_true_r.
Qed.

Lemma row_without_value (df : DataFrame) (r : nat) :
  existsb label_probe (iloc_row df r) = false
  <-> forall c, c < shape1 df -> iat df r c = CAbsent.
Proof.
  unfold iloc_row. split.
  - intros H c Hc.
    destruct (iat df r c) eqn:E; [reflexivity| | |];
      (assert (Hex : existsb label_probe (map (iat df r) (seq 0 (shape1 df)))
                     = true);
       [apply existsb_exists; exists (iat df r c); split;
        [apply in_map, in_seq; lia
        |apply label_probe_value; rewrite E; discriminate]
       |congruence]).
  - intros H. destruct (existsb label_probe
                          (map (iat df r) (seq 0 (shape1 df)))) eqn:E;
      [|reflexivity].
    apply existsb_exists in E. destruct E as (x & Hx & Hp).
    apply in_map_iff in Hx. destruct Hx as (c & <- & Hc).
    apply in_seq in Hc. apply label_probe_value in Hp.
    exfalso. apply Hp. apply H. lia.
Qed.

Lemma find_label_row_none (df : DataFrame) (day_row : nat) :
  find_label_row df day_row = None
  <-> forall r c, day_row < r < Nat.min (day_row + 6) (shape0 df) ->
                  c < shape1 df -> iat df r c = CAbsent.
Proof.
  unfold find_label_row. rewrite find_range_None. split.
  - intros H r c Hr Hc. apply (proj1 (row_without_value df r)); [|exact Hc].
    apply H. lia.
  - intros H r Hr. apply row_without_value. intros c Hc. apply H; [lia|exact Hc].
Qed.

Lemma dict_set_nonempty {V} (k : string) (v : V) (d : list (string * V)) :
  dict_set k v d <> [].
Proof.
  destruct d as [|[k0 v0] d]; simpl; [discriminate|].
  destruct (String.eqb k0 k); discriminate.
Qed.

Lemma fold_store_nonempty (lab : nat * nat * string -> list (nat * label))
  (rs : list (nat * nat * string)) (d : list (string * list (nat * label))) :
  d <> [] -> fold_left (store lab) rs d <> [].
Proof.
  revert d. induction rs as [|rng rs IH]; intros d Hd; simpl; [assumption|].
  apply IH. unfold store. destruct (lab rng); [assumption|].
  apply dict_set_nonempty.
Qed.

Lemma fold_store_empty (lab : nat * nat * string -> list (nat * label))
  (rs : list (nat * nat * string)) :
  fold_left (store lab) rs [] = [] <-> forall rng, In rng rs -> lab rng = [].
Proof.
  induction rs as [|rng rs IH]; simpl.
  - split; [intros _ rng [] | reflexivity].
  - unfold store at 2. destruct (lab rng) as [|l0 ls] eqn:E.
    + rewrite IH. split.
      * intros H x [<-|Hx]; auto.
      * intros H x Hx. apply H. now right.
    + split.
      * intros H. exfalso.
        apply (fold_store_nonempty lab rs (dict_set (snd rng) (l0 :: ls) []));
          [apply dict_set_nonempty | exact H].
      * intros H. specialize (H rng (or_introl eq_refl)). congruence.
Qed.

Lemma build_blocks_store (df : DataFrame) (day_row label_row : nat) :
  build_blocks df day_row label_row
  = fold_left (store (BlockSpec.debugger_labels df label_row))
              (block_ranges (day_starts df day_row) (shape1 df)) [].
Proof.
  unfold build_blocks. apply DebuggerLayout.fold_left_ext.
  intros d [[c e] day]. unfold add_block, store, BlockSpec.debugger_labels.
  simpl fst. simpl snd.
  rewrite DebuggerLayout.collect_labels_tagged.
  rewrite <- DebuggerLayout.block_labels_layout.
  now destruct (block_labels df label_row c e).
Qed.

Lemma tagged_nil {B} (h : nat -> option B) (l : list nat) :
  tagged h l = [] <-> forall c, In c l -> h c = None.
Proof.
  split.
  - intros H c Hc. destruct (h c) as [b|] eqn:E; [|reflexivity].
    assert (Hin : In (c, b) (tagged h l)) by (apply tagged_In; auto).
    rewrite H in Hin. destruct Hin.
  - intros H. destruct (tagged h l) as [|[c b] rest] eqn:E; [reflexivity|].
    assert (Hin : In (c, b) (tagged h l)) by (rewrite E; now left).
    apply tagged_In in Hin. destruct Hin as [Hc Hb].
    rewrite (H c Hc) in Hb. discriminate.
Qed.

Lemma debugger_labels_nil (df : DataFrame) (label_row : nat)
  (rng : nat * nat * string) :
  BlockSpec.debugger_labels df label_row rng = []
  <-> forall c, in_block c rng -> fuzzy_label (iat df label_row c) = None.
Proof.
  unfold BlockSpec.debugger_labels. rewrite DebuggerLayout.block_labels_layout.
  unfold labels_of. rewrite tagged_nil. unfold in_block.
  split; intros H c Hc; apply H.
  - apply in_range. exact Hc.
  - apply in_range in Hc. exact Hc.
Qed.

(** No block is kept exactly when no cell of the label row, from the first
    day-start column to the last column, is a label. *)
Lemma build_blocks_nil (df : DataFrame) (day_row label_row c0 : nat)
  (d0 : string) (rest : list (nat * string)) :
  day_starts df day_row = (c0, d0) :: rest ->
  build_blocks df day_row label_row = []
  <-> forall c, c0 <= c < shape1 df ->
                fuzzy_label (iat df label_row c) = None.
Proof.
  intros Hds. rewrite build_blocks_store, fold_store_empty.
  assert (Hchain : chain c0 (block_ranges (day_starts df day_row) (shape1 df))
                         (shape1 df)).
  { rewrite DebuggerLayout.day_starts_layout in *.
    eapply block_ranges_chain; [exact Hds| |].
    - apply tagged_sorted.
    - eapply Forall_impl; [|apply tagged_bounds]. simpl. intros a Ha. lia. }
  split.
  - intros H c Hc.
    apply (chain_covers _ _ _ c Hchain) in Hc. destruct Hc as (rng & Hin & Hb).
    apply (proj1 (debugger_labels_nil df label_row rng) (H rng Hin) c Hb).
  - intros H rng Hin. apply debugger_labels_nil. intros c Hb.
    apply H. apply (chain_covers _ _ _ c Hchain). eauto.
Qed.

Lemma find_start_row_none (df : DataFrame) (label_row : nat) :
  find_start_row df label_row = None
  <-> forall r, label_row < r < Nat.min (label_row + 200) (shape0 df) ->
                shape1 df < 2 \/ text_nonblank (iat df r 1) = false.
Proof.
  unfold find_start_row. rewrite find_range_None. split.
  - intros H r Hr. specialize (H r). destruct (1 <? shape1 df) eqn:E.
    + right. apply H. lia.
    + left. apply Nat.ltb_ge in E. lia.
  - intros H r Hr. destruct (1 <? shape1 df) eqn:E; [|reflexivity].
    apply Nat.ltb_lt in E. destruct (H r) as [Hc|Hn]; [lia|lia|exact Hn].
Qed.

(** X3. Each failure reason is reported under an exact condition.
    "No label row": a day row exists and every cell of the (at most five)
    rows below it is absent - a blank text does count as a value.
    "No meal/attendance labels": day row and label row exist and no cell
    of the label row, from the first day-start column on, is a label.
    "No student rows": blocks exist and no row of the (at most 199) rows
    below the label row holds a non-blank text in column 1. *)
Theorem failure_reasons_exact (flag : bool) (dt : cell -> option date)
  (df : DataFrame) :
  (parse_sheet flag dt df = inr NoLabelRow
   <-> exists day_row,
         find_day_row df = Some day_row
         /\ forall r c, day_row < r < Nat.min (day_row + 6) (shape0 df) ->
                        c < shape1 df -> iat df r c = CAbsent)
  /\ (parse_sheet flag dt df = inr NoLabels
      <-> exists day_row label_row c0 d0 rest,
            find_day_row df = Some day_row
            /\ find_label_row df day_row = Some label_row
            /\ day_starts df day_row = (c0, d0) :: rest
            /\ forall c, c0 <= c < shape1 df ->
                         fuzzy_label (iat df label_row c) = None)
  /\ (parse_sheet flag dt df = inr NoStudentRows
      <-> exists day_row label_row,
            find_day_row df = Some day_row
            /\ find_label_row df day_row = Some label_row
            /\ build_blocks df day_row label_row <> []
            /\ forall r,
                 label_row < r < Nat.min (label_row + 200) (shape0 df) ->
                 shape1 df < 2 \/ text_nonblank (iat df r 1) = false).
Proof.
  unfold parse_sheet.
  destruct (find_day_row df) as [day_row|] eqn:Hd.
  2:{ split; [|split]; (split; [discriminate|]).
      - intros (x & H & _). discriminate.
      - intros (x & y & a & b & c & H & _). discriminate.
      - intros (x & y & H & _). discriminate. }
  pose proof (find_day_row_tokens df day_row Hd) as Hlen.
  destruct (find_label_row df day_row) as [label_row|] eqn:Hl.
  2:{ split; [|split].
      - split; [|reflexivity]. intros _. exists day_row. split; [reflexivity|].
        now apply find_label_row_none.
      - split; [discriminate|].
        intros (x & y & a & b & c & H1 & H2 & _).
        inversion H1; subst x. congruence.
      - split; [discriminate|].
        intros (x & y & H1 & H2 & _). inversion H1; subst x. congruence. }
  assert (Hnot_none : ~ (forall r c,
            day_row < r < Nat.min (day_row + 6) (shape0 df) ->
            c < shape1 df -> iat df r c = CAbsent)).
  { intros H. apply find_label_row_none in H. congruence. }
  destruct (day_starts df day_row) as [|[c0 d0] rest] eqn:Hds;
    [simpl in Hlen; lia|].
  pose proof (build_blocks_nil df day_row label_row c0 d0 rest Hds) as Hnil.
  destruct (build_blocks df day_row label_row) as [|b bs] eqn:Hb.
  { split; [|split].
    - split; [discriminate|].
      intros (x & H1 & H2). inversion H1; subst x. contradiction.
    - split; [|reflexivity]. intros _.
      exists day_row, label_row, c0, d0, rest.
      split; [reflexivity|]. split; [assumption|]. split; [assumption|].
      now apply Hnil.
    - split; [discriminate|].
      intros (x & y & H1 & H2 & H3 & _). inversion H1; subst x.
      rewrite Hl in H2; inversion H2; subst y. contradiction. }
  assert (Hsome_label : ~ (forall c, c0 <= c < shape1 df ->
                                     fuzzy_label (iat df label_row c) = None)).
  { intros H. apply Hnil in H. discriminate. }
  destruct (find_start_row df label_row) as [start_row|] eqn:Hs.
  - split; [|split]; (split; [discriminate|]).
    + intros (x & H1 & H2). inversion H1; subst x. contradiction.
    + intros (x & y & a & b' & c & H1 & H2 & H3 & H4).
      inversion H1; subst x. rewrite Hl in H2; inversion H2; subst y.
      rewrite Hds in H3; inversion H3; subst a b' c. contradiction.
    + intros (x & y & H1 & H2 & _ & H4). inversion H1; subst x.
      rewrite Hl in H2; inversion H2; subst y. apply find_start_row_none in H4. congruence.
  - split; [|split].
    + split; [discriminate|].
      intros (x & H1 & H2). inversion H1; subst x. contradiction.
    + split; [discriminate|].
      intros (x & y & a & b' & c & H1 & H2 & H3 & H4).
      inversion H1; subst x. rewrite Hl in H2; inversion H2; subst y.
      rewrite Hds in H3; inversion H3; subst a b' c. contradiction.
    + split; [|reflexivity]. intros _. exists day_row, label_row.
      split; [reflexivity|]. split; [assumption|].
      split; [rewrite Hb; discriminate|].
      now apply find_start_row_none.
Qed.

End DebuggerParse.

(* ===================================================================== *)
(** * Further properties of the records *)
(* ===================================================================== *)

Module RecordFacts.

Import Layout LayoutFacts AggregateFacts.

Lemma count_if_le {A} (p : A -> bool) (l : list A) : count_if p l <= length l.
Proof. unfold count_if. apply filter_length_le. Qed.

Lemma column_length (df : DataFrame) (rows : list nat) (c : nat) :
  length (column df rows c) = length rows.
Proof. unfold column. apply length_map. Qed.

Lemma att_present_le (flag : bool) (df : DataFrame) (rows : list nat)
  (cols : list (nat * label)) :
  Debugger.att_present flag df rows cols <= length rows.
Proof.
  assert (Hd : Debugger.att_direct df rows cols <= length rows).
  { unfold Debugger.att_direct. destruct (Debugger.att_cols cols); [lia|].
    rewrite <- (column_length df rows n). apply count_if_le. }
  unfold Debugger.att_present.
  destruct ((Debugger.att_direct df rows cols =? 0) && flag); [|exact Hd].
  destruct (Debugger.meal_cols cols); [exact Hd|].
  unfold Debugger.any_meal_rows. apply count_if_le.
Qed.

Lemma att_marked_le (df : DataFrame) (rows : list nat)
  (cols : list (nat * label)) :
  Monitor.att_marked df rows cols <= length rows.
Proof.
  unfold Monitor.att_marked. destruct (Monitor.att_cols cols); [lia|].
  rewrite <- (column_length df rows n). apply count_if_le.
Qed.

(** What a record of a block is made of. *)
Lemma debugger_record_inv (flag : bool) (df : DataFrame) (rows : list nat)
  (day : string) (cols : list (nat * label)) (rec : DayMealCount) :
  In rec (Debugger.count_block flag df rows (day, cols)) ->
  exists col, In (col, Meal rec) cols /\ is_meal (Meal rec) = true
              /\ Day rec = day
              /\ MarkedCount rec
                 = count_if Debugger.nonempty_mark (column df rows col)
              /\ AttendanceMarked rec = Debugger.att_present flag df rows cols.
Proof.
  unfold Debugger.count_block. rewrite in_flat_map.
  intros ([c lab] & Hin & Hrec). destruct (is_meal lab) eqn:Hm.
  - destruct Hrec as [<-|[]]. exists c. simpl. auto.
  - destruct Hrec.
Qed.

Lemma monitor_record_inv (df : DataFrame) (rows : list nat)
  (day : string) (cols : list (nat * label)) (rec : DayMealCount) :
  In rec (Monitor.count_block df rows (day, cols)) ->
  exists col, In (col, Meal rec) cols /\ is_meal (Meal rec) = true
              /\ Day rec = day
              /\ MarkedCount rec
                 = count_if Monitor.str_mark (column df rows col)
              /\ AttendanceMarked rec = Monitor.att_marked df rows cols.
Proof.
  unfold Monitor.count_block. rewrite in_flat_map.
  intros ([c lab] & Hin & Hrec). destruct (is_meal lab) eqn:Hm.
  - destruct Hrec as [<-|[]]. exists c. simpl. auto.
  - destruct Hrec.
Qed.

(** X4. In both parsers every record of a sheet that parses carries a meal
    label, never Attendance; its day names a kept block that has this
    meal among its labels; and neither its mark count nor its attendance
    count exceeds the number of student rows. *)
Theorem records_within_bounds (flag : bool) (dt : cell -> option date)
  (df : DataFrame) :
  (forall recs info rec,
      Debugger.parse_sheet flag dt df = inl (recs, info) -> In rec recs ->
      let n := length (student_rows df (Debugger.info_start_row info)
                                    (Debugger.info_end_row info)) in
      is_meal (Meal rec) = true
      /\ (exists cols col, In (Day rec, cols) (Debugger.info_blocks info)
                           /\ In (col, Meal rec) cols)
      /\ MarkedCount rec <= n /\ AttendanceMarked rec <= n)
  /\ (forall p rec,
         Monitor.parse_sheet dt df = Returned (Some p) ->
         In rec (Monitor.Counts p) ->
         let n := length (student_rows df (fst (Monitor.StudentRows p))
                                       (snd (Monitor.StudentRows p))) in
         is_meal (Meal rec) = true
         /\ MarkedCount rec <= n /\ AttendanceMarked rec <= n).
Proof.
  split.
  - intros recs info rec H Hrec n.
    apply DebuggerFacts.parse_sheet_inl in H.
    destruct H as (_ & _ & _ & _ & _ & _ & _ & Hrecs).
    subst recs. unfold Debugger.aggregate in Hrec.
    apply in_flat_map in Hrec. destruct Hrec as ([day cols] & Hblk & Hrec).
    apply debugger_record_inv in Hrec.
    destruct Hrec as (col & Hcol & Hm & Hday & Hmc & Hatt).
    split; [exact Hm|]. split; [|split].
    + exists cols, col. rewrite Hday. auto.
    + rewrite Hmc. unfold n. rewrite <- (column_length df _ col).
      apply count_if_le.
    + rewrite Hatt. apply att_present_le.
  - intros p rec H Hrec n.
    apply MonitorFacts.parse_sheet_Some in H.
    destruct H as (day_row & start_row & dates & H).
    destruct H as (_ & _ & _ & _ & _ & _ & _ & Hrows & Hcounts & _).
    rewrite Hcounts in Hrec. unfold Monitor.aggregate in Hrec.
    apply in_flat_map in Hrec. destruct Hrec as ([day cols] & Hblk & Hrec).
    apply monitor_record_inv in Hrec.
    destruct Hrec as (col & Hcol & Hm & Hday & Hmc & Hatt).
    unfold n. rewrite Hrows. simpl fst. simpl snd.
    split; [exact Hm|]. split.
    + rewrite Hmc. rewrite <- (column_length df _ col). apply count_if_le.
    + rewrite Hatt. apply att_marked_le.
Qed.

Lemma records_within_bounds_witness :
  (forall rec, In rec Samples.sparse_roster_counts ->
               is_meal (Meal rec) = true /\ MarkedCount rec <= 3)
  /\ (forall rec, In rec (Monitor.Counts Samples.dated_parsed) ->
                  is_meal (Meal rec) = true /\ MarkedCount rec <= 1).
Proof.
  split.
  - intros rec Hrec.
    destruct (proj1 (records_within_bounds true Samples.iso_to_datetime
                       Samples.sparse_roster)
                _ _ rec ScanFacts.sparse_roster_parse Hrec)
      as (Hm & _ & Hc & _).
    split; [exact Hm | exact Hc].
  - intros rec Hrec.
    destruct (proj2 (records_within_bounds true Samples.iso_to_datetime
                       Samples.dated_form)
                _ rec ScanFacts.dated_form_parse Hrec)
      as (Hm & Hc & _).
    split; [exact Hm | exact Hc].
Defined.

(** Meals of the records of a block: its meal labels, in column order. *)
Lemma count_block_meals (flag : bool) (df : DataFrame) (rows : list nat)
  (day : string) (cols : list (nat * label)) :
  map (fun rec => (Day rec, Meal rec))
      (Debugger.count_block flag df rows (day, cols))
  = map (fun lab => (day, lab)) (filter is_meal (map snd cols)).
Proof.
  unfold Debugger.count_block.
  generalize (Debugger.att_present flag df rows cols). intros a.
  induction cols as [|[c lab] cols IH]; simpl.
  - reflexivity.
  - destruct (is_meal lab); simpl; now rewrite IH.
Qed.

(** X5. The records of a sheet come block by block, in the order of the
    kept blocks, and inside a block one per meal label in column order;
    a block that has only attendance labels gives no record. *)
Theorem records_follow_blocks (flag : bool) (dt : cell -> option date)
  (df : DataFrame) (recs : list DayMealCount) (info : Debugger.Info) :
  Debugger.parse_sheet flag dt df = inl (recs, info) ->
  map (fun rec => (Day rec, Meal rec)) recs
  = flat_map (fun blk : string * list (nat * label) =>
                map (fun lab => (fst blk, lab))
                    (filter is_meal (map snd (snd blk))))
             (Debugger.info_blocks info)
  /\ (forall day cols,
         (forall c lab, In (c, lab) cols -> lab = At) ->
         Debugger.count_block flag df
           (student_rows df (Debugger.info_start_row info)
                         (Debugger.info_end_row info)) (day, cols) = []).
Proof.
  intros H. apply DebuggerFacts.parse_sheet_inl in H.
  destruct H as (_ & _ & _ & _ & _ & _ & _ & Hrecs). split.
  - subst recs. unfold Debugger.aggregate.
    induction (Debugger.info_blocks info) as [|[day cols] blocks IH]; simpl.
    + reflexivity.
    + rewrite map_app, IH. f_equal. apply count_block_meals.
  - intros day cols Hatt.
    destruct (Debugger.count_block flag df _ (day, cols)) as [|rec l] eqn:E;
      [reflexivity|].
    assert (Hin : In rec (Debugger.count_block flag df
                            (student_rows df (Debugger.info_start_row info)
                               (Debugger.info_end_row info)) (day, cols)))
      by (rewrite E; now left).
    apply debugger_record_inv in Hin.
    destruct Hin as (col & Hcol & Hm & _).
    rewrite (Hatt _ _ Hcol) in Hm. discriminate.
Qed.

Lemma records_follow_blocks_witness :
  map (fun rec => (Day rec, Meal rec)) Samples.scenario1_counts
  = [("Mon", B); ("Mon", L); ("Tue", P); ("Tue", B)].
Proof.
  exact (proj1 (records_follow_blocks true Samples.iso_to_datetime
                  Samples.scenario1 _ _ ScanFacts.scenario1_parse)).
Defined.

Lemma any_meal_rows_ge (df : DataFrame) (rows : list nat)
  (mcols : list nat) (c : nat) :
  In c mcols ->
  count_if Debugger.nonempty_mark (column df rows c)
  <= Debugger.any_meal_rows df rows mcols.
Proof.
  intros Hc. unfold Debugger.any_meal_rows, column, count_if.
  induction rows as [|r rows IH]; simpl; [lia|].
  destruct (Debugger.nonempty_mark (iat df r c)) eqn:E.
  - assert (Hex : existsb (fun c0 => Debugger.nonempty_mark (iat df r c0))
                          mcols = true)
      by (apply existsb_exists; eauto).
    rewrite Hex. simpl. lia.
  - destruct (existsb _ mcols); simpl; lia.
Qed.

(** X6. With the inference from meals enabled, no record shows meals
    against an attendance of zero: a record whose mark count is positive
    has a positive attendance count.  And the inference only ever raises
    the attendance count: without it the records are the same except for
    an attendance count that is at most the inferred one. *)
Theorem inference_fills_attendance (df : DataFrame) (rows : list nat)
  (day : string) (cols : list (nat * label)) :
  (forall rec, In rec (Debugger.count_block true df rows (day, cols)) ->
               0 < MarkedCount rec -> 0 < AttendanceMarked rec)
  /\ Forall2 (fun off on =>
                Day off = Day on /\ Meal off = Meal on
                /\ MarkedCount off = MarkedCount on
                /\ AttendanceMarked off <= AttendanceMarked on)
             (Debugger.count_block false df rows (day, cols))
             (Debugger.count_block true df rows (day, cols)).
Proof.
  split.
  - intros rec Hrec Hpos. apply debugger_record_inv in Hrec.
    destruct Hrec as (col & Hcol & Hm & _ & Hmc & Hatt).
    rewrite Hatt. unfold Debugger.att_present.
    destruct (Debugger.att_direct df rows cols) as [|a] eqn:Ha; [|simpl; lia].
    simpl.
    assert (Hin : In col (Debugger.meal_cols cols))
      by (apply meal_cols_In; eauto).
    pose proof (any_meal_rows_ge df rows _ col Hin) as Hge.
    destruct (Debugger.meal_cols cols); [destruct Hin|]. lia.
  - assert (Hle : Debugger.att_present false df rows cols
                  <= Debugger.att_present true df rows cols).
    { unfold Debugger.att_present. rewrite andb_false_r.
      destruct (Debugger.att_direct df rows cols) as [|a]; simpl; [lia|lia]. }
    unfold Debugger.count_block.
    generalize dependent (Debugger.att_present true df rows cols).
    generalize (Debugger.att_present false df rows cols).
    intros a0 a1 Hle.
    induction cols as [|[c lab] cols IH]; simpl; [constructor|].
    destruct (is_meal lab); simpl; [constructor; simpl; auto | exact IH].
Qed.

Lemma inference_fills_attendance_witness :
  0 < AttendanceMarked (mkCount "Mon" B 1 2).
Proof.
  apply (proj1 (inference_fills_attendance Samples.blank_attendance [2; 3]
                  "Mon" [(2, At); (3, B); (4, L)]) (mkCount "Mon" B 1 2)).
  - left. reflexivity.
  - simpl. lia.
Defined.

End RecordFacts.

(* ===================================================================== *)
(** * Further properties of the classifiers *)
(* ===================================================================== *)

Module ClassifierMore.

Import PyStr PyStrFacts Layout TextSpec.

(** X7. The monitoring parser is the stricter of the two: a cell it reads
    as a label is read as the same label by the debugger parser, a cell
    it counts as a mark is counted by the debugger parser too, so on the
    same column and rows its count never exceeds the debugger's. *)
Theorem strict_within_fuzzy (x : cell) :
  (forall lab, Monitor.exact_label x = Some lab -> fuzzy_label x = Some lab)
  /\ (Monitor.str_mark x = true -> Debugger.nonempty_mark x = true)
  /\ (forall df rows c,
         count_if Monitor.str_mark (column df rows c)
         <= count_if Debugger.nonempty_mark (column df rows c)).
Proof.
  assert (Hmark : forall y, Monitor.str_mark y = true ->
                            Debugger.nonempty_mark y = true).
  { intros [| | |s]; simpl; try discriminate.
    destruct (strip s); [discriminate | reflexivity]. }
  split; [|split].
  - intros lab. destruct x as [| | |s]; simpl; try discriminate.
    unfold fuzzy_label, Debugger.meal_label_from_token, Debugger.norm,
      Debugger.norm_text. simpl py_str.
    destruct (String.eqb_spec (strip s) "At") as [->|_];
      [intros H; inversion H; reflexivity|].
    destruct (String.eqb_spec (strip s) "B") as [->|_];
      [intros H; inversion H; reflexivity|].
    destruct (String.eqb_spec (strip s) "L") as [->|_];
      [intros H; inversion H; reflexivity|].
    destruct (String.eqb_spec (strip s) "P") as [->|_];
      [intros H; inversion H; reflexivity|].
    discriminate.
  - apply Hmark.
  - intros df rows c. unfold column, count_if.
    induction rows as [|r rows IH]; simpl; [lia|].
    destruct (Monitor.str_mark (iat df r c)) eqn:E.
    + rewrite (Hmark _ E). simpl. lia.
    + destruct (Debugger.nonempty_mark (iat df r c)); simpl; lia.
Qed.

Lemma strict_within_fuzzy_witness :
  fuzzy_label (CText " At ") = Some At
  /\ Debugger.nonempty_mark (CText " x ") = true.
Proof.
  pose proof (strict_within_fuzzy (CText " At ")) as (H1 & _).
  pose proof (strict_within_fuzzy (CText " x ")) as (_ & H2 & _).
  split; [apply H1; reflexivity | apply H2; reflexivity].
Defined.

(** *** Numbers on the label row *)

Lemma startswith_head (t p : string) (a : ascii) :
  startswith t (String a p) = true -> In a (list_ascii_of_string t).
Proof.
  destruct t as [|b t]; simpl; [discriminate|].
  intros H. apply andb_true_iff in H. destruct H as [H _].
  apply Ascii.eqb_eq in H. now left.
Qed.

Lemma contains_head (t p : string) (a : ascii) :
  contains t (String a p) = true -> In a (list_ascii_of_string t).
Proof.
  induction t as [|b t IH]; intros H.
  - cbn in H. discriminate.
  - cbn [contains] in H. apply orb_true_iff in H. destruct H as [H|H].
    + now apply (startswith_head _ p).
    + right. now apply IH.
Qed.

Lemma in_list_head (t : string) (l : list string) :
  in_list t l = true ->
  exists a p, In (String a p) l /\ In a (list_ascii_of_string t)
  \/ t = EmptyString /\ In EmptyString l.
Proof.
  intros H. apply in_list_In in H.
  destruct t as [|a p].
  - exists "a"%char, EmptyString. right. auto.
  - exists a, p. left. split; [assumption | now left].
Qed.

Ltac no_letter H Hfree :=
  let c := fresh "c" in
  first
    [ apply startswith_head in H
    | apply contains_head in H ];
  destruct (Hfree _ H) as (? & ? & ? & ? & ?); congruence.

(** A text without any of the letters a, b, l, p, s is no label. *)
Lemma letter_free_no_label (x : cell) :
  first_letter_free (Debugger.norm x) ->
  Debugger.meal_label_from_token x = None.
Proof.
  intros Hfree. unfold Debugger.meal_label_from_token.
  set (t := Debugger.norm x) in *.
  assert (Hlist : forall l,
            (forall w, In w l -> exists a p, w = String a p
                       /\ (a = "a" \/ a = "b" \/ a = "l" \/ a = "p"
                           \/ a = "s")%char) ->
            in_list t l = false).
  { intros l Hl. destruct (in_list t l) eqn:E; [|reflexivity].
    apply in_list_In in E. destruct (Hl t E) as (a & p & Ht & Ha).
    assert (Hin : In a (list_ascii_of_string t)) by (rewrite Ht; now left).
    destruct (Hfree a Hin) as (? & ? & ? & ? & ?).
    destruct Ha as [?|[?|[?|[?|?]]]]; congruence. }
  assert (Hsw : forall a p, (a = "a" \/ a = "b" \/ a = "l" \/ a = "p"
                             \/ a = "s")%char ->
                            startswith t (String a p) = false).
  { intros a p Ha. destruct (startswith t (String a p)) eqn:E; [|reflexivity].
    apply startswith_head in E. destruct (Hfree a E) as (? & ? & ? & ? & ?).
    destruct Ha as [?|[?|[?|[?|?]]]]; congruence. }
  assert (Hct : forall a p, (a = "a" \/ a = "b" \/ a = "l" \/ a = "p"
                             \/ a = "s")%char ->
                            contains t (String a p) = false).
  { intros a p Ha. destruct (contains t (String a p)) eqn:E; [|reflexivity].
    apply contains_head in E. destruct (Hfree a E) as (? & ? & ? & ? & ?).
    destruct Ha as [?|[?|[?|[?|?]]]]; congruence. }
  rewrite !Hsw, !Hct by tauto.
  rewrite !Hlist; [reflexivity| | |];
    intros w Hw; simpl in Hw;
    repeat (destruct Hw as [<-|Hw];
            [eexists; eexists; split; [reflexivity|tauto]|]);
    destruct Hw.
Qed.

Lemma uint_chars (u : Decimal.uint) (c : ascii) :
  In c (list_ascii_of_string (NilEmpty.string_of_uint u)) ->
  is_digit_or_minus c.
Proof.
  induction u; simpl; intros H; try destruct H as [<-|H]; auto;
    try (left; vm_compute; split; discriminate).
  destruct H.
Qed.

Lemma int_chars (z : Z) (c : ascii) :
  In c (list_ascii_of_string (py_str (CNum z))) -> is_digit_or_minus c.
Proof.
  simpl. unfold NilZero.string_of_int.
  destruct (Z.to_int z) as [u|u]; unfold NilZero.string_of_uint.
  - destruct u; simpl; intros H;
      try (destruct H as [<-|H];
           [left; vm_compute; split; discriminate
           |try destruct H; try (now apply (uint_chars u))]).
  - simpl. intros [<-|H]; [now right|].
    destruct u; simpl in H;
      try (destruct H as [<-|H];
           [left; vm_compute; split; discriminate
           |try destruct H; try (now apply (uint_chars u))]).
Qed.

Lemma lstrip_chars (s : string) (c : ascii) :
  In c (list_ascii_of_string (lstrip s)) -> In c (list_ascii_of_string s).
Proof.
  induction s as [|a s IH]; simpl; [tauto|].
  destruct (is_space a); [auto | simpl; tauto].
Qed.

Lemma rstrip_chars (s : string) (c : ascii) :
  In c (list_ascii_of_string (rstrip s)) -> In c (list_ascii_of_string s).
Proof.
  induction s as [|a s IH]; simpl; [tauto|].
  destruct (rstrip s) as [|b r] eqn:E.
  - destruct (is_space a); simpl; [tauto|]. intros [H|[]]. now left.
  - simpl. intros [H|H]; [now left|]. right. apply IH. exact H.
Qed.

Lemma strip_chars (s : string) (c : ascii) :
  In c (list_ascii_of_string (strip s)) -> In c (list_ascii_of_string s).
Proof. unfold strip. intros H. now apply lstrip_chars, rstrip_chars. Qed.

Lemma lower_chars (s : string) (c : ascii) :
  In c (list_ascii_of_string (lower s)) ->
  exists c0, In c0 (list_ascii_of_string s) /\ c = lower_char c0.
Proof.
  induction s as [|a s IH]; simpl; [tauto|].
  intros [<-|H]; [eauto|]. destruct (IH H) as (c0 & H0 & ->). eauto.
Qed.

Lemma keep_chars (s : string) (c : ascii) :
  In c (list_ascii_of_string (keep_lower_alnum_space s)) ->
  In c (list_ascii_of_string s) /\ is_lower_alnum_space c = true.
Proof.
  induction s as [|a s IH]; simpl; [tauto|].
  destruct (is_lower_alnum_space a) eqn:E; simpl.
  - intros [<-|H]; [auto|]. destruct (IH H). auto.
  - intros H. destruct (IH H). auto.
Qed.

Lemma lower_digit_or_minus (c : ascii) :
  is_digit_or_minus c -> lower_char c = c.
Proof.
  unfold is_digit_or_minus, lower_char. intros [H| ->]; [|reflexivity].
  destruct ((65 <=? N_of_ascii c) && (N_of_ascii c <=? 90))%N eqn:E1.
  { apply andb_true_iff in E1. destruct E1 as [E1 _].
    apply N.leb_le in E1. lia. }
  destruct ((192 <=? N_of_ascii c) && (N_of_ascii c <=? 222)
            && negb (N_of_ascii c =? 215))%N eqn:E2; [|reflexivity].
  apply andb_true_iff in E2. destruct E2 as [E2 _].
  apply andb_true_iff in E2. destruct E2 as [E2 _].
  apply N.leb_le in E2. lia.
Qed.

Lemma number_letter_free (z : Z) :
  first_letter_free (Debugger.norm (CNum z)).
Proof.
  unfold first_letter_free, Debugger.norm, Debugger.norm_text. intros c Hc.
  apply keep_chars in Hc. destruct Hc as [Hc _].
  apply lower_chars in Hc. destruct Hc as (c0 & Hc0 & ->).
  apply strip_chars, int_chars in Hc0.
  rewrite (lower_digit_or_minus c0 Hc0).
  destruct Hc0 as [Hd| ->].
  - repeat split; intros ->; vm_compute in Hd; destruct Hd as [H1 H2];
      try (now apply H1); try (now apply H2).
  - repeat split; discriminate.
Qed.

(** X8. On the label row only texts can be labels: a number, a boolean or
    an absent cell is never taken for a label, whatever its value. *)
Theorem only_texts_are_labels (x : cell) :
  is_str x = false -> fuzzy_label x = None.
Proof.
  destruct x as [|z|b|s]; intros H; try discriminate.
  - reflexivity.
  - unfold fuzzy_label. simpl. apply letter_free_no_label.
    apply number_letter_free.
  - destruct b; reflexivity.
Qed.

Lemma only_texts_are_labels_witness :
  fuzzy_label (CNum (-120)) = None.
Proof. apply only_texts_are_labels. reflexivity. Defined.

(** *** The name of a day token *)

Lemma rstrip_head (s : string) (c : ascii) (r : string) :
  rstrip s = String c r -> exists r', s = String c r'.
Proof.
  destruct s as [|a s]; simpl; [discriminate|].
  destruct (rstrip s); [destruct (is_space a)|]; intros H; inversion H; eauto.
Qed.

Lemma lstrip_head (s : string) (c : ascii) (r : string) :
  lstrip s = String c r -> is_space c = false.
Proof.
  induction s as [|a s IH]; simpl; [discriminate|].
  destruct (is_space a) eqn:E; [exact IH|].
  intros H. inversion H; subst. exact E.
Qed.

Lemma strip_head (s : string) (c : ascii) (r : string) :
  strip s = String c r -> is_space c = false.
Proof.
  unfold strip. intros H. apply rstrip_head in H. destruct H as [r' H].
  now apply lstrip_head in H.
Qed.

(** X9. The text of a day token always has a first word: once trimmed it
    is not empty and starts with a character that is not whitespace, so
    taking the first field of [v.strip().split()] cannot fail. *)
Theorem day_token_has_first_word (x : cell) :
  Debugger.is_day_token x = true ->
  exists s c w, x = CText s
                /\ split_first (strip s) = String c w
                /\ is_space c = false.
Proof.
  destruct x as [| | |s]; simpl; try discriminate. intros H.
  assert (Hnorm : Debugger.norm (CText s) <> EmptyString).
  { intros E. rewrite E in H. vm_compute in H. discriminate. }
  destruct (strip s) as [|c r] eqn:Es.
  { exfalso. apply Hnorm. unfold Debugger.norm, Debugger.norm_text.
    simpl py_str. now rewrite Es. }
  pose proof (strip_head s c r Es) as Hc.
  exists s, c, (take_word r). split; [reflexivity|]. split; [|exact Hc].
  rewrite Es. unfold split_first. cbn [lstrip]. rewrite Hc. cbn [take_word].
  rewrite Hc. reflexivity.
Qed.

Lemma day_token_has_first_word_witness :
  exists s c w, CText " Mon. 3/4" = CText s
                /\ split_first (strip s) = String c w
                /\ is_space c = false.
Proof. apply day_token_has_first_word. reflexivity. Defined.

End ClassifierMore.

(* ===================================================================== *)
(** * When the monitoring parser raises *)
(* ===================================================================== *)

Module MonitorParse.

Import Layout LayoutFacts RangeFacts MonitorFacts Monitor.






(** *** The header scan *)






(** *** The loops below the header *)








Section WeekDates.

Variable to_datetime : cell -> option date.




End WeekDates.

(** *** The loop of [build_report] over the sheets *)




End MonitorParse.

(* ===================================================================== *)
(** * What a result of the monitoring parser always satisfies *)
(* ===================================================================== *)

Module MonitorResult.

Import PyStr Layout LayoutFacts RangeFacts MonitorFacts Monitor ResultSpec.



(** *** The calendar order *)











End MonitorResult.

(* ===================================================================== *)
(** * Invariants of the monthly tables *)
(* ===================================================================== *)

Module ReportMore.

Import Report ReportFacts ReportSpec.

(** *** Keys taken once *)

Lemma distinct_NoDup (l : list (list string)) : NoDup (distinct key_eqb l).
Proof.
  induction l as [|k l IH]; simpl; constructor.
  - intros Hin. apply filter_In in Hin. destruct Hin as [_ H].
    rewrite key_eqb_refl in H. discriminate.
  - now apply NoDup_filter.
Qed.

Lemma sum_no_hit (K : list (list string)) (x : list string) :
  ~ In x K ->
  list_sum (map (fun k => if key_eqb x k then 1 else 0) K) = 0.
Proof.
  induction K as [|k K IH]; intros Hx; simpl; [reflexivity|].
  rewrite key_eqb_neq.
  - apply IH. intros H. apply Hx. now right.
  - intros ->. apply Hx. now left.
Qed.

Lemma sum_one_hit (K : list (list string)) (x : list string) :
  NoDup K -> In x K ->
  list_sum (map (fun k => if key_eqb x k then 1 else 0) K) = 1.
Proof.
  induction 1 as [|k K Hk Hnd IH]; intros Hin; [destruct Hin|].
  simpl. destruct Hin as [->|Hin].
  - rewrite key_eqb_refl. now rewrite (sum_no_hit K x Hk).
  - rewrite key_eqb_neq.
    + now apply IH.
    + intros ->. contradiction.
Qed.

Lemma list_sum_map_add {A} (f g : A -> nat) (l : list A) :
  list_sum (map (fun a => f a + g a) l)
  = list_sum (map f l) + list_sum (map g l).
Proof. induction l as [|a l IH]; simpl; [reflexivity | rewrite IH; lia]. Qed.

(** Over keys taken once that cover the rows, the group sizes add up to
    the number of rows. *)
Lemma sum_group_counts {R} (key : R -> list string) (rows : list R)
  (K : list (list string)) :
  NoDup K -> (forall r, In r rows -> In (key r) K) ->
  list_sum (map (group_count key rows) K) = length rows.
Proof.
  intros Hnd. induction rows as [|r rows IH]; intros Hcov.
  - unfold group_count, count_if. simpl. clear Hnd Hcov.
    induction K as [|k K IHK]; simpl; [reflexivity | exact IHK].
  - rewrite (map_ext (group_count key (r :: rows))
               (fun k => (if key_eqb (key r) k then 1 else 0)
                         + group_count key rows k)).
    + rewrite list_sum_map_add.
      rewrite (sum_one_hit K (key r) Hnd (Hcov r (or_introl eq_refl))).
      rewrite IH; [reflexivity|].
      intros r' Hr'. apply Hcov. now right.
    + intros k. unfold group_count, count_if. simpl.
      destruct (key_eqb (key r) k); reflexivity.
Qed.

Lemma merged_counts {R} (key : R -> list string) (rows : list R)
  (right : list (list string * Q)) :
  list_sum (map (fun x => snd (fst x))
                (merge_outer (group_size key rows) right))
  = length rows.
Proof.
  unfold merge_outer. rewrite map_map. simpl.
  rewrite (map_ext _ (group_count key rows)).
  - apply sum_group_counts; [apply distinct_NoDup|].
    intros r Hr. apply distinct_In, in_or_app. left.
    rewrite group_size_keys. apply distinct_In. now apply in_map.
  - intros k. apply lookup_group_size.
Qed.

(** *** Sorting moves rows, it neither adds nor drops any *)

Lemma insert_sorted_perm {A} (le : A -> A -> bool) (x : A) (l : list A) :
  Permutation (insert_sorted le x l) (x :: l).
Proof.
  induction l as [|y l IH]; simpl; [reflexivity|].
  destruct (le x y); [reflexivity|].
  rewrite IH. apply perm_swap.
Qed.

Lemma py_sorted_perm {A} (le : A -> A -> bool) (l : list A) :
  Permutation (py_sorted le l) l.
Proof.
  induction l as [|x l IH]; simpl; [reflexivity|].
  rewrite insert_sorted_perm. now constructor.
Qed.

Lemma list_sum_perm (l l' : list nat) :
  Permutation l l' -> list_sum l = list_sum l'.
Proof. induction 1; simpl; lia. Qed.

Lemma sorted_sum {A} (le : A -> A -> bool) (f : A -> nat) (l : list A) :
  list_sum (map f (py_sorted le l)) = list_sum (map f l).
Proof. apply list_sum_perm, Permutation_map, py_sorted_perm. Qed.

Lemma flagged_rows (dt : cell -> option date) (recs : list SummaryRow) :
  length (filter (fun f => Issue_MissingRecording (base f))
                 (map (add_columns dt) recs))
  = count_if Issue_MissingRecording recs.
Proof.
  unfold count_if. induction recs as [|r recs IH]; simpl; [reflexivity|].
  destruct (Issue_MissingRecording r); simpl; now rewrite IH.
Qed.

(** X13. No flagged record is lost or counted twice in the monthly
    tables: the MissingMealRecordings of [Dashboard_Month] add up to the
    number of records flagged as missing, and so do those of
    [Dashboard_Month_Week]. *)
Theorem flagged_records_conserved (dt : cell -> option date)
  (recs : list SummaryRow) :
  list_sum (map m_Missing (Dashboard_Month (assemble dt recs)))
  = count_if Issue_MissingRecording recs
  /\ list_sum (map w_Missing (Dashboard_Month_Week (assemble dt recs)))
     = count_if Issue_MissingRecording recs.
Proof.
  rewrite assemble_month, assemble_month_week.
  unfold dash_month, dash_month_week. rewrite !sorted_sum, !map_map.
  split.
  - rewrite (map_ext _ (fun x : list string * nat * Q => snd (fst x))).
    + rewrite merged_counts. apply flagged_rows.
    + intros [[k n] q]. reflexivity.
  - rewrite (map_ext _ (fun x : list string * nat * Q => snd (fst x))).
    + rewrite merged_counts. apply flagged_rows.
    + intros [[k n] q]. reflexivity.
Qed.

(** *** The share of days with all three meals *)

Lemma daily_flag_01 (rows : list FlatRow) (d : DailyRow) :
  In d (daily_ok rows) -> All3MealsRecorded d <= 1.
Proof.
  unfold daily_ok. intros H. apply in_map_iff in H.
  destruct H as (k & <- & _). unfold daily_row. simpl.
  destruct (_ =? 3); lia.
Qed.

Lemma sum_of_flags (l : list nat) :
  Forall (fun n => n <= 1) l -> list_sum l <= length l.
Proof. induction 1; simpl; lia. Qed.

Lemma mean_bounds (l : list nat) :
  Forall (fun n => n <= 1) l -> (0 <= mean l /\ mean l <= 1)%Q.
Proof.
  intros H. apply sum_of_flags in H. unfold mean.
  rewrite Qred_correct. unfold Qle. cbn [Qnum Qden].
  assert (Hlen : (Z.of_nat (length l) <= Z.pos (Pos.of_nat (length l)))%Z).
  { destruct (length l) as [|n]; [simpl; lia|].
    rewrite <- positive_nat_Z, Nat2Pos.id; lia. }
  lia.
Qed.

Lemma group_pct_bounds (dkey : DailyRow -> list string) (rows : list FlatRow)
  (k : list string) :
  (0 <= group_pct dkey (daily_ok rows) k
   /\ group_pct dkey (daily_ok rows) k <= 1)%Q.
Proof.
  unfold group_pct, group_mean.
  rewrite (lookup_map
             (fun k => mean (map All3MealsRecorded
                               (filter (fun r => key_eqb (dkey r) k)
                                       (daily_ok rows))))).
  destruct (existsb _ _).
  - apply mean_bounds. apply Forall_forall. intros n Hn.
    apply in_map_iff in Hn. destruct Hn as (d & <- & Hd).
    apply filter_In in Hd. destruct Hd as [Hd _].
    now apply (daily_flag_01 rows).
  - split; unfold Qle; simpl; lia.
Qed.

(** X14. The KPI Pct_Days_All3MealsRecorded of every row of both monthly
    tables is a fraction between 0 and 1. *)
Theorem kpi_is_a_fraction (dt : cell -> option date)
  (recs : list SummaryRow) :
  (forall row, In row (Dashboard_Month (assemble dt recs)) ->
               (0 <= m_Pct row /\ m_Pct row <= 1)%Q)
  /\ (forall row, In row (Dashboard_Month_Week (assemble dt recs)) ->
                  (0 <= w_Pct row /\ w_Pct row <= 1)%Q).
Proof.
  split; intros row Hrow.
  - rewrite assemble_month in Hrow. apply dash_month_In in Hrow.
    destruct Hrow as (x & Hx & ->). apply merged_rows in Hx.
    destruct Hx as (k & -> & _). simpl. apply group_pct_bounds.
  - rewrite assemble_month_week in Hrow. apply dash_month_week_In in Hrow.
    destruct Hrow as (x & Hx & ->). apply merged_rows in Hx.
    destruct Hx as (k & -> & _). simpl. apply group_pct_bounds.
Qed.

Lemma kpi_is_a_fraction_witness :
  (0 <= m_Pct (mkMonthRow "Unknown Campus" "2024-01" 0 0)
   /\ m_Pct (mkMonthRow "Unknown Campus" "2024-01" 0 0) <= 1)%Q.
Proof.
  apply (proj1 (kpi_is_a_fraction Samples.iso_to_datetime
                  [Samples.dated_row; Samples.undated_row])).
  rewrite mixed_assembled. left. reflexivity.
Defined.

(** *** The order of the rows *)

Lemma compare_lt_trans (a b c : string) :
  String.compare a b = Lt -> String.compare b c = Lt ->
  String.compare a c = Lt.
Proof.
  revert b c. induction a as [|x a IH]; intros [|y b] [|z c]; simpl;
    try discriminate; try reflexivity.
  destruct (Ascii.compare x y) eqn:Exy; try discriminate.
  - apply Ascii.compare_eq_iff in Exy. subst y.
    destruct (Ascii.compare x z); try discriminate; [apply IH | reflexivity].
  - intros _. destruct (Ascii.compare y z) eqn:Eyz; try discriminate.
    + apply Ascii.compare_eq_iff in Eyz. subst z. now rewrite Exy.
    + intros _. unfold Ascii.compare in *.
      pose proof (proj1 (N.compare_lt_iff _ _) Exy) as Hxy.
      pose proof (proj1 (N.compare_lt_iff _ _) Eyz) as Hyz.
      assert (H : (N_of_ascii x ?= N_of_ascii z)%N = Lt)
        by (apply N.compare_lt_iff; eapply N.lt_trans; eassumption).
      now rewrite H.
Qed.

Lemma ltb_trans (a b c : string) :
  String.ltb a b = true -> String.ltb b c = true -> String.ltb a c = true.
Proof.
  unfold String.ltb. intros H1 H2.
  destruct (String.compare a b) eqn:E1; try discriminate.
  destruct (String.compare b c) eqn:E2; try discriminate.
  now rewrite (compare_lt_trans a b c E1 E2).
Qed.

Lemma ltb_total (a b : string) :
  String.ltb a b = false -> String.eqb a b = false -> String.ltb b a = true.
Proof.
  unfold String.ltb. rewrite (String.compare_antisym b a). intros H1 H2.
  destruct (String.compare a b) eqn:E; simpl; try reflexivity;
    try discriminate.
  apply String.compare_eq_iff in E. subst. rewrite String.eqb_refl in H2.
  discriminate.
Qed.

Lemma lex_leb_total (a b : list string) :
  lex_leb a b = false -> lex_leb b a = true.
Proof.
  revert b. induction a as [|x a IH]; intros [|y b]; simpl;
    try discriminate; try reflexivity.
  intros H. apply orb_false_iff in H. destruct H as [Hlt Hrest].
  destruct (String.eqb x y) eqn:E.
  - simpl in Hrest. rewrite String.eqb_sym, E. simpl.
    rewrite (IH b Hrest). apply orb_true_r.
  - now rewrite (ltb_total x y Hlt E).
Qed.

Lemma lex_leb_trans (a b c : list string) :
  lex_leb a b = true -> lex_leb b c = true -> lex_leb a c = true.
Proof.
  revert b c. induction a as [|x a IH]; intros [|y b] [|z c]; simpl;
    try discriminate; try reflexivity.
  intros H1 H2.
  apply orb_true_iff in H1. apply orb_true_iff in H2.
  destruct H1 as [H1|H1]; destruct H2 as [H2|H2].
  - now rewrite (ltb_trans x y z H1 H2).
  - apply andb_true_iff in H2. destruct H2 as [H2 _].
    apply String.eqb_eq in H2. subst z. now rewrite H1.
  - apply andb_true_iff in H1. destruct H1 as [H1 _].
    apply String.eqb_eq in H1. subst y. now rewrite H2.
  - apply andb_true_iff in H1. destruct H1 as [H1 H1'].
    apply andb_true_iff in H2. destruct H2 as [H2 H2'].
    apply String.eqb_eq in H1, H2. subst y z.
    rewrite String.eqb_refl, (IH b c H1' H2'). apply orb_true_r.
Qed.

Section Sorting.

Context {A : Type}.
Variable le : A -> A -> bool.
Hypothesis le_total : forall a b, le a b = false -> le b a = true.
Hypothesis le_trans :
  forall a b c, le a b = true -> le b c = true -> le a c = true.

Lemma insert_sorted_Sorted (x : A) (l : list A) :
  Sorted (fun a b => le a b = true) l ->
  Sorted (fun a b => le a b = true) (insert_sorted le x l).
Proof.
  induction l as [|y l IH]; intros Hs; simpl.
  - repeat constructor.
  - destruct (le x y) eqn:E.
    + constructor; [assumption | now constructor].
    + inversion Hs as [|? ? Hs' Hhd]; subst.
      constructor; [now apply IH|].
      destruct l as [|z l]; simpl.
      * constructor. now apply le_total.
      * destruct (le x z); constructor.
        -- now apply le_total.
        -- now inversion Hhd.
Qed.

Lemma py_sorted_Sorted (l : list A) :
  StronglySorted (fun a b => le a b = true) (py_sorted le l).
Proof.
  apply Sorted_StronglySorted.
  - intros a b c. apply le_trans.
  - induction l as [|x l IH]; simpl; [constructor|].
    now apply insert_sorted_Sorted.
Qed.

End Sorting.

Lemma NoDup_map_in {A B} (f : A -> B) (l : list A) :
  (forall x y, In x l -> In y l -> f x = f y -> x = y) ->
  NoDup l -> NoDup (map f l).
Proof.
  intros Hinj. induction 1 as [|a l Ha Hnd IH]; simpl; constructor.
  - intros Hin. apply in_map_iff in Hin. destruct Hin as (b & Hb & Hbl).
    assert (b = a) by (apply Hinj; [now right | now left | assumption]).
    subst b. contradiction.
  - apply IH. intros x y Hx Hy. apply Hinj; now right.
Qed.

Lemma merge_outer_keys (left : list (list string * nat))
  (right : list (list string * Q)) :
  map (fun x => fst (fst x)) (merge_outer left right)
  = distinct key_eqb (map fst left ++ map fst right).
Proof. unfold merge_outer. rewrite map_map. simpl. apply map_id. Qed.

Lemma map_through_keys {B} (g : list string -> B)
  (f : list string * nat * Q -> B) (l : list (list string * nat * Q)) :
  (forall x, f x = g (fst (fst x))) ->
  map f l = map g (map (fun x => fst (fst x)) l).
Proof. intros H. rewrite map_map. now apply map_ext. Qed.

(** X15. [Dashboard_Month] holds one row per campus and month and
    [Dashboard_Month_Week] one row per campus, month and week; the rows
    of the former are ordered by month, then campus, those of the latter
    by month, then week, then campus. *)
Theorem dashboards_keyed_and_sorted (dt : cell -> option date)
  (recs : list SummaryRow) :
  NoDup (map (fun r => (m_Campus r, m_Month r))
             (Dashboard_Month (assemble dt recs)))
  /\ StronglySorted (fun a b => month_le a b = true)
                    (Dashboard_Month (assemble dt recs))
  /\ NoDup (map (fun r => (w_Campus r, w_Month r, w_Week r))
                (Dashboard_Month_Week (assemble dt recs)))
  /\ StronglySorted (fun a b => month_week_le a b = true)
                    (Dashboard_Month_Week (assemble dt recs)).
Proof.
  rewrite assemble_month, assemble_month_week.
  split; [|split; [|split]].
  - unfold dash_month.
    eapply Permutation_NoDup;
      [apply Permutation_sym, Permutation_map, py_sorted_perm|].
    rewrite map_map.
    rewrite (map_through_keys
               (fun k => (nth 0 k EmptyString, nth 1 k EmptyString)))
      by (intros [[k n] q]; reflexivity).
    rewrite merge_outer_keys.
    apply NoDup_map_in; [|apply distinct_NoDup].
    intros k1 k2 H1 H2.
    apply (proj1 (distinct_In _ _)) in H1, H2.
    rewrite group_size_keys, group_mean_keys in H1, H2.
    assert (Hshape : forall k,
               In k (distinct key_eqb
                       (map key_campus_month
                          (filter (fun f => Issue_MissingRecording (base f))
                                  (map (add_columns dt) recs)))
                     ++ distinct key_eqb
                          (map (fun d => [d_Campus d; d_Month d])
                               (daily_ok (map (add_columns dt) recs)))) ->
               exists c m, k = [c; m]).
    { intros k Hk. apply in_app_or in Hk.
      destruct Hk as [Hk|Hk]; apply (proj1 (distinct_In _ _)) in Hk;
        apply in_map_iff in Hk; destruct Hk as (o & <- & _);
        eexists; eexists; reflexivity. }
    destruct (Hshape k1 H1) as (c1 & m1 & ->).
    destruct (Hshape k2 H2) as (c2 & m2 & ->).
    simpl. intros H. now inversion H.
  - unfold dash_month. apply py_sorted_Sorted.
    + intros a b. apply lex_leb_total.
    + intros a b c. apply lex_leb_trans.
  - unfold dash_month_week.
    eapply Permutation_NoDup;
      [apply Permutation_sym, Permutation_map, py_sorted_perm|].
    rewrite map_map.
    rewrite (map_through_keys
               (fun k => (nth 0 k EmptyString, nth 1 k EmptyString,
                          nth 2 k EmptyString)))
      by (intros [[k n] q]; reflexivity).
    rewrite merge_outer_keys.
    apply NoDup_map_in; [|apply distinct_NoDup].
    intros k1 k2 H1 H2.
    apply (proj1 (distinct_In _ _)) in H1, H2.
    rewrite group_size_keys, group_mean_keys in H1, H2.
    assert (Hshape : forall k,
               In k (distinct key_eqb
                       (map key_campus_month_week
                          (filter (fun f => Issue_MissingRecording (base f))
                                  (map (add_columns dt) recs)))
                     ++ distinct key_eqb
                          (map (fun d => [d_Campus d; d_Month d; d_Week d])
                               (daily_ok (map (add_columns dt) recs)))) ->
               exists c m w, k = [c; m; w]).
    { intros k Hk. apply in_app_or in Hk.
      destruct Hk as [Hk|Hk]; apply (proj1 (distinct_In _ _)) in Hk;
        apply in_map_iff in Hk; destruct Hk as (o & <- & _);
        eexists; eexists; eexists; reflexivity. }
    destruct (Hshape k1 H1) as (c1 & m1 & w1 & ->).
    destruct (Hshape k2 H2) as (c2 & m2 & w2 & ->).
    simpl. intros H. now inversion H.
  - unfold dash_month_week. apply py_sorted_Sorted.
    + intros a b. apply lex_leb_total.
    + intros a b c. apply lex_leb_trans.
Qed.

End ReportMore.

(* ===================================================================== *)
(** * The week text written by [build_report] and read back by it *)
(* ===================================================================== *)

Module WeekText.

Import PyStr Report TextSpec.

Lemma chars_append (a b : string) :
  list_ascii_of_string (String.append a b) = list_ascii_of_string a ++ list_ascii_of_string b.
Proof. induction a as [|c a IH]; simpl; [reflexivity | now rewrite IH]. Qed.

Lemma zero_is_digit : is_digit_or_minus "0"%char.
Proof. left. vm_compute. split; discriminate. Qed.

Lemma minus_is_minus : is_digit_or_minus "-"%char.
Proof. now right. Qed.

Lemma dec_chars (n : nat) : Forall is_digit_or_minus (list_ascii_of_string (dec n)).
Proof.
  apply Forall_forall. intros c. unfold dec, NilZero.string_of_uint.
  destruct (Nat.to_uint n) eqn:E;
    try (intros H; apply (ClassifierMore.uint_chars _ c H)).
  simpl. intros [<-|[]]. apply zero_is_digit.
Qed.

Lemma pad2_chars (n : nat) : Forall is_digit_or_minus (list_ascii_of_string (pad2 n)).
Proof.
  unfold pad2. destruct (n <? 10); [|apply dec_chars].
  simpl. constructor; [apply zero_is_digit | apply dec_chars].
Qed.

Lemma pad4_chars (n : nat) : Forall is_digit_or_minus (list_ascii_of_string (pad4 n)).
Proof.
  unfold pad4.
  destruct (n <? 10); [|destruct (n <? 100); [|destruct (n <? 1000)]];
    simpl; repeat (constructor; [apply zero_is_digit|]); apply dec_chars.
Qed.

Lemma date_str_chars (d : date) :
  Forall is_digit_or_minus (list_ascii_of_string (date_str d)).
Proof.
  unfold date_str. rewrite !chars_append.
  repeat (apply Forall_app; split);
    try apply pad4_chars; try apply pad2_chars;
    simpl; constructor; try apply minus_is_minus; constructor.
Qed.

Lemma digit_not_space (c : ascii) : is_digit_or_minus c -> is_space c = false.
Proof.
  intros [H| ->]; [|reflexivity]. unfold is_space.
  cbv zeta.
  repeat match goal with
         | |- context [(?a <=? ?b)%N] => destruct (N.leb_spec a b)
         | |- context [(?a =? ?b)%N] => destruct (N.eqb_spec a b)
         end; simpl; try reflexivity; lia.
Qed.

Lemma digit_not_t (c : ascii) :
  is_digit_or_minus c -> Ascii.eqb "t"%char c = false.
Proof.
  intros H. apply Ascii.eqb_neq. intros <-.
  destruct H as [H|H]; [|discriminate].
  vm_compute in H. destruct H as [_ H]. now apply H.
Qed.

Section Plain.

Variable s : string.
Hypothesis plain : Forall is_digit_or_minus (list_ascii_of_string s).

Lemma contains_to (rest : string) :
  contains (String.append s (String.append " to " rest)) "to" = true.
Proof.
  clear plain. generalize (String.append " to " rest) (eq_refl :
    contains (String.append " to " rest) "to" = true).
  intros tail Htail. induction s as [|c s' IH].
  - exact Htail.
  - cbn [String.append contains]. rewrite IH. apply orb_true_r.
Qed.

Lemma before_to (rest : string) :
  before "to" (String.append s (String.append " to " rest))
  = String.append s " ".
Proof.
  generalize (String.append " to " rest) (eq_refl :
    before "to" (String.append " to " rest) = " ").
  intros tail Htail. induction s as [|c s' IH]; [exact Htail|].
  inversion plain as [|? ? Hc Hs']; subst.
  cbn [String.append before startswith].
  rewrite (digit_not_t c Hc). cbn [andb].
  now rewrite (IH Hs').
Qed.

Lemma lstrip_plain (tail : string) :
  s <> EmptyString -> lstrip (String.append s tail) = String.append s tail.
Proof.
  destruct s as [|c s']; [contradiction|]. intros _.
  inversion plain as [|? ? Hc Hs']; subst.
  simpl. now rewrite (digit_not_space c Hc).
Qed.

Lemma rstrip_plain : rstrip (String.append s " ") = s.
Proof.
  induction s as [|c s' IH]; [reflexivity|].
  inversion plain as [|? ? Hc Hs']; subst.
  cbn [String.append rstrip]. rewrite (IH Hs').
  destruct s' as [|c' s'']; [|reflexivity].
  now rewrite (digit_not_space c Hc).
Qed.

Lemma strip_plain : strip (String.append s " ") = s.
Proof.
  unfold strip. destruct (String.eqb_spec s EmptyString) as [E|E].
  - rewrite E. reflexivity.
  - rewrite (lstrip_plain " " E). apply rstrip_plain.
Qed.

End Plain.

Lemma week_start_text (dt : cell -> option date) (d : date) (rest : string) :
  parse_week_start dt
    (String.append (date_str d) (String.append " to " rest))
  = dt (CText (date_str d)).
Proof.
  unfold parse_week_start.
  rewrite contains_to.
  rewrite (before_to _ (date_str_chars d)).
  now rewrite (strip_plain _ (date_str_chars d)).
Qed.

(** X16. The week of a record is read back as it was written: for a
    sheet with a week start, [parse_week_start] hands [to_datetime] the
    ISO text of that very date, so that - when [to_datetime] reads ISO
    dates back - the record gets the sheet's week start and the month
    [YYYY-MM] of it; for a sheet without week start the record gets no
    week start and the month text NaT. *)
Theorem week_text_round_trip (dt : cell -> option date)
  (p : Monitor.Parsed) (r : SummaryRow) :
  In r (sheet_records p) ->
  (forall ws, Monitor.WeekStart p = Some ws ->
              parse_week_start dt (Week r) = dt (CText (date_str ws))
              /\ (dt (CText (date_str ws)) = Some ws ->
                  add_columns dt r
                  = mkFlat r (Some ws)
                      (String.append (pad4 (year ws))
                         (String.append "-" (pad2 (month ws))))))
  /\ (Monitor.WeekStart p = None ->
      Week r = "Unknown Week" /\ add_columns dt r = mkFlat r None "NaT").
Proof.
  unfold sheet_records. intros Hin. apply in_map_iff in Hin.
  destruct Hin as ([day meal marked att] & <- & _).
  split.
  - intros ws Hws. rewrite Hws. cbn [Week].
    rewrite week_start_text. split; [reflexivity|].
    intros Hdt. unfold add_columns. cbn [Week].
    rewrite week_start_text, Hdt. reflexivity.
  - intros Hnone. rewrite Hnone. cbn [Week]. split; [reflexivity|].
    unfold add_columns. cbn [Week]. reflexivity.
Qed.

Lemma week_text_round_trip_witness :
  add_columns Samples.iso_to_datetime Samples.dated_row
  = mkFlat Samples.dated_row (Some (mkDate 2024 1 8)) "2024-01".
Proof.
  refine (proj2 (proj1 (week_text_round_trip Samples.iso_to_datetime
                          Samples.dated_parsed Samples.dated_row _)
                   (mkDate 2024 1 8) eq_refl) _).
  - left. reflexivity.
  - vm_compute. reflexivity.
Defined.

End WeekText.

(* ===================================================================== *)
(** * Splitting a child name into first and last name *)
(* ===================================================================== *)

Module RosterFacts.

Import PyStr PyStrFacts TextSpec Roster.

(** *** Words of a text *)

Lemma split_cons_char (c : ascii) (s : string) :
  is_space c = false ->
  split (String c s)
  = if at_gap s then String c EmptyString :: split s
    else cons_char c (split s).
Proof. intros H. simpl. now rewrite H. Qed.

Lemma split_skip (c : ascii) (s : string) :
  is_space c = true -> split (String c s) = split s.
Proof. intros H. simpl. now rewrite H. Qed.

Lemma split_words (s : string) : Forall word (split s).
Proof.
  induction s as [|c s IH]; [constructor|].
  destruct (is_space c) eqn:Hc; [now rewrite split_skip|].
  rewrite (split_cons_char c s Hc).
  assert (Hone : word (String c EmptyString)).
  { split; [discriminate|]. simpl. constructor; [exact Hc | constructor]. }
  destruct (at_gap s).
  - constructor; assumption.
  - unfold cons_char. destruct (split s) as [|w ws].
    + constructor; [exact Hone | constructor].
    + inversion IH as [|? ? [Hw Hchars] Hws]; subst.
      constructor; [|exact Hws]. split; [discriminate|].
      simpl. constructor; assumption.
Qed.

Lemma split_blank (s : string) : split s = [] <-> Spec.blank s.
Proof.
  unfold Spec.blank. induction s as [|c s IH].
  - simpl. split; [intros _ c [] | reflexivity].
  - destruct (is_space c) eqn:Hc.
    + rewrite (split_skip c s Hc), IH. simpl. split.
      * intros H c' [<-|Hin]; [assumption | now apply H].
      * intros H c' Hin. apply H. now right.
    + rewrite (split_cons_char c s Hc). split.
      * destruct (at_gap s); [discriminate|].
        unfold cons_char. destruct (split s); discriminate.
      * intros H. rewrite (H c (or_introl eq_refl)) in Hc. discriminate.
Qed.

Lemma split_lstrip (s : string) : split (lstrip s) = split s.
Proof.
  induction s as [|c s IH]; [reflexivity|].
  simpl lstrip. destruct (is_space c) eqn:Hc; [|reflexivity].
  now rewrite IH, (split_skip c s Hc).
Qed.

Lemma at_gap_rstrip (s : string) (c : ascii) (r : string) :
  rstrip s = String c r -> at_gap (rstrip s) = at_gap s.
Proof.
  intros H. destruct (ClassifierMore.rstrip_head s c r H) as [r' ->].
  now rewrite H.
Qed.

Lemma split_rstrip (s : string) : split (rstrip s) = split s.
Proof.
  induction s as [|c s IH]; [reflexivity|].
  simpl rstrip. destruct (rstrip s) as [|c2 r] eqn:E.
  - assert (Hs : split s = []) by (apply split_blank, rstrip_empty, E).
    destruct (is_space c) eqn:Hc.
    + now rewrite (split_skip c s Hc), Hs.
    + rewrite (split_cons_char c s Hc), Hs.
      destruct (at_gap s); simpl; now rewrite Hc.
  - destruct (is_space c) eqn:Hc.
    + rewrite (split_skip c _ Hc), (split_skip c s Hc). exact IH.
    + rewrite (split_cons_char c _ Hc), (split_cons_char c s Hc).
      rewrite IH. rewrite <- E, (at_gap_rstrip s c2 r E). reflexivity.
Qed.

Lemma split_strip (s : string) : split (strip s) = split s.
Proof. unfold strip. now rewrite split_rstrip, split_lstrip. Qed.

Lemma split_word_then_gap (w t : string) :
  word w -> at_gap t = true -> split (String.append w t) = w :: split t.
Proof.
  intros [Hne Hchars] Hgap. induction w as [|c w IH]; [contradiction|].
  inversion Hchars as [|? ? Hc Hw]; subst.
  cbn [String.append]. rewrite (split_cons_char c _ Hc).
  destruct w as [|c' w'].
  - simpl String.append. now rewrite Hgap.
  - assert (Hnext : at_gap (String.append (String c' w') t) = false).
    { inversion Hw; subst. simpl. assumption. }
    rewrite Hnext, IH; [reflexivity | discriminate | exact Hw].
Qed.

Lemma append_empty (s : string) : String.append s EmptyString = s.
Proof. induction s as [|c s IH]; simpl; [reflexivity | now rewrite IH]. Qed.

(** Joining words and splitting the result gives the words back. *)
Lemma split_join (ws : list string) : Forall word ws -> split (join ws) = ws.
Proof.
  induction 1 as [|w ws Hw Hws IH]; [reflexivity|].
  destruct ws as [|w2 ws'].
  - simpl join. rewrite <- (append_empty w) at 1.
    now rewrite (split_word_then_gap w EmptyString Hw eq_refl).
  - change (join (w :: w2 :: ws'))
      with (String.append w (String " " (join (w2 :: ws')))).
    rewrite (split_word_then_gap w (String " " (join (w2 :: ws'))) Hw
               eq_refl).
    rewrite (split_skip " " (join (w2 :: ws')) eq_refl). now rewrite IH.
Qed.

Lemma removelast_then_last (l : list string) :
  l <> [] -> l = removelast l ++ [last l EmptyString].
Proof. intros H. now apply app_removelast_last. Qed.

Lemma Forall_removelast {A} (P : A -> Prop) (l : list A) :
  Forall P l -> Forall P (removelast l).
Proof.
  induction 1 as [|a l Ha Hl IH]; [constructor|].
  simpl. destruct l; [constructor | now constructor].
Qed.

Lemma Forall_last (P : string -> Prop) (l : list string) :
  l <> [] -> Forall P l -> P (last l EmptyString).
Proof.
  intros Hne H. induction H as [|a l Ha Hl IH]; [contradiction|].
  simpl. destruct l; [exact Ha | apply IH; discriminate].
Qed.

Lemma join_nonempty (ws : list string) :
  Forall word ws -> ws <> [] -> join ws <> EmptyString.
Proof.
  intros H Hne. destruct H as [|w ws [Hw _] _]; [contradiction|].
  destruct ws; simpl; [exact Hw|].
  destruct w; [contradiction | discriminate].
Qed.

Lemma append_assoc (a b c : string) :
  String.append (String.append a b) c = String.append a (String.append b c).
Proof. induction a as [|x a IH]; simpl; [reflexivity | now rewrite IH]. Qed.

Lemma join_snoc (fs : list string) (w : string) :
  fs <> [] ->
  join (fs ++ [w]) = String.append (join fs) (String " " w).
Proof.
  induction fs as [|a fs IH]; intros Hne; [contradiction|].
  destruct fs as [|b r]; [reflexivity|].
  change (join ((a :: b :: r) ++ [w]))
    with (String.append a (String " " (join ((b :: r) ++ [w])))).
  change (join (a :: b :: r))
    with (String.append a (String " " (join (b :: r)))).
  rewrite IH by discriminate. now rewrite append_assoc.
Qed.

(** What [_split_name] returns, by the number of words of the text. *)
Lemma split_name_value (full : cell) :
  truthy full = true ->
  _split_name full
  = Returned match split (py_str full) with
             | [] => (EmptyString, EmptyString)
             | [w] => (w, EmptyString)
             | ws => (join (removelast ws), last ws EmptyString)
             end.
Proof.
  intros Ht. unfold _split_name. rewrite Ht, split_strip. cbn [negb orb].
  destruct (strip (py_str full)) as [|c r] eqn:E.
  - apply strip_empty, split_blank in E. now rewrite E.
  - cbn [nonempty negb].
    destruct (split (py_str full)) as [|w ws] eqn:Es.
    + apply split_blank, strip_empty in Es. congruence.
    + destruct ws as [|w2 ws']; reflexivity.
Qed.

(** X17. [_split_name] never raises.  It returns two empty names when
    its argument is false or blank; otherwise the first name is not
    empty, and the words of the first name followed by the last name are
    the words of the argument, none lost and in order.  The last name is
    a single word, or empty when the argument has one word only, and the
    first name is its words joined by single spaces. *)
Theorem split_name_keeps_words (full : cell) :
  exists first last,
    _split_name full = Returned (first, last)
    /\ (truthy full = false \/ Spec.blank (py_str full) ->
        first = EmptyString /\ last = EmptyString)
    /\ (truthy full = true -> ~ Spec.blank (py_str full) ->
        first <> EmptyString
        /\ split (py_str full)
           = split first ++ (if nonempty last then [last] else [])
        /\ (last = EmptyString <-> length (split (py_str full)) = 1))
    /\ (last = EmptyString \/ word last)
    /\ join (split first) = first.
Proof.
  destruct (truthy full) eqn:Ht.
  2:{ exists EmptyString, EmptyString. unfold _split_name. rewrite Ht.
      split; [reflexivity|]. split; [auto|].
      split; [discriminate|]. auto. }
  rewrite (split_name_value full Ht).
  pose proof (split_words (py_str full)) as Hwords.
  destruct (split (py_str full)) as [|w ws] eqn:Es.
  - exists EmptyString, EmptyString. split; [reflexivity|].
    split; [auto|]. split; [|auto].
    intros _ Hnb. exfalso. apply Hnb. now apply split_blank.
  - assert (Hnb : ~ Spec.blank (py_str full)).
    { intros Hb. apply split_blank in Hb. congruence. }
    inversion Hwords as [|? ? Hw Hws]; subst.
    destruct ws as [|w2 ws'].
    + exists w, EmptyString. split; [reflexivity|].
      assert (Hsw : split w = [w]) by (apply (split_join [w]); assumption).
      split; [intros [H|H]; [discriminate | contradiction]|].
      split; [|split; [now left | now rewrite Hsw]].
      intros _ _. split; [apply Hw|]. rewrite Hsw. simpl.
      split; [reflexivity | tauto].
    + set (l := w :: w2 :: ws') in *.
      assert (Hne : l <> []) by discriminate.
      assert (Hfirst : Forall word (removelast l))
        by now apply Forall_removelast.
      assert (Hlast : word (last l EmptyString))
        by (apply Forall_last; assumption).
      exists (join (removelast l)), (last l EmptyString).
      split; [reflexivity|].
      split; [intros [H|H]; [discriminate | contradiction]|].
      split; [|split; [now right | now rewrite split_join]].
      intros _ _. split; [|split].
      * apply join_nonempty; [exact Hfirst|].
        unfold l. cbn [removelast]. discriminate.
      * rewrite split_join by assumption.
        destruct Hlast as [Hl _].
        destruct (last l EmptyString) eqn:El; [contradiction|].
        cbn [nonempty]. rewrite <- El. now apply removelast_then_last.
      * destruct Hlast as [Hl _]. split; [contradiction|].
        unfold l. simpl. discriminate.
Qed.

(** The two names come from words: none or one when there is no last
    name, one or more before a last name. *)
Lemma split_name_shape (full : cell) (first last : string) :
  _split_name full = Returned (first, last) ->
  exists fs,
    Forall word fs /\ first = join fs
    /\ ((last = EmptyString /\ length fs <= 1) \/ (word last /\ fs <> [])).
Proof.
  destruct (truthy full) eqn:Ht.
  2:{ unfold _split_name. rewrite Ht. intros H. injection H as <- <-.
      exists []. split; [constructor|]. split; [reflexivity|]. left.
      split; [reflexivity | simpl; lia]. }
  rewrite (split_name_value full Ht).
  pose proof (split_words (py_str full)) as Hwords.
  destruct (split (py_str full)) as [|w [|w2 ws']] eqn:Es;
    intros H; injection H as <- <-.
  - exists []. split; [constructor|]. split; [reflexivity|]. left.
    split; [reflexivity | simpl; lia].
  - exists [w]. split; [exact Hwords|]. split; [reflexivity|]. left.
    split; [reflexivity | simpl; lia].
  - exists (removelast (w :: w2 :: ws')).
    split; [now apply Forall_removelast|]. split; [reflexivity|]. right.
    split; [apply (Forall_last word (w :: w2 :: ws'));
            [discriminate | exact Hwords]|].
    cbn [removelast]. discriminate.
Qed.

Lemma resplit (fs : list string) (last : string) :
  Forall word fs ->
  (last = EmptyString /\ length fs <= 1) \/ (word last /\ fs <> []) ->
  _split_name (CText (join (fs ++ if nonempty last then [last] else [])))
  = Returned (join fs, last).
Proof.
  intros Hfs [[-> Hlen]|[Hlast Hne]].
  - cbn [nonempty]. rewrite app_nil_r.
    destruct fs as [|w [|w2 r]]; [reflexivity| |simpl in Hlen; lia].
    assert (Ht : truthy (CText (join [w])) = true).
    { inversion Hfs as [|? ? [Hw _] _]; subst. simpl.
      destruct w; [contradiction | reflexivity]. }
    rewrite (split_name_value _ Ht).
    pose proof (split_join [w] Hfs) as E. cbn [join py_str] in *.
    now rewrite E.
  - destruct last as [|lc lr]; [destruct Hlast; contradiction|].
    cbn [nonempty].
    assert (Hall : Forall word (fs ++ [String lc lr])).
    { apply Forall_app. split; [exact Hfs|]. constructor; [exact Hlast|].
      constructor. }
    assert (Ht : truthy (CText (join (fs ++ [String lc lr]))) = true).
    { simpl truthy.
      destruct (join (fs ++ [String lc lr])) eqn:E; [|reflexivity].
      exfalso. apply (join_nonempty _ Hall); [|exact E].
      destruct fs; discriminate. }
    rewrite (split_name_value _ Ht). simpl py_str.
    rewrite (split_join _ Hall).
    pose proof (List.removelast_last fs (String lc lr)) as E1.
    pose proof (last_last fs (String lc lr) EmptyString) as E2.
    destruct (fs ++ [String lc lr]) as [|x [|y z]] eqn:Ea.
    + destruct fs; discriminate.
    + destruct fs as [|a [|b r]]; [contradiction|discriminate|discriminate].
    + change (Returned (join (removelast (x :: y :: z)),
                        last (x :: y :: z) EmptyString)
              = Returned (join fs, String lc lr)).
      now rewrite E1, E2.
Qed.

(** X18. Splitting is idempotent on its own output: a first name
    returned without last name splits into itself and no last name, and
    a first and last name written one after the other with a space
    between split into the same first and last name again. *)
Theorem split_name_idempotent (full : cell) (first last : string) :
  _split_name full = Returned (first, last) ->
  (last = EmptyString ->
   _split_name (CText first) = Returned (first, EmptyString))
  /\ (last <> EmptyString ->
      _split_name (CText (String.append first (String " " last)))
      = Returned (first, last)).
Proof.
  intros H. apply split_name_shape in H.
  destruct H as (fs & Hfs & -> & Hshape). split.
  - intros ->.
    pose proof (resplit fs EmptyString Hfs) as Hre.
    cbn [nonempty] in Hre. rewrite app_nil_r in Hre. apply Hre.
    destruct Hshape as [Hs|[[Hl _] _]]; [now left | contradiction].
  - intros Hne.
    destruct Hshape as [[Hl _]|[Hlast Hfne]]; [contradiction|].
    pose proof (resplit fs last Hfs (or_intror (conj Hlast Hfne))) as Hre.
    destruct last as [|lc lr]; [contradiction|]. cbn [nonempty] in Hre.
    now rewrite (join_snoc fs _ Hfne) in Hre.
Qed.

Lemma split_name_idempotent_witness :
  _split_name (CText "Mary Ann Lee") = Returned ("Mary Ann", "Lee").
Proof.
  apply (proj2 (split_name_idempotent (CText "  Mary  Ann Lee ")
                  "Mary Ann" "Lee" eq_refl)).
  discriminate.
Defined.

End RosterFacts.

(* ===================================================================== *)
(** * The week start scraped by the debugger parser *)
(* ===================================================================== *)

Module WeekStartFacts.

Import RangeFacts MonitorResult Debugger.






Section Window.

Variable to_datetime : cell -> option date.
Variable df : DataFrame.
Variable day_row : nat.




End Window.





End WeekStartFacts.
